(** * Thorlabs MCLS1 wrapper (catkit: thorlabs_mcls1/library)

    A shallow embedding of [MCLS1_Api.cpp] (the wrapper around the vendor
    UART library) and of [JOST_MCLS1.cpp] (the console demo), with the
    parts of the C runtime the wrapper leans on: [sprintf_s] with [%d] and
    [%f], [sscanf_s] with literal text, white space and [%[...]] scansets,
    [assert], and the DLL loader.

    Conventions.  A C [int] is a [Z]; a [float] is a [spec_float] (IEEE 754
    binary32 when [binary32] holds) read through its exact rational value;
    a [char] array is a [list ascii] holding all its bytes, and a C string
    is the part of such an array before its first NUL. *)

From Stdlib Require Import ZArith QArith Qpower Ascii String DecimalString SpecFloat Lia.
From stdpp Require Import base option list strings gmap.

Local Open Scope Z_scope.
Local Open Scope list_scope.

(** ** Characters, C string literals and char arrays *)

Module CStr.

Definition NUL : ascii := ascii_of_nat 0.
Definition HT : ascii := ascii_of_nat 9.
Definition LF : ascii := ascii_of_nat 10.
Definition VT : ascii := ascii_of_nat 11.
Definition FF : ascii := ascii_of_nat 12.
Definition CR : ascii := ascii_of_nat 13.
Definition SP : ascii := ascii_of_nat 32.

(** [isspace] of the "C" locale. *)
Definition isspace (c : ascii) : bool :=
  let n := nat_of_ascii c in
  (Nat.eqb n 32 || (Nat.leb 9 n && Nat.leb n 13))%bool.

(** The escape sequences of a C string literal that the sources use. *)
Fixpoint unescape (s : list ascii) : list ascii :=
  match s with
  | [] => []
  | c :: s' =>
      if Ascii.eqb c "\"%char then
        match s' with
        | [] => [c]
        | d :: s'' =>
            (if Ascii.eqb d "r"%char then CR
             else if Ascii.eqb d "n"%char then LF
             else if Ascii.eqb d "t"%char then HT
             else if Ascii.eqb d "0"%char then NUL
             else d) :: unescape s''
        end
      else c :: unescape s'
  end.

(** [c_lit "channel=%d\r"] is the C literal ["channel=%d\r"]: the
    backslash and the letter after it stand for one character. *)
Definition c_lit (s : string) : list ascii :=
  unescape (list_ascii_of_string s).

(** [char a[n] = {0}] *)
Definition zero_array (n : Z) : list ascii := replicate (Z.to_nat n) NUL.

(** Storing [bytes] at the start of the array [a]; what lies behind them
    stays, and nothing is stored past the end of [a]. *)
Definition store (a bytes : list ascii) : list ascii :=
  take (length a) (bytes ++ drop (length bytes) a).

(** [char a[n] = "lit"]: the literal, then zeros. *)
Definition char_array (n : Z) (lit : list ascii) : list ascii :=
  store (zero_array n) lit.

(** The C string held at the start of a char array (or of the memory
    behind a [char*]): the characters before the first NUL. *)
Fixpoint cstring (a : list ascii) : list ascii :=
  match a with
  | [] => []
  | c :: a' => if Ascii.eqb c NUL then [] else c :: cstring a'
  end.

(** Storing the C string [s] behind a [char*]: the characters, one NUL,
    and the old memory after them. *)
Definition poke (mem s : list ascii) : list ascii :=
  s ++ NUL :: drop (S (length s)) mem.

End CStr.
Import CStr.

(** ** Formatted output: [sprintf_s] with [%d] and [%f] *)

Module Printf.

Definition digit (d : Z) : ascii := ascii_of_nat (48 + Z.to_nat d).

(** Decimal digits of a non-negative integer, most significant first. *)
Fixpoint dec_fuel (fuel : nat) (n : Z) : list ascii :=
  match fuel with
  | O => []
  | S k => (if n <? 10 then [] else dec_fuel k (n / 10)) ++ [digit (n mod 10)]
  end.

Definition dec (n : Z) : list ascii := dec_fuel (S (Z.to_nat (Z.log2 n))) n.

(** Exactly [k] decimal digits (the low ones), zero padded. *)
Fixpoint dec_fixed (k : nat) (n : Z) : list ascii :=
  match k with
  | O => []
  | S k' => dec_fixed k' (n / 10) ++ [digit (n mod 10)]
  end.

Definition sign_prefix (neg : bool) : list ascii :=
  if neg then ["-"%char] else [].

(** [%d] *)
Definition fmt_d (n : Z) : list ascii :=
  if n <? 0 then "-"%char :: dec (- n) else dec n.

(** The 32-bit [int] of the Windows ABI. *)
Definition INT_MIN : Z := -2147483648.

(** *** [float] values *)

(** A C [float] is an IEEE 754 binary32 number. *)
Definition binary32 (x : spec_float) : Prop := valid_binary 24 128 x = true.

(** The magnitude [m * 2^e] of a finite number, as an exact rational. *)
Definition mag (m : positive) (e : Z) : Q :=
  match e with
  | Z0 => Z.pos m # 1
  | Zpos p => (Z.pos m * 2 ^ Z.pos p) # 1
  | Zneg p => Z.pos m # (2 ^ p)%positive
  end.

(** The value of a zero or finite number (infinities and NaN have none;
    [0] stands in and is never used for them). *)
Definition F2Q (x : spec_float) : Q :=
  match x with
  | S754_finite neg m e => if neg then Qopp (mag m e) else mag m e
  | _ => 0%Q
  end.

(** [x <= y] on floats: false as soon as one side is NaN, otherwise the
    order of the extended reals ([-0.0] and [+0.0] are equal). *)
Definition float_le (x y : spec_float) : bool :=
  match x, y with
  | S754_nan, _ | _, S754_nan => false
  | S754_infinity true, _ => true
  | _, S754_infinity false => true
  | S754_infinity false, _ => false
  | _, S754_infinity true => false
  | _, _ => Qle_bool (F2Q x) (F2Q y)
  end.

(** Rounding [num / den] to the nearest integer, ties to even. *)
Definition round_half_even (num : Z) (den : positive) : Z :=
  let q := num / Z.pos den in
  let r := num mod Z.pos den in
  match 2 * r ?= Z.pos den with
  | Lt => q
  | Gt => q + 1
  | Eq => if Z.even q then q else q + 1
  end.

(** The magnitude in millionths, correctly rounded: what [%f] prints
    with its default precision of six. *)
Definition millionths (m : positive) (e : Z) : Z :=
  round_half_even (Qnum (mag m e) * 1000000) (Qden (mag m e)).

(** [%f] of the double a [float] argument is promoted to (the promotion
    is exact).  Infinities and NaN print as the Universal CRT prints them. *)
Definition fmt_f (x : spec_float) : list ascii :=
  match x with
  | S754_zero neg => sign_prefix neg ++ list_ascii_of_string "0.000000"
  | S754_infinity neg => sign_prefix neg ++ list_ascii_of_string "inf"
  | S754_nan => list_ascii_of_string "nan"
  | S754_finite neg m e =>
      let n := millionths m e in
      sign_prefix neg ++ dec (n / 1000000) ++ "."%char :: dec_fixed 6 (n mod 1000000)
  end.

Inductive printf_arg : Type :=
| arg_int (n : Z)
| arg_double (x : spec_float).

(** Expanding a format: ordinary characters are copied, [%d] and [%f]
    consume one argument of the matching kind, [%%] is a percent sign.
    [None]: a directive outside this fragment or a mismatched argument. *)
Fixpoint format (fmt : list ascii) (args : list printf_arg) : option (list ascii) :=
  match fmt with
  | [] => Some []
  | c :: fmt' =>
      if Ascii.eqb c "%"%char then
        match fmt' with
        | [] => None
        | d :: fmt'' =>
            if Ascii.eqb d "d"%char then
              match args with
              | arg_int n :: args' => app (fmt_d n) <$> format fmt'' args'
              | _ => None
              end
            else if Ascii.eqb d "f"%char then
              match args with
              | arg_double x :: args' => app (fmt_f x) <$> format fmt'' args'
              | _ => None
              end
            else if Ascii.eqb d "%"%char then cons d <$> format fmt'' args
            else None
        end
      else cons c <$> format fmt' args
  end.

(** [sprintf_s(buffer, sizeOfBuffer, fmt, args...)].  The expansion and its
    terminating NUL must fit in [sizeOfBuffer] bytes; then they are stored
    and the bytes behind the NUL are left alone.  Otherwise the invalid
    parameter handler is invoked ([None]); the wrapper installs none, so
    the default one ends the process. *)
Definition sprintf_s (buffer : list ascii) (sizeOfBuffer : Z)
    (fmt : list ascii) (args : list printf_arg) : option (list ascii) :=
  match format fmt args with
  | Some s =>
      if Z.of_nat (length s) <? sizeOfBuffer then Some (store buffer (s ++ [NUL]))
      else None
  | None => None
  end.

End Printf.
Import Printf.

(** ** Formatted input: [sscanf_s] with literals, white space and scansets *)

Module Scanf.

Inductive set_item : Type :=
| item_char (c : ascii)
| item_range (lo hi : ascii).

Inductive directive : Type :=
| d_space
| d_lit (c : ascii)
| d_set (negated : bool) (items : list set_item).

Definition in_item (c : ascii) (i : set_item) : bool :=
  match i with
  | item_char x => Ascii.eqb c x
  | item_range lo hi =>
      (Nat.leb (nat_of_ascii lo) (nat_of_ascii c) &&
       Nat.leb (nat_of_ascii c) (nat_of_ascii hi))%bool
  end.

Definition in_set (negated : bool) (items : list set_item) (c : ascii) : bool :=
  xorb negated (existsb (in_item c) items).

(** The body of a scanset up to its closing bracket: [a-b] is a range
    unless the dash is the last character of the set. *)
Fixpoint parse_items (s : list ascii) : option (list set_item * list ascii) :=
  match s with
  | [] => None
  | c :: s' =>
      if Ascii.eqb c "]"%char then Some ([], s')
      else
        match s' with
        | d :: e :: s'' =>
            if (Ascii.eqb d "-"%char && negb (Ascii.eqb e "]"%char))%bool
            then prod_map (cons (item_range c e)) id <$> parse_items s''
            else prod_map (cons (item_char c)) id <$> parse_items s'
        | _ => prod_map (cons (item_char c)) id <$> parse_items s'
        end
  end.

(** A scanset after its opening bracket: an optional caret, then the
    body; a closing bracket that comes first is a member of the set. *)
Definition parse_set (s : list ascii) : option (directive * list ascii) :=
  let '(negated, body) :=
    match s with
    | c :: b => if Ascii.eqb c "^"%char then (true, b) else (false, s)
    | [] => (false, s)
    end in
  match body with
  | c :: b =>
      if Ascii.eqb c "]"%char
      then prod_map (fun items => d_set negated (item_char c :: items)) id <$> parse_items b
      else prod_map (d_set negated) id <$> parse_items body
  | [] => None
  end.

Fixpoint parse_fuel (fuel : nat) (s : list ascii) : option (list directive) :=
  match s with
  | [] => Some []
  | c :: s' =>
      match fuel with
      | O => None
      | S k =>
          if isspace c then cons d_space <$> parse_fuel k s'
          else if Ascii.eqb c "%"%char then
            match s' with
            | d :: s'' =>
                if Ascii.eqb d "["%char then
                  match parse_set s'' with
                  | Some (ds, rest) => cons ds <$> parse_fuel k rest
                  | None => None
                  end
                else if Ascii.eqb d "%"%char then cons (d_lit d) <$> parse_fuel k s''
                else None
            | [] => None
            end
          else cons (d_lit c) <$> parse_fuel k s'
      end
  end.

(** The directives of a format string ([None] outside this fragment). *)
Definition parse_format (fmt : list ascii) : option (list directive) :=
  parse_fuel (length fmt) fmt.

Fixpoint skip_space (inp : list ascii) : list ascii :=
  match inp with
  | [] => []
  | c :: inp' => if isspace c then skip_space inp' else inp
  end.

(** The longest prefix whose characters all satisfy [p], and the rest. *)
Fixpoint span (p : ascii -> bool) (inp : list ascii) : list ascii * list ascii :=
  match inp with
  | [] => ([], [])
  | c :: inp' =>
      if p c then let '(f, r) := span p inp' in (c :: f, r) else ([], inp)
  end.

(** What one conversion does to its target buffer. *)
Inductive conversion : Type :=
| conv_string (field : list ascii)   (* the field and its NUL are stored *)
| conv_overflow.                     (* too long: the target becomes empty *)

(** Running the directives over the input.  White space in the format
    skips any white space of the input; a literal must match the next
    character; a scanset takes the longest non-empty run of its
    characters, which must fit, with its NUL, in the size that follows the
    target in the argument list.  The scan stops at the first failure. *)
Fixpoint scan (ds : list directive) (inp : list ascii) (sizes : list Z) : list conversion :=
  match ds with
  | [] => []
  | d_space :: ds' => scan ds' (skip_space inp) sizes
  | d_lit c :: ds' =>
      match inp with
      | x :: inp' => if Ascii.eqb x c then scan ds' inp' sizes else []
      | [] => []
      end
  | d_set negated items :: ds' =>
      let '(field, rest) := span (in_set negated items) inp in
      match field, sizes with
      | [], _ => []
      | _, [] => []
      | _, size :: sizes' =>
          if Z.of_nat (length field) <? size
          then conv_string field :: scan ds' rest sizes'
          else [conv_overflow]
      end
  end.

(** [sscanf_s(buffer, fmt, target, size)] for a format with one
    conversion: the new contents of the memory behind [target]. *)
Definition sscanf_s (buffer fmt target : list ascii) (size : Z) : list ascii :=
  match parse_format fmt with
  | Some ds =>
      match scan ds (cstring buffer) [size] with
      | conv_string field :: _ => poke target field
      | conv_overflow :: _ => poke target []
      | [] => target
      end
  | None => target
  end.

End Scanf.
Import Scanf.

(** ** The DLL loader and [init_MCLS1] *)

Module Loader.

(** A loaded module is its export table: names to (non-null) addresses. *)
Abbreviation HMODULE := (gmap string positive).

(** The DLL files that can be loaded, by path. *)
Abbreviation file_system := (gmap string (gmap string positive)).

Definition LoadLibrary (fs : file_system) (path : string) : option HMODULE :=
  fs !! path.

(** [None] is the NULL pointer. *)
Definition GetProcAddress (h : HMODULE) (name : string) : option positive :=
  h !! name.

(** The five global function pointers of [MCLS1_Api.cpp] (there named
    [open], [list], [close], [set] and [get]). *)
Record globals : Type := {
  g_open : option positive;
  g_list : option positive;
  g_close : option positive;
  g_set : option positive;
  g_get : option positive;
}.

Definition is_NULL (p : option positive) : bool :=
  match p with None => true | Some _ => false end.

(** [UART_WIN32] is defined, so the 32-bit library is the one loaded. *)
Definition dll_path : string :=
  "C:/Users/jost/Desktop/SourceLaser/uart_library_win32.dll".

Definition init_MCLS1 (fs : file_system) (g : globals) : Z * globals :=
  match LoadLibrary fs dll_path with
  | None => (-1, g)
  | Some dll_handle =>
      let g' :=
        {| g_open := GetProcAddress dll_handle "fnUART_LIBRARY_open";
           g_list := GetProcAddress dll_handle "fnUART_LIBRARY_list";
           g_close := GetProcAddress dll_handle "fnUART_LIBRARY_close";
           g_set := GetProcAddress dll_handle "fnUART_LIBRARY_Set";
           g_get := GetProcAddress dll_handle "fnUART_LIBRARY_Get" |} in
      if (is_NULL (g_open g') || is_NULL (g_list g') || is_NULL (g_close g')
          || is_NULL (g_set g') || is_NULL (g_get g'))%bool
      then (-2, g')
      else (0, g')
  end.

Definition no_globals : globals :=
  {| g_open := None; g_list := None; g_close := None; g_set := None; g_get := None |}.

End Loader.
Import Loader.

(** ** The wrapper: [MCLS1_Api.cpp] *)

Definition MAXLEN : Z := 255.
Definition WRITE_BUFFER_SIZE : Z := 32.

(** [20.0f] and [30.0f] *)
Definition TEMP_LO : spec_float := S754_finite false 10485760 (-19).
Definition TEMP_HI : spec_float := S754_finite false 15728640 (-19).

(** [CBR_115200] of [Windows.h]. *)
Definition CBR_115200 : Z := 115200.

(** The vendor library behind the five pointers.  [dev] is whatever the
    library and the device keep between calls.  A [char*] argument that is
    read is given as the memory behind it; for one that is written
    ([nPort] of [list], [d] of [Get]) the function gives the bytes it
    stores there. *)
Record uart_library (dev : Type) : Type := {
  fnUART_LIBRARY_open : list ascii -> Z -> Z -> dev -> Z * dev;
  fnUART_LIBRARY_list : Z -> dev -> Z * list ascii * dev;
  fnUART_LIBRARY_close : Z -> dev -> Z * dev;
  fnUART_LIBRARY_Set : Z -> list ascii -> Z -> dev -> Z * dev;
  fnUART_LIBRARY_Get : Z -> list ascii -> dev -> Z * list ascii * dev;
}.
Arguments fnUART_LIBRARY_open {dev}.
Arguments fnUART_LIBRARY_list {dev}.
Arguments fnUART_LIBRARY_close {dev}.
Arguments fnUART_LIBRARY_Set {dev}.
Arguments fnUART_LIBRARY_Get {dev}.

(** One call into the vendor library, with the status it gave back. *)
Inductive call : Type :=
| call_open (port : list ascii) (nBaud timeout : Z) (ret : Z)
| call_list (var : Z) (ret : Z)
| call_close (hdl : Z) (ret : Z)
| call_set (hdl : Z) (c : list ascii) (var : Z) (ret : Z)
| call_get (hdl : Z) (c : list ascii) (ret : Z).

Definition call_status (e : call) : Z :=
  match e with
  | call_open _ _ _ r | call_list _ r | call_close _ r
  | call_set _ _ _ r | call_get _ _ r => r
  end.

(** Why a run ends without returning. *)
Inductive abort : Type :=
| assertion_failed      (* [assert]: the condition is false, [abort()] *)
| invalid_parameter     (* the CRT's invalid parameter handler *)
| uncaught_exception.   (* [std::terminate] *)

Inductive outcome (A : Type) : Type :=
| Returned (a : A)
| Aborted (r : abort)
| Unfinished.           (* the model's fuel ran out: still running *)
Arguments Returned {A}.
Arguments Aborted {A}.
Arguments Unfinished {A}.

(** The world a run changes: the vendor side, and the calls made so far
    (oldest first). *)
Record world (dev : Type) : Type := World {
  device : dev;
  calls : list call;
}.
Arguments World {dev}.
Arguments device {dev}.
Arguments calls {dev}.

Definition M (dev A : Type) : Type := world dev -> outcome A * world dev.

#[global] Instance M_ret {dev} : MRet (M dev) :=
  fun A a w => (Returned a, w).

#[global] Instance M_bind {dev} : MBind (M dev) :=
  fun A B f m w =>
    match m w with
    | (Returned a, w') => f a w'
    | (Aborted r, w') => (Aborted r, w')
    | (Unfinished, w') => (Unfinished, w')
    end.

Definition stop {dev A} (r : abort) : M dev A := fun w => (Aborted r, w).

Definition out_of_fuel {dev A} : M dev A := fun w => (Unfinished, w).

(** [assert(cond)] of [assert.h].  The sources do not define [NDEBUG], so
    the condition is checked. *)
Definition assert {dev} (cond : bool) : M dev unit :=
  if cond then mret tt else stop assertion_failed.

(** [sprintf_s] as a step of a run. *)
Definition do_sprintf_s {dev} (buffer : list ascii) (size : Z)
    (fmt : list ascii) (args : list printf_arg) : M dev (list ascii) :=
  match sprintf_s buffer size fmt args with
  | Some buffer' => mret buffer'
  | None => stop invalid_parameter
  end.

Section Wrapper.

Context {dev : Type} (uart : uart_library dev).

(** *** Calls through the five pointers

    The wrappers are modelled as they run once [init_MCLS1] has returned
    0, when each pointer holds the vendor function of its name. *)

Definition open (port : list ascii) (nBaud timeout : Z) : M dev Z :=
  fun w =>
    let '(r, d) := fnUART_LIBRARY_open uart port nBaud timeout (device w) in
    (Returned r, World d (calls w ++ [call_open port nBaud timeout r])).

Definition list_ (nPort : list ascii) (var : Z) : M dev (Z * list ascii) :=
  fun w =>
    let '(r, bytes, d) := fnUART_LIBRARY_list uart var (device w) in
    (Returned (r, store nPort bytes), World d (calls w ++ [call_list var r])).

Definition close (hdl : Z) : M dev Z :=
  fun w =>
    let '(r, d) := fnUART_LIBRARY_close uart hdl (device w) in
    (Returned r, World d (calls w ++ [call_close hdl r])).

Definition set_ (hdl : Z) (c : list ascii) (var : Z) : M dev Z :=
  fun w =>
    let '(r, d) := fnUART_LIBRARY_Set uart hdl c var (device w) in
    (Returned r, World d (calls w ++ [call_set hdl c var r])).

Definition get (hdl : Z) (c d : list ascii) : M dev (Z * list ascii) :=
  fun w =>
    let '(r, bytes, dv) := fnUART_LIBRARY_Get uart hdl c (device w) in
    (Returned (r, store d bytes), World dv (calls w ++ [call_get hdl c r])).

(** *** The wrappers.  A [char*] that a wrapper writes through is given
    as the memory behind it and handed back with the status. *)

Definition fnMCLS1_DLL_List (port : list ascii) (var : Z) : M dev (Z * list ascii) :=
  let temp := zero_array MAXLEN in
  '(ret, temp) ← list_ temp MAXLEN;
  let port := sscanf_s temp (c_lit "%[^,]") port MAXLEN in
  mret (ret, port).

Definition fnMCLS1_DLL_Open (port : list ascii) : M dev Z :=
  hdl ← open port CBR_115200 3;
  mret hdl.

Definition fnMCLS1_DLL_Close (hdl : Z) : M dev Z :=
  ret ← close hdl;
  mret ret.

Definition fnMCLS1_DLL_SetActiveChannel (hdl n : Z) : M dev Z :=
  _ ← assert ((1 <=? n) && (n <=? 4));
  let cmd := zero_array WRITE_BUFFER_SIZE in
  cmd ← do_sprintf_s cmd WRITE_BUFFER_SIZE (c_lit "channel=%d\r") [arg_int n];
  ret ← set_ hdl cmd WRITE_BUFFER_SIZE;
  mret ret.

Definition fnMCLS1_DLL_SetTargeTemperature (hdl : Z) (n : spec_float) : M dev Z :=
  _ ← assert (float_le TEMP_LO n && float_le n TEMP_HI);
  let cmd := zero_array WRITE_BUFFER_SIZE in
  cmd ← do_sprintf_s cmd WRITE_BUFFER_SIZE (c_lit "target=%f\r") [arg_double n];
  ret ← set_ hdl cmd WRITE_BUFFER_SIZE;
  mret ret.

Definition fnMCLS1_DLL_SetCurrent (hdl : Z) (n : spec_float) : M dev Z :=
  let cmd := zero_array WRITE_BUFFER_SIZE in
  cmd ← do_sprintf_s cmd WRITE_BUFFER_SIZE (c_lit "current=%f\r") [arg_double n];
  ret ← set_ hdl cmd WRITE_BUFFER_SIZE;
  mret ret.

Definition fnMCLS1_DLL_SetEnable (hdl n : Z) : M dev Z :=
  _ ← assert ((0 <=? n) && (n <=? 1));
  let cmd := zero_array WRITE_BUFFER_SIZE in
  cmd ← do_sprintf_s cmd WRITE_BUFFER_SIZE (c_lit "enable=%d\r") [arg_int n];
  ret ← set_ hdl cmd WRITE_BUFFER_SIZE;
  mret ret.

Definition fnMCLS1_DLL_SetSystemEnable (hdl n : Z) : M dev Z :=
  _ ← assert ((0 <=? n) && (n <=? 1));
  let cmd := zero_array WRITE_BUFFER_SIZE in
  cmd ← do_sprintf_s cmd WRITE_BUFFER_SIZE (c_lit "system=%d\r") [arg_int n];
  ret ← set_ hdl cmd WRITE_BUFFER_SIZE;
  mret ret.

Definition fnMCLS1_DLL_GetActiveChannel (hdl : Z) (c : list ascii) (limit : Z)
    : M dev (Z * list ascii) :=
  let cmd := char_array WRITE_BUFFER_SIZE (c_lit "channel?\r") in
  let temp := zero_array MAXLEN in
  '(ret, temp) ← get hdl cmd temp;
  let c := sscanf_s temp (c_lit "channel?\r%[0-9]") c MAXLEN in
  mret (ret, c).

Definition fnMCLS1_DLL_GetTargetTemperature (hdl : Z) (c : list ascii) (limit : Z)
    : M dev (Z * list ascii) :=
  let cmd := char_array WRITE_BUFFER_SIZE (c_lit "target?\r") in
  let temp := zero_array MAXLEN in
  '(ret, temp) ← get hdl cmd temp;
  let c := sscanf_s temp (c_lit "target?\r%[0-9'.']") c MAXLEN in
  mret (ret, c).

Definition fnMCLS1_DLL_GetActualTemperature (hdl : Z) (c : list ascii) (limit : Z)
    : M dev (Z * list ascii) :=
  let cmd := char_array WRITE_BUFFER_SIZE (c_lit "temp?\r") in
  let temp := zero_array MAXLEN in
  '(ret, temp) ← get hdl cmd temp;
  let c := sscanf_s temp (c_lit "temp?\r%[0-9'.']") c MAXLEN in
  mret (ret, c).

Definition fnMCLS1_DLL_GetActualCurrent (hdl : Z) (c : list ascii) (limit : Z)
    : M dev (Z * list ascii) :=
  let cmd := char_array WRITE_BUFFER_SIZE (c_lit "current?\r") in
  let temp := zero_array MAXLEN in
  '(ret, temp) ← get hdl cmd temp;
  let c := sscanf_s temp (c_lit "current?\r%[0-9'.']") c MAXLEN in
  mret (ret, c).

Definition fnMCLS1_DLL_GetActualPower (hdl : Z) (c : list ascii) (limit : Z)
    : M dev (Z * list ascii) :=
  let cmd := char_array WRITE_BUFFER_SIZE (c_lit "power?\r") in
  let temp := zero_array MAXLEN in
  '(ret, temp) ← get hdl cmd temp;
  let c := sscanf_s temp (c_lit "power?\r%[0-9'.']") c MAXLEN in
  mret (ret, c).

Definition fnMCLS1_DLL_GetSystemEnable (hdl : Z) (c : list ascii) (limit : Z)
    : M dev (Z * list ascii) :=
  let cmd := char_array WRITE_BUFFER_SIZE (c_lit "system?\r") in
  let temp := zero_array MAXLEN in
  '(ret, temp) ← get hdl cmd temp;
  let c := sscanf_s temp (c_lit "system?\r%[0-9]") c MAXLEN in
  mret (ret, c).

Definition fnMCLS1_DLL_GetEnable (hdl : Z) (c : list ascii) (limit : Z)
    : M dev (Z * list ascii) :=
  let cmd := char_array WRITE_BUFFER_SIZE (c_lit "enable?\r") in
  let temp := zero_array MAXLEN in
  '(ret, temp) ← get hdl cmd temp;
  let c := sscanf_s temp (c_lit "enable?\r%[0-9]") c MAXLEN in
  mret (ret, c).

Definition fnMCLS1_DLL_GetStatus (hdl : Z) (c : list ascii) (limit : Z)
    : M dev (Z * list ascii) :=
  let cmd := char_array WRITE_BUFFER_SIZE (c_lit "statword?\r") in
  let temp := zero_array MAXLEN in
  '(ret, temp) ← get hdl cmd temp;
  let c := sscanf_s temp (c_lit "statword?\r%[0-9]") c MAXLEN in
  mret (ret, c).

Definition fnMCLS1_DLL_GetID (hdl : Z) (c : list ascii) (limit : Z)
    : M dev (Z * list ascii) :=
  let cmd := char_array WRITE_BUFFER_SIZE (c_lit "id?\r") in
  let temp := zero_array MAXLEN in
  '(ret, temp) ← get hdl cmd temp;
  let c := sscanf_s temp (c_lit "id?\r%[0-9a-zA-Z .]") c MAXLEN in
  mret (ret, c).

End Wrapper.

(** ** The console demo: [JOST_MCLS1.cpp]

    Console output ([printf]) is not part of the model. *)

(** [50.0] as a [float]. *)
Definition default_current : spec_float := S754_finite false 13107200 (-18).

(** A string literal passed as a [char*]: its characters and the NUL. *)
Definition string_literal (s : string) : list ascii := c_lit s ++ [NUL].

(** [std::cin >> str] on what is left of the console input: white space
    is skipped, then the characters up to the next white space make the
    word, and the rest is left for the next extraction.  [None]: the input
    ends before a word starts. *)
Definition extract_word (input : list ascii) : option (string * list ascii) :=
  match skip_space input with
  | [] => None
  | c :: input' =>
      let '(word, rest) := span (fun x => negb (isspace x)) (c :: input') in
      Some (string_of_list_ascii word, rest)
  end.

Section Demo.

Context {dev : Type} (uart : uart_library dev).

(** The conversions of the C and C++ runtime that the demo calls:
    [atoi], [atof] (with the narrowing to the [float] it is assigned to)
    and [std::stof], which throws ([None]) when the text is no number or
    is out of range. *)
Variable atoi : string -> Z.
Variable atof : string -> spec_float.
Variable stof : string -> option spec_float.

Definition SetChannel (hdl channel : Z) : M dev Z :=
  _ ← fnMCLS1_DLL_SetActiveChannel uart hdl channel;
  fnMCLS1_DLL_SetEnable uart hdl 1.

Definition SetCurrent (hdl : Z) (current : spec_float) : M dev Z :=
  _ ← fnMCLS1_DLL_SetCurrent uart hdl current;
  fnMCLS1_DLL_SetCurrent uart hdl current.

(** [str != "quit" && str != "Quit" && str != "QUIT"] *)
Definition keep_going (str : string) : bool :=
  negb (String.eqb str "quit") && negb (String.eqb str "Quit")
  && negb (String.eqb str "QUIT").

(** The [while] loop.  [input] is what is left of the console input.  At
    its end the extraction fails and leaves [str] as it is.  One unit of
    fuel is one test of the loop condition. *)
Fixpoint main_loop (fuel : nat) (hdl : Z) (str : string) (current : spec_float)
    (input : list ascii) : M dev unit :=
  match fuel with
  | O => out_of_fuel
  | S fuel' =>
      if keep_going str then
        current ← (if negb (String.eqb str "") then
                     match stof str with
                     | Some x => mret x
                     | None => stop uncaught_exception
                     end
                   else mret current);
        ret ← SetCurrent hdl current;
        match extract_word input with
        | None => main_loop fuel' hdl str current []
        | Some (word, input') => main_loop fuel' hdl word current input'
        end
      else mret tt
  end.

Definition _tmain (argc : Z) (argv : list string) (fs : file_system)
    (input : list ascii) (fuel : nat) : M dev Z :=
  let str := "" in
  let '(channel, current) :=
    if negb (argc =? 3) then (3, default_current)
    else (atoi (default "" (argv !! 1%nat)), atof (default "" (argv !! 2%nat))) in
  if negb (fst (init_MCLS1 fs no_globals) =? 0) then mret 0
  else
    let c := zero_array MAXLEN in
    '(_, c) ← fnMCLS1_DLL_List uart c MAXLEN;
    hdl ← fnMCLS1_DLL_Open uart (string_literal "COM3");
    if hdl <? 0 then mret 0
    else
      ret ← SetChannel hdl channel;
      _ ← main_loop fuel hdl str current input;
      _ ← fnMCLS1_DLL_SetEnable uart hdl 0;
      _ ← fnMCLS1_DLL_Close uart hdl;
      mret 0.

End Demo.

(** * Vocabulary of the statements *)

(** The nine query wrappers, by the word they ask with and the scanset
    that reads the answer. *)
Inductive getter : Type :=
| GetActiveChannel | GetTargetTemperature | GetActualTemperature
| GetActualCurrent | GetActualPower | GetSystemEnable | GetEnable
| GetStatus | GetID.

Definition getter_name (g : getter) : string :=
  match g with
  | GetActiveChannel => "channel"
  | GetTargetTemperature => "target"
  | GetActualTemperature => "temp"
  | GetActualCurrent => "current"
  | GetActualPower => "power"
  | GetSystemEnable => "system"
  | GetEnable => "enable"
  | GetStatus => "statword"
  | GetID => "id"
  end.

Definition getter_scanset (g : getter) : string :=
  match g with
  | GetActiveChannel | GetSystemEnable | GetEnable | GetStatus => "0-9"
  | GetTargetTemperature | GetActualTemperature
  | GetActualCurrent | GetActualPower => "0-9'.'"
  | GetID => "0-9a-zA-Z ."
  end.

Definition is_digit (c : ascii) : bool :=
  (Nat.leb 48 (nat_of_ascii c) && Nat.leb (nat_of_ascii c) 57)%bool.

Definition is_letter (c : ascii) : bool :=
  let n := nat_of_ascii c in
  ((Nat.leb 65 n && Nat.leb n 90) || (Nat.leb 97 n && Nat.leb n 122))%bool.

(** The characters a value is made of, for each query. *)
Definition value_char (g : getter) (c : ascii) : bool :=
  match g with
  | GetActiveChannel | GetSystemEnable | GetEnable | GetStatus => is_digit c
  | GetTargetTemperature | GetActualTemperature
  | GetActualCurrent | GetActualPower =>
      (is_digit c || Ascii.eqb c "."%char || Ascii.eqb c "'"%char)%bool
  | GetID =>
      (is_digit c || is_letter c || Ascii.eqb c " "%char || Ascii.eqb c "."%char)%bool
  end.

(** ["<name>?\r"] *)
Definition query (g : getter) : list ascii :=
  list_ascii_of_string (getter_name g) ++ ["?"%char; CR].

(** [inp] without the prefix [pre], if it starts with it. *)
Fixpoint strip (pre inp : list ascii) : option (list ascii) :=
  match pre, inp with
  | [], _ => Some inp
  | p :: pre', x :: inp' => if Ascii.eqb x p then strip pre' inp' else None
  | _ :: _, [] => None
  end.

(** The value in a reply: after the echoed ["<name>?"] and any white
    space, the longest run of value characters, if there is one. *)
Definition extract (g : getter) (reply : list ascii) : option (list ascii) :=
  match strip (list_ascii_of_string (getter_name g) ++ ["?"%char]) reply with
  | None => None
  | Some after =>
      match fst (span (value_char g) (skip_space after)) with
      | [] => None
      | v => Some v
      end
  end.

(** The scanset of each query, as [sscanf_s] reads it. *)
Definition getter_items (g : getter) : list set_item :=
  match g with
  | GetActiveChannel | GetSystemEnable | GetEnable | GetStatus =>
      [item_range "0" "9"]
  | GetTargetTemperature | GetActualTemperature
  | GetActualCurrent | GetActualPower =>
      [item_range "0" "9"; item_char "'"; item_char "."; item_char "'"]
  | GetID =>
      [item_range "0" "9"; item_range "a" "z"; item_range "A" "Z";
       item_char " "; item_char "."]
  end.

(** ["<name>?\r%[<scanset>]"] *)
Definition reply_format (g : getter) : list ascii :=
  c_lit (String.append (getter_name g)
           (String.append "?\r%[" (String.append (getter_scanset g) "]"))).

(** The characters before the first comma. *)
Fixpoint before_comma (s : list ascii) : list ascii :=
  match s with
  | [] => []
  | c :: s' => if Ascii.eqb c ","%char then [] else c :: before_comma s'
  end.

(** The 32-byte command buffer that holds [text]. *)
Definition command (text : list ascii) : list ascii :=
  store (zero_array WRITE_BUFFER_SIZE) (text ++ [NUL]).

(** What the vendor is asked, without the answer it gave; a [char*] is
    shown as the C string behind it. *)
Inductive request : Type :=
| req_open (port : list ascii) (nBaud timeout : Z)
| req_list (var : Z)
| req_close (hdl : Z)
| req_set (hdl : Z) (text : list ascii) (var : Z)
| req_get (hdl : Z) (text : list ascii).

Definition request_of (e : call) : request :=
  match e with
  | call_open port nBaud timeout _ => req_open (cstring port) nBaud timeout
  | call_list var _ => req_list var
  | call_close hdl _ => req_close hdl
  | call_set hdl c var _ => req_set hdl (cstring c) var
  | call_get hdl c _ => req_get hdl (cstring c)
  end.

(** The number that a string of decimal digits denotes. *)
Definition digits_value (l : list ascii) : Z :=
  fold_left (fun acc c => 10 * acc + (Z.of_nat (nat_of_ascii c) - 48)) l 0.

(** The value of a float that has one. *)
Definition float_value (x : spec_float) : option Q :=
  match x with
  | S754_zero _ => Some 0%Q
  | S754_finite _ _ _ => Some (F2Q x)
  | _ => None
  end.

Definition temperature_in_range (x : spec_float) : Prop :=
  exists q, float_value x = Some q /\ (20 <= q)%Q /\ (q <= 30)%Q.

(** The words that end the demo's loop. *)
Definition is_quit (s : string) : Prop := s = "quit" \/ s = "Quit" \/ s = "QUIT".

(** A word as [std::cin >> str] extracts it: not empty, no white space. *)
Definition is_word (s : string) : Prop :=
  s <> "" /\ forallb (fun x => negb (isspace x)) (list_ascii_of_string s) = true.

(** Console input typed as lines of one word each. *)
Definition typed (words : list string) : list ascii :=
  flat_map (fun s => list_ascii_of_string s ++ [LF]) words.

(** The channel and the first current the demo works with. *)
Definition chosen (atoi : string -> Z) (atof : string -> spec_float)
    (argc : Z) (argv : list string) : Z * spec_float :=
  if negb (argc =? 3) then (3, default_current)
  else (atoi (default "" (argv !! 1%nat)), atof (default "" (argv !! 2%nat))).

(** The text of the commands. *)
Definition channel_command (n : Z) : list ascii := c_lit "channel=" ++ fmt_d n ++ [CR].
Definition enable_command (n : Z) : list ascii := c_lit "enable=" ++ fmt_d n ++ [CR].
Definition current_command (x : spec_float) : list ascii := c_lit "current=" ++ fmt_f x ++ [CR].

Definition target_command (x : spec_float) : list ascii := c_lit "target=" ++ fmt_f x ++ [CR].

(** What [SetCurrent] of the demo asks of the vendor. *)
Definition current_twice (hdl : Z) (x : spec_float) : list request :=
  [req_set hdl (current_command x) WRITE_BUFFER_SIZE;
   req_set hdl (current_command x) WRITE_BUFFER_SIZE].

(** One call of a wrapper, with its arguments. *)
Inductive operation : Type :=
| op_List (port : list ascii) (var : Z)
| op_Open (port : list ascii)
| op_Close (hdl : Z)
| op_SetActiveChannel (hdl n : Z)
| op_SetTargeTemperature (hdl : Z) (n : spec_float)
| op_SetCurrent (hdl : Z) (n : spec_float)
| op_SetEnable (hdl n : Z)
| op_SetSystemEnable (hdl n : Z)
| op_Get (g : getter) (hdl : Z) (c : list ascii) (limit : Z).

(** The buffers of a vendor call are as large as the wrapper says, and
    the command in a 32-byte buffer ends before the buffer does. *)
Definition buffer_ok (e : call) : Prop :=
  match e with
  | call_set _ c var _ =>
      length c = 32%nat /\ var = WRITE_BUFFER_SIZE /\ (length (cstring c) < 32)%nat
  | call_get _ c _ => length c = 32%nat /\ (length (cstring c) < 32)%nat
  | call_list var _ => var = MAXLEN
  | _ => True
  end.

(** The five vendor functions. *)
Inductive vendor_fn : Type := v_open | v_list | v_close | v_Set | v_Get.

Definition vendor_fn_of_call (e : call) : vendor_fn :=
  match e with
  | call_open _ _ _ _ => v_open
  | call_list _ _ => v_list
  | call_close _ _ => v_close
  | call_set _ _ _ _ => v_Set
  | call_get _ _ _ => v_Get
  end.

Definition vendor_fn_of (o : operation) : vendor_fn :=
  match o with
  | op_List _ _ => v_list
  | op_Open _ => v_open
  | op_Close _ => v_close
  | op_Get _ _ _ _ => v_Get
  | _ => v_Set
  end.

(** What a wrapper checks before it calls the vendor: its assertion, and
    ([sprintf_s]) that the command and its NUL fit the 32 bytes; for
    ["current=%f\r"] that leaves 22 characters to the number. *)
Definition accepted (o : operation) : bool :=
  match o with
  | op_SetActiveChannel _ n => (1 <=? n) && (n <=? 4)
  | op_SetTargeTemperature _ x => float_le TEMP_LO x && float_le x TEMP_HI
  | op_SetCurrent _ x => (length (fmt_f x) <=? 22)%nat
  | op_SetEnable _ n | op_SetSystemEnable _ n => (0 <=? n) && (n <=? 1)
  | _ => true
  end.

Section Vocabulary.

Context {dev : Type} (uart : uart_library dev).

(** A run that only calls the vendor's [Set], once, with the command
    [text], and returns the status of that call. *)
Definition sent (hdl : Z) (text : list ascii) (w : world dev) : outcome Z * world dev :=
  let cmd := command text in
  let '(r, d) := fnUART_LIBRARY_Set uart hdl cmd WRITE_BUFFER_SIZE (device w) in
  (Returned r, World d (calls w ++ [call_set hdl cmd WRITE_BUFFER_SIZE r])).

(** What the five setters do after their assertion. *)
Definition setter_body (hdl : Z) (fmt : list ascii) (arg : printf_arg) : M dev Z :=
  cmd ← do_sprintf_s (zero_array WRITE_BUFFER_SIZE) WRITE_BUFFER_SIZE fmt [arg];
  ret ← set_ uart hdl cmd WRITE_BUFFER_SIZE;
  mret ret.

(** The run [m w] formats [fmt] with [arg] and does [sent] with the result. *)
Definition sends_formatted (hdl : Z) (fmt : string) (arg : printf_arg)
    (m : M dev Z) (w : world dev) : Prop :=
  exists text,
    format (c_lit fmt) [arg] = Some text /\
    (length text < 32)%nat /\
    cstring (command text) = text /\
    length (command text) = 32%nat /\
    m w = sent hdl text w.

Definition getter_fn (g : getter) : Z -> list ascii -> Z -> M dev (Z * list ascii) :=
  match g with
  | GetActiveChannel => fnMCLS1_DLL_GetActiveChannel uart
  | GetTargetTemperature => fnMCLS1_DLL_GetTargetTemperature uart
  | GetActualTemperature => fnMCLS1_DLL_GetActualTemperature uart
  | GetActualCurrent => fnMCLS1_DLL_GetActualCurrent uart
  | GetActualPower => fnMCLS1_DLL_GetActualPower uart
  | GetSystemEnable => fnMCLS1_DLL_GetSystemEnable uart
  | GetEnable => fnMCLS1_DLL_GetEnable uart
  | GetStatus => fnMCLS1_DLL_GetStatus uart
  | GetID => fnMCLS1_DLL_GetID uart
  end.

(** A run that only calls the vendor's [Get], once, with the query of
    [g], stores the value found in the reply behind [c] (nothing when
    there is none) and returns the status of the call. *)
Definition asked (g : getter) (hdl : Z) (c : list ascii) (w : world dev)
    : outcome (Z * list ascii) * world dev :=
  let cmd := char_array WRITE_BUFFER_SIZE (query g) in
  let '(r, bytes, d) := fnUART_LIBRARY_Get uart hdl cmd (device w) in
  let reply := cstring (store (zero_array MAXLEN) bytes) in
  (Returned (r, match extract g reply with
                | Some v => poke c v
                | None => c
                end),
   World d (calls w ++ [call_get hdl cmd r])).

(** A run that only calls the vendor's [list], once, with the 255-byte
    scratch buffer, stores the first entry of the reply behind [port]
    (nothing when the reply starts with a comma or is empty; the empty
    string when the entry fills the scratch buffer) and returns the
    status of the call. *)
Definition listed (port : list ascii) (w : world dev)
    : outcome (Z * list ascii) * world dev :=
  let '(r, bytes, d) := fnUART_LIBRARY_list uart MAXLEN (device w) in
  let reply := cstring (store (zero_array MAXLEN) bytes) in
  (Returned (r, match before_comma reply with
                | [] => port
                | entry =>
                    if Z.of_nat (length entry) <? MAXLEN then poke port entry
                    else poke port []
                end),
   World d (calls w ++ [call_list MAXLEN r])).

(** The calls that lead from [w] to [w'], as requests. *)
Definition asks (w w' : world dev) (l : list request) : Prop :=
  exists new, calls w' = calls w ++ new /\ map request_of new = l.

(** The status a wrapper call comes back with. *)
Definition status_of (o : operation) : M dev Z :=
  match o with
  | op_List port var => '(ret, _) ← fnMCLS1_DLL_List uart port var; mret ret
  | op_Open port => fnMCLS1_DLL_Open uart port
  | op_Close hdl => fnMCLS1_DLL_Close uart hdl
  | op_SetActiveChannel hdl n => fnMCLS1_DLL_SetActiveChannel uart hdl n
  | op_SetTargeTemperature hdl n => fnMCLS1_DLL_SetTargeTemperature uart hdl n
  | op_SetCurrent hdl n => fnMCLS1_DLL_SetCurrent uart hdl n
  | op_SetEnable hdl n => fnMCLS1_DLL_SetEnable uart hdl n
  | op_SetSystemEnable hdl n => fnMCLS1_DLL_SetSystemEnable uart hdl n
  | op_Get g hdl c limit => '(ret, _) ← getter_fn g hdl c limit; mret ret
  end.

(** The status the vendor function gives when called as in [e] on the
    device state [d]. *)
Definition vendor_status (e : call) (d : dev) : Z :=
  match e with
  | call_open port nBaud timeout _ => fst (fnUART_LIBRARY_open uart port nBaud timeout d)
  | call_list var _ => fst (fst (fnUART_LIBRARY_list uart var d))
  | call_close hdl _ => fst (fnUART_LIBRARY_close uart hdl d)
  | call_set hdl c var _ => fst (fnUART_LIBRARY_Set uart hdl c var d)
  | call_get hdl c _ => fst (fst (fnUART_LIBRARY_Get uart hdl c d))
  end.

End Vocabulary.

(** ** A simulated library, to run the model on examples

    The device state counts the calls made so far.  [Set] and [Get] answer
    with that count as their status, so that successive calls can be told
    apart; [Get] echoes the query and answers 42; [open] gives handle 7. *)
Definition bench : uart_library nat := {|
  fnUART_LIBRARY_open := fun port nBaud timeout d => (7, S d);
  fnUART_LIBRARY_list := fun var d =>
    (2, list_ascii_of_string "COM1,Serial0,COM3,MCLS1" ++ [NUL], S d);
  fnUART_LIBRARY_close := fun hdl d => (0, S d);
  fnUART_LIBRARY_Set := fun hdl c var d => (Z.of_nat d, S d);
  fnUART_LIBRARY_Get := fun hdl c d =>
    (Z.of_nat d, cstring c ++ list_ascii_of_string "42" ++ CR :: list_ascii_of_string "> " ++ [NUL], S d);
|}.

(** The same library when the port cannot be opened. *)
Definition bench_no_port : uart_library nat := {|
  fnUART_LIBRARY_open := fun port nBaud timeout d => (-1, S d);
  fnUART_LIBRARY_list := fnUART_LIBRARY_list bench;
  fnUART_LIBRARY_close := fnUART_LIBRARY_close bench;
  fnUART_LIBRARY_Set := fnUART_LIBRARY_Set bench;
  fnUART_LIBRARY_Get := fnUART_LIBRARY_Get bench;
|}.

Definition power_on : world nat := World 0%nat [].

(** [75.0f], [1e30f], [FLT_MAX] and [-FLT_MAX]. *)
Definition f_75 : spec_float := S754_finite false 9830400 (-17).
Definition f_1e30 : spec_float := S754_finite false 13234890 76.
Definition neg_FLT_MAX : spec_float := S754_finite true 16777215 104.

(** [std::stof] on the words the examples type in. *)
Definition stof_bench (s : string) : option spec_float :=
  if String.eqb s "75" then Some f_75
  else if String.eqb s "1e30" then Some f_1e30
  else None.

(** [atoi] and [atof] on the arguments the examples pass. *)
Definition atoi_bench (s : string) : Z :=
  if String.eqb s "2" then 2 else if String.eqb s "7" then 7 else 0.
Definition atof_bench (s : string) : spec_float :=
  if String.eqb s "75" then f_75 else S754_zero false.

(** A DLL that exports the five functions, where the wrapper looks for it. *)
Definition vendor_dll : gmap string positive :=
  <["fnUART_LIBRARY_open" := 1%positive]>
  (<["fnUART_LIBRARY_list" := 2%positive]>
  (<["fnUART_LIBRARY_close" := 3%positive]>
  (<["fnUART_LIBRARY_Set" := 4%positive]>
  (<["fnUART_LIBRARY_Get" := 5%positive]> ∅)))).

Definition installed : gmap string (gmap string positive) :=
  {[ dll_path := vendor_dll ]}.

(** ** Further vocabulary *)

(** [l] starts with [pre]. *)
Definition starts_with (pre l : list ascii) : Prop := exists rest, l = pre ++ rest.

(** A character that is neither white space nor the NUL. *)
Definition plain (c : ascii) : bool := negb (isspace c) && negb (Ascii.eqb c NUL).

(** The echo of a query without its carriage return: ["<name>?"]. *)
Definition echo (g : getter) : list ascii :=
  list_ascii_of_string (getter_name g) ++ ["?"%char].

(** The getters whose scanset is [0-9]. *)
Definition reads_digits (g : getter) : bool :=
  match g with
  | GetActiveChannel | GetSystemEnable | GetEnable | GetStatus => true
  | _ => false
  end.

(** The five exports that [init_MCLS1] looks up. *)
Definition the_five : list string :=
  ["fnUART_LIBRARY_open"; "fnUART_LIBRARY_list"; "fnUART_LIBRARY_close";
   "fnUART_LIBRARY_Set"; "fnUART_LIBRARY_Get"]%string.

(** A [Set] call on the handle [hdl], with the size of the command buffer. *)
Definition is_Set_on (hdl : Z) (e : call) : Prop :=
  exists c r, e = call_set hdl c WRITE_BUFFER_SIZE r.

(** Every call that a run of [m] adds satisfies [P], however the run ends. *)
Definition only_calls {dev A : Type} (P : call -> Prop) (m : M dev A) : Prop :=
  forall w, exists new, calls (snd (m w)) = calls w ++ new /\ Forall P new.

(** A library that answers every [Get] with the given status and reply,
    and [list] with the given count and text; for the rest it is [bench]. *)
Definition canned (status : Z) (reply : string) (count : Z) (ports : string)
    : uart_library nat := {|
  fnUART_LIBRARY_open := fnUART_LIBRARY_open bench;
  fnUART_LIBRARY_list := fun var d => (count, c_lit ports ++ [NUL], S d);
  fnUART_LIBRARY_close := fnUART_LIBRARY_close bench;
  fnUART_LIBRARY_Set := fnUART_LIBRARY_Set bench;
  fnUART_LIBRARY_Get := fun hdl c d => (status, c_lit reply ++ [NUL], S d);
|}.

(** A DLL from which [fnUART_LIBRARY_Get] is missing. *)
Definition old_dll : gmap string positive := delete "fnUART_LIBRARY_Get" vendor_dll.

(** The [int] setter of the setting that a getter reads, where there is
    one: both use the same name, one before ["=%d\r"], one before ["?\r"]. *)
Definition int_setter {dev : Type} (uart : uart_library dev) (g : getter)
    : option (Z -> Z -> M dev Z) :=
  match g with
  | GetActiveChannel => Some (fnMCLS1_DLL_SetActiveChannel uart)
  | GetSystemEnable => Some (fnMCLS1_DLL_SetSystemEnable uart)
  | GetEnable => Some (fnMCLS1_DLL_SetEnable uart)
  | _ => None
  end.

(** A command as the device reads it: one line, closed by a carriage
    return, with neither white space nor NUL before it. *)
Definition one_line (text : list ascii) : Prop :=
  exists body, text = body ++ [CR] /\ Forall (fun x => plain x = true) body.




(** * Properties *)

(** ** The C runtime fragments on examples *)

Example c_lit_channel :
  c_lit "channel=%d\r" =
  list_ascii_of_string "channel=%d" ++ [CR].
Proof. reflexivity. Qed.

Example fmt_d_examples :
  fmt_d 3 = list_ascii_of_string "3" /\
  fmt_d 0 = list_ascii_of_string "0" /\
  fmt_d (-42) = list_ascii_of_string "-42" /\
  fmt_d INT_MIN = list_ascii_of_string "-2147483648" /\
  fmt_d 1000 = list_ascii_of_string (NilZero.string_of_int (Z.to_int 1000)).
Proof. repeat split; reflexivity. Qed.

(** [50.0f], [25.5f], [0.1f] and [1e30f]. *)
Example fmt_f_examples :
  fmt_f (S754_finite false 13107200 (-18)) = list_ascii_of_string "50.000000" /\
  fmt_f (S754_finite true 13369344 (-19)) = list_ascii_of_string "-25.500000" /\
  fmt_f (S754_finite false 13421773 (-27)) = list_ascii_of_string "0.100000" /\
  fmt_f (S754_finite false 13234890 76) =
    list_ascii_of_string "1000000015047466219876688855040.000000".
Proof. repeat split; vm_compute; reflexivity. Qed.

(** Comparisons with NaN are false, the zeros compare equal, and 25.5 is
    between 20.0 and 30.0. *)
Example float_le_examples :
  float_le S754_nan TEMP_HI = false /\
  float_le TEMP_LO S754_nan = false /\
  float_le (S754_zero true) (S754_zero false) = true /\
  float_le (S754_infinity true) TEMP_LO = true /\
  float_le (S754_infinity false) TEMP_HI = false /\
  float_le TEMP_LO (S754_finite false 13369344 (-19)) = true /\
  float_le (S754_finite false 13369344 (-19)) TEMP_HI = true /\
  float_le (S754_finite false 15728641 (-19)) TEMP_HI = false.
Proof. repeat split; reflexivity. Qed.

Example parse_format_channel :
  parse_format (c_lit "channel?\r%[0-9]") =
  Some (map d_lit (list_ascii_of_string "channel?") ++
        [d_space; d_set false [item_range "0" "9"]]).
Proof. reflexivity. Qed.

Example parse_format_target :
  parse_format (c_lit "target?\r%[0-9'.']") =
  Some (map d_lit (list_ascii_of_string "target?") ++
        [d_space; d_set false [item_range "0" "9"; item_char "'"; item_char "."; item_char "'"]]).
Proof. reflexivity. Qed.

Example parse_format_id :
  parse_format (c_lit "id?\r%[0-9a-zA-Z .]") =
  Some (map d_lit (list_ascii_of_string "id?") ++
        [d_space; d_set false [item_range "0" "9"; item_range "a" "z";
                               item_range "A" "Z"; item_char " "; item_char "."]]).
Proof. reflexivity. Qed.

Example parse_format_list :
  parse_format (c_lit "%[^,]") = Some [d_set true [item_char ","]].
Proof. reflexivity. Qed.

(** ** Char arrays and C strings *)

Lemma cstring_app_NUL (s rest : list ascii) :
  Forall (fun c => c <> NUL) s -> cstring (s ++ NUL :: rest) = s.
Proof.
  induction 1 as [|c s Hc _ IH]; simpl.
  - reflexivity.
  - destruct (Ascii.eqb_spec c NUL) as [->|_]; [contradiction|].
    now rewrite IH.
Qed.

Lemma cstring_poke (mem s : list ascii) :
  Forall (fun c => c <> NUL) s -> cstring (poke mem s) = s.
Proof. apply cstring_app_NUL. Qed.

Lemma length_zero_array (n : Z) : length (zero_array n) = Z.to_nat n.
Proof. apply length_replicate. Qed.

Lemma length_store (a bytes : list ascii) : length (store a bytes) = length a.
Proof.
  unfold store. rewrite length_take, length_app, length_drop. lia.
Qed.

Lemma length_char_array (n : Z) (lit : list ascii) :
  length (char_array n lit) = Z.to_nat n.
Proof. unfold char_array. now rewrite length_store, length_zero_array. Qed.

(** ** Decimal output *)

(** A property of the ten digits is checked on each of them. *)
Lemma ten_digits (P : Z -> Prop) :
  (forall k : nat, (k < 10)%nat -> P (Z.of_nat k)) ->
  forall d, 0 <= d <= 9 -> P d.
Proof.
  intros H d Hd. rewrite <- (Z2Nat.id d) by lia. apply H. lia.
Qed.

Lemma digit_not_NUL (d : Z) : 0 <= d <= 9 -> digit d <> NUL.
Proof.
  revert d. apply ten_digits. intros k Hk.
  do 10 (destruct k as [|k]; [discriminate|]). lia.
Qed.

Lemma last_digit_not_NUL (n : Z) : digit (n mod 10) <> NUL.
Proof. apply digit_not_NUL. pose proof (Z.mod_pos_bound n 10). lia. Qed.

Lemma dec_fuel_no_NUL (fuel : nat) (n : Z) :
  Forall (fun c => c <> NUL) (dec_fuel fuel n).
Proof.
  revert n. induction fuel as [|fuel IH]; intros n; simpl.
  - constructor.
  - apply Forall_app. split.
    + destruct (n <? 10); [constructor | apply IH].
    + repeat constructor. apply last_digit_not_NUL.
Qed.

Lemma dec_fixed_no_NUL (k : nat) (n : Z) :
  Forall (fun c => c <> NUL) (dec_fixed k n).
Proof.
  revert n. induction k as [|k IH]; intros n; simpl.
  - constructor.
  - apply Forall_app. split; [apply IH|].
    repeat constructor. apply last_digit_not_NUL.
Qed.

Lemma length_dec_fixed (k : nat) (n : Z) : length (dec_fixed k n) = k.
Proof.
  revert n. induction k as [|k IH]; intros n; simpl; [reflexivity|].
  rewrite length_app, IH. simpl. lia.
Qed.

(** A number below [10^k] has at most [k] digits, whatever the fuel. *)
Lemma length_dec_fuel (fuel k : nat) (n : Z) :
  (1 <= k)%nat -> 0 <= n < 10 ^ Z.of_nat k -> (length (dec_fuel fuel n) <= k)%nat.
Proof.
  revert k n. induction fuel as [|fuel IH]; intros k n Hk Hn; simpl; [lia|].
  rewrite length_app. simpl.
  destruct (Z.ltb_spec n 10) as [Hlt|Hge]; simpl; [lia|].
  destruct k as [|[|k]]; [lia| simpl in Hn; lia |].
  assert (Hdiv : 0 <= n / 10 < 10 ^ Z.of_nat (S k)).
  { split; [apply Z.div_pos; lia|].
    apply Z.div_lt_upper_bound; [lia|].
    replace (Z.of_nat (S (S k))) with (Z.succ (Z.of_nat (S k))) in Hn by lia.
    rewrite Z.pow_succ_r in Hn by lia. lia. }
  specialize (IH (S k) (n / 10) ltac:(lia) Hdiv). lia.
Qed.

Lemma length_dec (k : nat) (n : Z) :
  (1 <= k)%nat -> 0 <= n < 10 ^ Z.of_nat k -> (length (dec n) <= k)%nat.
Proof. apply length_dec_fuel. Qed.

(** The digits printed denote the number: the fuel of [dec] is enough. *)
Lemma digit_value (d : Z) : 0 <= d <= 9 -> Z.of_nat (nat_of_ascii (digit d)) - 48 = d.
Proof.
  revert d. apply ten_digits. intros k Hk.
  do 10 (destruct k as [|k]; [reflexivity|]). lia.
Qed.

Lemma digits_value_snoc (l : list ascii) (c : ascii) :
  digits_value (l ++ [c]) = 10 * digits_value l + (Z.of_nat (nat_of_ascii c) - 48).
Proof. unfold digits_value. now rewrite fold_left_app. Qed.

Lemma dec_fuel_value (fuel : nat) (n : Z) :
  0 <= n < 2 ^ Z.of_nat fuel -> digits_value (dec_fuel fuel n) = n.
Proof.
  revert n. induction fuel as [|fuel IH]; intros n Hn.
  - simpl in Hn. assert (n = 0) as -> by lia. reflexivity.
  - cbn [dec_fuel]. rewrite digits_value_snoc, digit_value
      by (pose proof (Z.mod_pos_bound n 10); lia).
    pose proof (Z.div_mod n 10 ltac:(lia)) as Hdm.
    destruct (Z.ltb_spec n 10) as [Hlt|Hge].
    + rewrite Z.mod_small by lia. reflexivity.
    + rewrite IH; [lia|].
      replace (Z.of_nat (S fuel)) with (Z.succ (Z.of_nat fuel)) in Hn by lia.
      rewrite Z.pow_succ_r in Hn by lia.
      split; [apply Z.div_pos; lia|].
      apply Z.div_lt_upper_bound; lia.
Qed.

Lemma dec_value (n : Z) : 0 <= n -> digits_value (dec n) = n.
Proof.
  intros Hn. apply dec_fuel_value. split; [exact Hn|].
  destruct (Z.eq_dec n 0) as [->|Hne]; [reflexivity|].
  pose proof (Z.log2_spec n ltac:(lia)) as [_ Hlog].
  pose proof (Z.log2_nonneg n).
  replace (Z.of_nat (S (Z.to_nat (Z.log2 n)))) with (Z.succ (Z.log2 n)) by lia.
  exact Hlog.
Qed.

Lemma fmt_d_no_NUL (n : Z) : Forall (fun c => c <> NUL) (fmt_d n).
Proof.
  unfold fmt_d. destruct (n <? 0).
  - constructor; [discriminate | apply dec_fuel_no_NUL].
  - apply dec_fuel_no_NUL.
Qed.


(** In the ranges that the assertions allow, [%d] is a single digit. *)
Lemma fmt_d_digit (n : Z) : 0 <= n <= 9 -> fmt_d n = [digit n].
Proof.
  revert n. apply ten_digits. intros k Hk.
  do 10 (destruct k as [|k]; [reflexivity|]). lia.
Qed.

(** ** [%f] *)

Lemma round_half_even_nonneg (num : Z) (den : positive) :
  0 <= num -> 0 <= round_half_even num den.
Proof.
  intros H. unfold round_half_even.
  assert (0 <= num / Z.pos den) by (apply Z.div_pos; lia).
  destruct (2 * (num mod Z.pos den) ?= Z.pos den); [destruct (Z.even _)| |]; lia.
Qed.

(** The rounded value is within one half of the quotient. *)
Lemma round_half_even_nearest (num : Z) (den : positive) :
  2 * Z.abs (round_half_even num den * Z.pos den - num) <= Z.pos den.
Proof.
  unfold round_half_even.
  pose proof (Z.div_mod num (Z.pos den) ltac:(lia)) as Hdm.
  pose proof (Z.mod_pos_bound num (Z.pos den) ltac:(lia)) as Hr.
  set (q := num / Z.pos den) in *. set (r := num mod Z.pos den) in *.
  destruct (Z.compare_spec (2 * r) (Z.pos den)) as [He|Hl|Hg];
    [destruct (Z.even q)| |]; nia.
Qed.

Lemma round_half_even_le (num : Z) (den : positive) (B : Z) :
  0 <= num -> num <= B * Z.pos den -> round_half_even num den <= B.
Proof.
  intros H0 HB. unfold round_half_even.
  pose proof (Z.div_mod num (Z.pos den) ltac:(lia)) as Hdm.
  pose proof (Z.mod_pos_bound num (Z.pos den) ltac:(lia)) as Hr.
  set (q := num / Z.pos den) in *. set (r := num mod Z.pos den) in *.
  assert (Hq : q <= B) by nia.
  destruct (Z.compare_spec (2 * r) (Z.pos den)) as [He|Hl|Hg].
  - destruct (Z.even q); [lia|]. nia.
  - lia.
  - nia.
Qed.

Lemma mag_pos (m : positive) (e : Z) : (0 < mag m e)%Q.
Proof.
  unfold mag, Qlt. destruct e; cbn [Qnum Qden]; lia.
Qed.

(** [mag m e] is the rational [m * 2^e]. *)
Lemma mag_value (m : positive) (e : Z) :
  (mag m e == inject_Z (Z.pos m) * 2 ^ e)%Q.
Proof.
  destruct e as [|p|p]; unfold mag.
  - change (2 ^ 0)%Q with 1%Q. rewrite Qmult_1_r. reflexivity.
  - change (2%Q) with (inject_Z 2). rewrite <- Zpower_Qpower by lia.
    rewrite <- inject_Z_mult. reflexivity.
  - change (Z.neg p) with (- Z.pos p). rewrite Qpower_opp.
    change (2%Q) with (inject_Z 2). rewrite <- Zpower_Qpower by lia.
    rewrite Qmake_Qdiv. unfold Qdiv. rewrite Pos2Z.inj_pow. reflexivity.
Qed.

Lemma mag_num_pos (m : positive) (e : Z) : 0 < Qnum (mag m e).
Proof.
  pose proof (mag_pos m e) as H. unfold Qlt in H. cbn [Qnum Qden] in H. lia.
Qed.

Lemma millionths_nonneg (m : positive) (e : Z) : 0 <= millionths m e.
Proof.
  apply round_half_even_nonneg. pose proof (mag_num_pos m e). lia.
Qed.

Lemma millionths_le (m : positive) (e : Z) (B : Z) :
  (mag m e <= inject_Z B)%Q -> millionths m e <= B * 1000000.
Proof.
  intros H. apply round_half_even_le.
  - pose proof (mag_num_pos m e). lia.
  - unfold Qle in H. cbn [Qnum Qden inject_Z] in H. lia.
Qed.

Lemma fmt_f_no_NUL (x : spec_float) : Forall (fun c => c <> NUL) (fmt_f x).
Proof.
  assert (Hs : forall neg, Forall (fun c => c <> NUL) (sign_prefix neg)).
  { intros [|]; repeat constructor; discriminate. }
  destruct x as [neg|neg| |neg m e]; simpl.
  - apply Forall_app. split; [apply Hs|]. repeat constructor; discriminate.
  - apply Forall_app. split; [apply Hs|]. repeat constructor; discriminate.
  - repeat constructor; discriminate.
  - apply Forall_app. split; [apply Hs|].
    apply Forall_app. split; [apply dec_fuel_no_NUL|].
    constructor; [discriminate | apply (dec_fixed_no_NUL 6)].
Qed.

(** A finite number of magnitude at most [B < 10^k] prints with at most
    [k] digits before the point: sign, digits, point and six decimals. *)
Lemma length_fmt_f_finite (neg : bool) (m : positive) (e : Z) (B : Z) (k : nat) :
  (1 <= k)%nat -> B < 10 ^ Z.of_nat k -> (mag m e <= inject_Z B)%Q ->
  (length (fmt_f (S754_finite neg m e)) <= length (sign_prefix neg) + k + 7)%nat.
Proof.
  intros Hk HB Hm. unfold fmt_f.
  rewrite !length_app. cbn [length]. rewrite length_dec_fixed.
  pose proof (millionths_nonneg m e) as H0.
  pose proof (millionths_le m e B Hm) as H1.
  assert (Hip : 0 <= millionths m e / 1000000 < 10 ^ Z.of_nat k).
  { split; [apply Z.div_pos; lia|].
    apply Z.le_lt_trans with B; [|lia].
    apply Z.div_le_upper_bound; lia. }
  pose proof (length_dec k _ Hk Hip). lia.
Qed.

(** ** The command buffer *)

Lemma length_command (text : list ascii) : length (command text) = 32%nat.
Proof. unfold command. now rewrite length_store, length_zero_array. Qed.

Lemma command_fits (text : list ascii) :
  (length text < 32)%nat ->
  command text = text ++ NUL :: replicate (31 - length text) NUL.
Proof.
  intros H. unfold command, store, zero_array, WRITE_BUFFER_SIZE.
  rewrite length_replicate, drop_replicate, length_app. cbn [length].
  change (Z.to_nat 32) with 32%nat.
  rewrite take_ge.
  - rewrite <- app_assoc. cbn [app]. do 2 f_equal. f_equal. lia.
  - rewrite !length_app, length_replicate. cbn [length]. lia.
Qed.

Lemma cstring_command (text : list ascii) :
  (length text < 32)%nat -> Forall (fun c => c <> NUL) text ->
  cstring (command text) = text.
Proof.
  intros Hlen Hnul. rewrite command_fits by assumption.
  now apply cstring_app_NUL.
Qed.

(** ** The body shared by the five setters *)

Section SetterBody.

Context {dev : Type} (uart : uart_library dev).

Lemma setter_body_sent (hdl : Z) (fmt : list ascii) (arg : printf_arg)
    (text : list ascii) (w : world dev) :
  format fmt [arg] = Some text -> (length text < 32)%nat ->
  setter_body uart hdl fmt arg w = sent uart hdl text w.
Proof.
  intros Hf Hlen.
  unfold setter_body, mbind, M_bind, do_sprintf_s, sprintf_s, sent, set_, command.
  rewrite Hf.
  destruct (Z.ltb_spec (Z.of_nat (length text)) WRITE_BUFFER_SIZE) as [_|Hge];
    [|unfold WRITE_BUFFER_SIZE in Hge; lia].
  unfold mret, M_ret.
  destruct (fnUART_LIBRARY_Set uart hdl _ WRITE_BUFFER_SIZE (device w)) as [r d].
  reflexivity.
Qed.

Lemma setter_body_refused (hdl : Z) (fmt : list ascii) (arg : printf_arg)
    (text : list ascii) (w : world dev) :
  format fmt [arg] = Some text -> (32 <= length text)%nat ->
  setter_body uart hdl fmt arg w = (Aborted invalid_parameter, w).
Proof.
  intros Hf Hlen.
  unfold setter_body, mbind, M_bind, do_sprintf_s, sprintf_s.
  rewrite Hf.
  destruct (Z.ltb_spec (Z.of_nat (length text)) WRITE_BUFFER_SIZE) as [Hlt|_];
    [unfold WRITE_BUFFER_SIZE in Hlt; lia|].
  reflexivity.
Qed.

Lemma sends_formatted_intro (hdl : Z) (fmt : string) (arg : printf_arg)
    (text : list ascii) (m : M dev Z) (w : world dev) :
  format (c_lit fmt) [arg] = Some text -> (length text < 32)%nat ->
  Forall (fun c => c <> NUL) text ->
  m w = setter_body uart hdl (c_lit fmt) arg w ->
  sends_formatted uart hdl fmt arg m w.
Proof.
  intros Hf Hlen Hnul Hm. exists text. repeat split.
  - exact Hf.
  - exact Hlen.
  - now apply cstring_command.
  - apply length_command.
  - rewrite Hm. now apply setter_body_sent.
Qed.

Lemma assert_true_bind {A} (k : unit -> M dev A) (w : world dev) :
  (assert true ≫= k) w = k tt w.
Proof. reflexivity. Qed.

Lemma assert_false_bind {A} (k : unit -> M dev A) (w : world dev) :
  (assert false ≫= k) w = (Aborted assertion_failed, w).
Proof. reflexivity. Qed.

End SetterBody.

(** ** The expansions of the five templates *)

Lemma format_channel (n : Z) :
  format (c_lit "channel=%d\r") [arg_int n] = Some (c_lit "channel=" ++ fmt_d n ++ [CR]).
Proof. reflexivity. Qed.

Lemma format_target (x : spec_float) :
  format (c_lit "target=%f\r") [arg_double x] = Some (c_lit "target=" ++ fmt_f x ++ [CR]).
Proof. reflexivity. Qed.

Lemma format_current (x : spec_float) :
  format (c_lit "current=%f\r") [arg_double x] = Some (c_lit "current=" ++ fmt_f x ++ [CR]).
Proof. reflexivity. Qed.

Lemma format_enable (n : Z) :
  format (c_lit "enable=%d\r") [arg_int n] = Some (c_lit "enable=" ++ fmt_d n ++ [CR]).
Proof. reflexivity. Qed.

Lemma format_system (n : Z) :
  format (c_lit "system=%d\r") [arg_int n] = Some (c_lit "system=" ++ fmt_d n ++ [CR]).
Proof. reflexivity. Qed.

Lemma template_no_NUL (pre body : list ascii) :
  Forall (fun c => c <> NUL) pre -> Forall (fun c => c <> NUL) body ->
  Forall (fun c => c <> NUL) (pre ++ body ++ [CR]).
Proof.
  intros Hp Hb. apply Forall_app. split; [exact Hp|].
  apply Forall_app. split; [exact Hb|]. repeat constructor. discriminate.
Qed.

Lemma literal_no_NUL (s : string) :
  forallb (fun c => negb (Ascii.eqb c NUL)) (c_lit s) = true ->
  Forall (fun c => c <> NUL) (c_lit s).
Proof.
  intros H. apply Forall_forall. intros c Hc Heq. subst c.
  rewrite forallb_forall in H. apply list_elem_of_In in Hc.
  specialize (H _ Hc). discriminate.
Qed.

(** ** The temperature assertion *)

Lemma TEMP_LO_value : (F2Q TEMP_LO == 20)%Q.
Proof. reflexivity. Qed.

Lemma TEMP_HI_value : (F2Q TEMP_HI == 30)%Q.
Proof. reflexivity. Qed.

Lemma temperature_assertion (x : spec_float) :
  float_le TEMP_LO x && float_le x TEMP_HI = true <-> temperature_in_range x.
Proof.
  unfold temperature_in_range. rewrite andb_true_iff. split.
  - intros [Hlo Hhi]. destruct x as [neg|[|]| |neg m e]; try discriminate.
    exists (F2Q (S754_finite neg m e)). split; [reflexivity|].
    unfold float_le in Hlo, Hhi. cbn [TEMP_LO TEMP_HI] in Hlo, Hhi.
    apply Qle_bool_iff in Hlo, Hhi.
    split.
    + now rewrite <- TEMP_LO_value.
    + now rewrite <- TEMP_HI_value.
  - intros (q & Hq & Hlo & Hhi).
    destruct x as [neg|neg| |neg m e]; simpl in Hq; try discriminate;
      injection Hq as <-.
    + exfalso. unfold Qle in Hlo. cbn in Hlo. lia.
    + unfold float_le. cbn [TEMP_LO TEMP_HI].
      split; apply Qle_bool_iff.
      * now rewrite TEMP_LO_value.
      * now rewrite TEMP_HI_value.
Qed.

(** A temperature that passes the assertion prints in nine characters. *)
Lemma length_fmt_f_temperature (x : spec_float) :
  float_le TEMP_LO x && float_le x TEMP_HI = true -> (length (fmt_f x) <= 9)%nat.
Proof.
  intros H. apply temperature_assertion in H. destruct H as (q & Hq & Hlo & Hhi).
  destruct x as [neg|neg| |neg m e]; simpl in Hq; try discriminate;
    injection Hq as <-.
  - exfalso. unfold Qle in Hlo. cbn in Hlo. lia.
  - destruct neg.
    + exfalso. pose proof (mag_pos m e) as Hp. cbn [F2Q] in Hlo.
      unfold Qle, Qlt in *. cbn [Qnum Qden Qopp] in *. lia.
    + pose proof (length_fmt_f_finite false m e 30 2 ltac:(lia) ltac:(simpl; lia) Hhi).
      cbn [sign_prefix length] in *. lia.
Qed.

(** ** The setters *)

Section Setters.

Context {dev : Type} (uart : uart_library dev).

Lemma fst_sent (hdl : Z) (text : list ascii) (w : world dev) :
  exists r, fst (sent uart hdl text w) = Returned r.
Proof.
  unfold sent.
  destruct (fnUART_LIBRARY_Set uart hdl _ WRITE_BUFFER_SIZE (device w)) as [r d].
  now exists r.
Qed.

Lemma setter_body_no_assertion (hdl : Z) (fmt : list ascii) (arg : printf_arg)
    (text : list ascii) (w : world dev) :
  format fmt [arg] = Some text ->
  fst (setter_body uart hdl fmt arg w) <> Aborted assertion_failed.
Proof.
  intros Hf. destruct (Nat.lt_ge_cases (length text) 32) as [Hlt|Hge].
  - rewrite (setter_body_sent uart hdl fmt arg text w Hf Hlt).
    destruct (fst_sent hdl text w) as [r ->]. discriminate.
  - rewrite (setter_body_refused uart hdl fmt arg text w Hf Hge). discriminate.
Qed.

Lemma SetActiveChannel_unfold (hdl n : Z) :
  fnMCLS1_DLL_SetActiveChannel uart hdl n =
  assert ((1 <=? n) && (n <=? 4)) ≫=
    (fun _ => setter_body uart hdl (c_lit "channel=%d\r") (arg_int n)).
Proof. reflexivity. Qed.

Lemma SetTargeTemperature_unfold (hdl : Z) (x : spec_float) :
  fnMCLS1_DLL_SetTargeTemperature uart hdl x =
  assert (float_le TEMP_LO x && float_le x TEMP_HI) ≫=
    (fun _ => setter_body uart hdl (c_lit "target=%f\r") (arg_double x)).
Proof. reflexivity. Qed.

Lemma SetCurrent_unfold (hdl : Z) (x : spec_float) :
  fnMCLS1_DLL_SetCurrent uart hdl x =
  setter_body uart hdl (c_lit "current=%f\r") (arg_double x).
Proof. reflexivity. Qed.

Lemma SetEnable_unfold (hdl n : Z) :
  fnMCLS1_DLL_SetEnable uart hdl n =
  assert ((0 <=? n) && (n <=? 1)) ≫=
    (fun _ => setter_body uart hdl (c_lit "enable=%d\r") (arg_int n)).
Proof. reflexivity. Qed.

Lemma SetSystemEnable_unfold (hdl n : Z) :
  fnMCLS1_DLL_SetSystemEnable uart hdl n =
  assert ((0 <=? n) && (n <=? 1)) ≫=
    (fun _ => setter_body uart hdl (c_lit "system=%d\r") (arg_int n)).
Proof. reflexivity. Qed.

(** The length of a command made of a literal, a number and the
    carriage return. *)
Lemma length_template (pre body : list ascii) :
  length (pre ++ body ++ [CR]) = (length pre + length body + 1)%nat.
Proof. rewrite !length_app. simpl. lia. Qed.

Lemma SetActiveChannel_sends (hdl n : Z) (w : world dev) :
  1 <= n <= 4 ->
  sends_formatted uart hdl "channel=%d\r" (arg_int n)
    (fnMCLS1_DLL_SetActiveChannel uart hdl n) w.
Proof.
  intros Hn.
  apply sends_formatted_intro with (text := c_lit "channel=" ++ fmt_d n ++ [CR]).
  - apply format_channel.
  - rewrite length_template, fmt_d_digit by lia. simpl. lia.
  - apply template_no_NUL; [now apply literal_no_NUL | apply fmt_d_no_NUL].
  - rewrite SetActiveChannel_unfold.
    replace ((1 <=? n) && (n <=? 4)) with true by (symmetry; apply andb_true_iff; lia).
    apply assert_true_bind.
Qed.

Lemma SetTargeTemperature_sends (hdl : Z) (x : spec_float) (w : world dev) :
  float_le TEMP_LO x && float_le x TEMP_HI = true ->
  sends_formatted uart hdl "target=%f\r" (arg_double x)
    (fnMCLS1_DLL_SetTargeTemperature uart hdl x) w.
Proof.
  intros Hx.
  apply sends_formatted_intro with (text := c_lit "target=" ++ fmt_f x ++ [CR]).
  - apply format_target.
  - rewrite length_template. pose proof (length_fmt_f_temperature x Hx). simpl. lia.
  - apply template_no_NUL; [now apply literal_no_NUL | apply fmt_f_no_NUL].
  - rewrite SetTargeTemperature_unfold, Hx. apply assert_true_bind.
Qed.

Lemma SetCurrent_sends (hdl : Z) (x : spec_float) (w : world dev) :
  (length (fmt_f x) <= 22)%nat ->
  sends_formatted uart hdl "current=%f\r" (arg_double x)
    (fnMCLS1_DLL_SetCurrent uart hdl x) w.
Proof.
  intros Hx.
  apply sends_formatted_intro with (text := c_lit "current=" ++ fmt_f x ++ [CR]).
  - apply format_current.
  - rewrite length_template. simpl. lia.
  - apply template_no_NUL; [now apply literal_no_NUL | apply fmt_f_no_NUL].
  - now rewrite SetCurrent_unfold.
Qed.

Lemma SetCurrent_refused (hdl : Z) (x : spec_float) (w : world dev) :
  (22 < length (fmt_f x))%nat ->
  fnMCLS1_DLL_SetCurrent uart hdl x w = (Aborted invalid_parameter, w).
Proof.
  intros Hx. rewrite SetCurrent_unfold.
  apply setter_body_refused with (text := c_lit "current=" ++ fmt_f x ++ [CR]).
  - apply format_current.
  - rewrite length_template. simpl. lia.
Qed.

Lemma SetEnable_sends (hdl n : Z) (w : world dev) :
  0 <= n <= 1 ->
  sends_formatted uart hdl "enable=%d\r" (arg_int n)
    (fnMCLS1_DLL_SetEnable uart hdl n) w.
Proof.
  intros Hn.
  apply sends_formatted_intro with (text := c_lit "enable=" ++ fmt_d n ++ [CR]).
  - apply format_enable.
  - rewrite length_template, fmt_d_digit by lia. simpl. lia.
  - apply template_no_NUL; [now apply literal_no_NUL | apply fmt_d_no_NUL].
  - rewrite SetEnable_unfold.
    replace ((0 <=? n) && (n <=? 1)) with true by (symmetry; apply andb_true_iff; lia).
    apply assert_true_bind.
Qed.

Lemma SetSystemEnable_sends (hdl n : Z) (w : world dev) :
  0 <= n <= 1 ->
  sends_formatted uart hdl "system=%d\r" (arg_int n)
    (fnMCLS1_DLL_SetSystemEnable uart hdl n) w.
Proof.
  intros Hn.
  apply sends_formatted_intro with (text := c_lit "system=" ++ fmt_d n ++ [CR]).
  - apply format_system.
  - rewrite length_template, fmt_d_digit by lia. simpl. lia.
  - apply template_no_NUL; [now apply literal_no_NUL | apply fmt_d_no_NUL].
  - rewrite SetSystemEnable_unfold.
    replace ((0 <=? n) && (n <=? 1)) with true by (symmetry; apply andb_true_iff; lia).
    apply assert_true_bind.
Qed.

(** An assertion on an [int] range: the run fails on it exactly outside
    the range. *)
Lemma int_assertion (lo hi n : Z) (k : unit -> M dev Z) (w : world dev) :
  (forall u w', fst (k u w') <> Aborted assertion_failed) ->
  fst ((assert ((lo <=? n) && (n <=? hi)) ≫= k) w) = Aborted assertion_failed
  <-> ~ lo <= n <= hi.
Proof.
  intros Hk. destruct ((lo <=? n) && (n <=? hi)) eqn:Hc.
  - rewrite assert_true_bind. apply andb_true_iff in Hc. split.
    + intros H. now apply Hk in H.
    + lia.
  - rewrite assert_false_bind. apply andb_false_iff in Hc. split; [lia|reflexivity].
Qed.

End Setters.

(** ** Scanning *)

Lemma length_cstring (a : list ascii) : (length (cstring a) <= length a)%nat.
Proof.
  induction a as [|c a IH]; simpl; [lia|].
  destruct (Ascii.eqb c NUL); simpl; lia.
Qed.

Lemma length_skip_space (inp : list ascii) : (length (skip_space inp) <= length inp)%nat.
Proof.
  induction inp as [|c inp IH]; simpl; [lia|].
  destruct (isspace c); simpl; lia.
Qed.

Lemma span_ext (p q : ascii -> bool) (inp : list ascii) :
  (forall c, p c = q c) -> span p inp = span q inp.
Proof.
  intros H. induction inp as [|c inp IH]; simpl; [reflexivity|].
  now rewrite H, IH.
Qed.

(** [span] cuts the input in two; the first part satisfies [p], the
    second does not start with a character that does. *)
Lemma span_spec (p : ascii -> bool) (inp : list ascii) :
  inp = fst (span p inp) ++ snd (span p inp) /\
  forallb p (fst (span p inp)) = true /\
  match snd (span p inp) with [] => True | c :: _ => p c = false end.
Proof.
  induction inp as [|c inp (IH1 & IH2 & IH3)]; simpl; [easy|].
  destruct (p c) eqn:Hc.
  - destruct (span p inp) as [f r]. simpl in *.
    rewrite Hc, IH2. repeat split; [now f_equal | exact IH3].
  - simpl. now rewrite Hc.
Qed.

Lemma length_span (p : ascii -> bool) (inp : list ascii) :
  (length (fst (span p inp)) <= length inp)%nat.
Proof.
  destruct (span_spec p inp) as [H _].
  rewrite H at 2. rewrite length_app. lia.
Qed.

(** A run of [p]-characters followed by the end or by another character
    is what [span] takes. *)
Lemma span_run (p : ascii -> bool) (v rest : list ascii) :
  forallb p v = true ->
  match rest with [] => True | c :: _ => p c = false end ->
  span p (v ++ rest) = (v, rest).
Proof.
  intros Hv Hrest. induction v as [|c v IH]; simpl in *.
  - destruct rest as [|c rest]; [reflexivity|]. simpl. now rewrite Hrest.
  - apply andb_true_iff in Hv. destruct Hv as [Hc Hv].
    now rewrite Hc, (IH Hv).
Qed.

Lemma length_strip (pre inp after : list ascii) :
  strip pre inp = Some after -> length inp = (length pre + length after)%nat.
Proof.
  revert inp. induction pre as [|p pre IH]; intros inp H; simpl in *.
  - now injection H as ->.
  - destruct inp as [|x inp]; [discriminate|].
    destruct (Ascii.eqb x p); [|discriminate].
    simpl. now rewrite (IH _ H).
Qed.

Lemma strip_app (pre rest : list ascii) : strip pre (pre ++ rest) = Some rest.
Proof.
  induction pre as [|p pre IH]; simpl; [reflexivity|].
  now rewrite Ascii.eqb_refl.
Qed.

(** Literal directives strip their text from the input, or stop the scan. *)
Lemma scan_literals (pre : list ascii) (ds : list directive) (inp : list ascii)
    (sizes : list Z) :
  scan (map d_lit pre ++ ds) inp sizes =
  match strip pre inp with
  | Some after => scan ds after sizes
  | None => []
  end.
Proof.
  revert inp. induction pre as [|p pre IH]; intros inp; simpl.
  - reflexivity.
  - destruct inp as [|x inp]; [reflexivity|].
    destruct (Ascii.eqb x p); [apply IH | reflexivity].
Qed.

Lemma parse_reply_format (g : getter) :
  parse_format (reply_format g) =
  Some (map d_lit (list_ascii_of_string (getter_name g) ++ ["?"%char]) ++
        [d_space; d_set false (getter_items g)]).
Proof. destruct g; reflexivity. Qed.

Lemma in_set_value_char (g : getter) (c : ascii) :
  in_set false (getter_items g) c = value_char g c.
Proof.
  destruct g; destruct c as [[] [] [] [] [] [] [] []]; reflexivity.
Qed.

Lemma name_not_empty (g : getter) :
  (3 <= length (list_ascii_of_string (getter_name g) ++ ["?"%char]))%nat.
Proof. destruct g; simpl; lia. Qed.

(** What the scan of a reply leaves behind [c]: the value, when the reply
    has one.  The value cannot be too long for the 255 bytes it is given,
    as the reply itself sits in 255 bytes. *)
Lemma sscanf_s_extract (g : getter) (temp c : list ascii) :
  length temp = 255%nat ->
  sscanf_s temp (reply_format g) c MAXLEN =
  match extract g (cstring temp) with
  | Some v => poke c v
  | None => c
  end.
Proof.
  intros Hlen. unfold sscanf_s, extract.
  rewrite parse_reply_format, scan_literals.
  pose proof (length_cstring temp) as Hcs.
  destruct (strip _ (cstring temp)) as [after|] eqn:Hstrip; [|reflexivity].
  apply length_strip in Hstrip. pose proof (name_not_empty g) as Hname.
  cbn [scan].
  rewrite (span_ext _ (value_char g)) by apply in_set_value_char.
  pose proof (length_span (value_char g) (skip_space after)) as Hspan.
  pose proof (length_skip_space after) as Hskip.
  destruct (span (value_char g) (skip_space after)) as [[|v0 v] rest]; [reflexivity|].
  cbn [fst] in *.
  destruct (Z.ltb_spec (Z.of_nat (length (v0 :: v))) MAXLEN) as [_|Hge];
    [reflexivity|].
  unfold MAXLEN in Hge. lia.
Qed.

(** The scratch buffer of a getter always has its 255 bytes. *)
Lemma length_scratch (bytes : list ascii) :
  length (store (zero_array MAXLEN) bytes) = 255%nat.
Proof. now rewrite length_store, length_zero_array. Qed.

Section Getters.

Context {dev : Type} (uart : uart_library dev).

Lemma getter_asked (g : getter) (hdl : Z) (c : list ascii) (limit : Z) (w : world dev) :
  getter_fn uart g hdl c limit w = asked uart g hdl c w.
Proof.
  assert (Hbody :
    ('(ret, temp) ← get uart hdl (char_array WRITE_BUFFER_SIZE (query g)) (zero_array MAXLEN);
     mret (ret, sscanf_s temp (reply_format g) c MAXLEN)) w = asked uart g hdl c w).
  { unfold asked, mbind, M_bind, get, mret, M_ret.
    destruct (fnUART_LIBRARY_Get uart hdl _ (device w)) as [[r bytes] d].
    now rewrite sscanf_s_extract by apply length_scratch. }
  rewrite <- Hbody. destruct g; reflexivity.
Qed.

End Getters.

(** ** The port list *)

Lemma cstring_no_NUL (a : list ascii) : Forall (fun c => c <> NUL) (cstring a).
Proof.
  induction a as [|c a IH]; simpl; [constructor|].
  destruct (Ascii.eqb_spec c NUL) as [|Hc]; constructor; assumption.
Qed.

Lemma span_before_comma (s : list ascii) :
  fst (span (in_set true [item_char ","%char]) s) = before_comma s.
Proof.
  induction s as [|c s IH]; simpl; [reflexivity|].
  unfold in_set at 1. cbn [existsb in_item]. rewrite orb_false_r.
  destruct (Ascii.eqb c ","%char); simpl; [reflexivity|].
  destruct (span _ s) as [f r]. simpl in *. now rewrite IH.
Qed.

Lemma before_comma_entry (entry rest : list ascii) :
  Forall (fun c => c <> ","%char) entry ->
  before_comma (entry ++ ","%char :: rest) = entry.
Proof.
  induction 1 as [|c entry Hc _ IH]; simpl; [reflexivity|].
  destruct (Ascii.eqb_spec c ","%char) as [|_]; [contradiction|].
  now rewrite IH.
Qed.


Section PortList.

Context {dev : Type} (uart : uart_library dev).

Lemma List_listed (port : list ascii) (var : Z) (w : world dev) :
  fnMCLS1_DLL_List uart port var w = listed uart port w.
Proof.
  unfold fnMCLS1_DLL_List, listed, mbind, M_bind, list_, mret, M_ret.
  destruct (fnUART_LIBRARY_list uart MAXLEN (device w)) as [[r bytes] d].
  do 2 f_equal. unfold sscanf_s.
  change (parse_format (c_lit "%[^,]")) with (Some [d_set true [item_char ","%char]]).
  cbn [scan].
  rewrite <- span_before_comma.
  destruct (span _ _) as [[|v0 v] rest]; [reflexivity|].
  cbn [fst]. destruct (Z.of_nat (length (v0 :: v)) <? MAXLEN); reflexivity.
Qed.

End PortList.

(** ** Loading the library *)

Lemma init_MCLS1_not_loaded (fs : file_system) (g : globals) :
  fs !! dll_path = None -> init_MCLS1 fs g = (-1, g).
Proof. intros H. unfold init_MCLS1, LoadLibrary. now rewrite H. Qed.

Lemma init_MCLS1_loaded (fs : file_system) (g : globals) (h : gmap string positive) :
  fs !! dll_path = Some h ->
  snd (init_MCLS1 fs g) =
    {| g_open := h !! "fnUART_LIBRARY_open";
       g_list := h !! "fnUART_LIBRARY_list";
       g_close := h !! "fnUART_LIBRARY_close";
       g_set := h !! "fnUART_LIBRARY_Set";
       g_get := h !! "fnUART_LIBRARY_Get" |} /\
  fst (init_MCLS1 fs g) =
    if (is_NULL (h !! "fnUART_LIBRARY_open") || is_NULL (h !! "fnUART_LIBRARY_list")
        || is_NULL (h !! "fnUART_LIBRARY_close") || is_NULL (h !! "fnUART_LIBRARY_Set")
        || is_NULL (h !! "fnUART_LIBRARY_Get"))%bool
    then -2 else 0.
Proof.
  intros H. unfold init_MCLS1, LoadLibrary, GetProcAddress. rewrite H.
  cbn [g_open g_list g_close g_set g_get].
  split; destruct (_ || _)%bool; reflexivity.
Qed.

Lemma is_NULL_false (p : option positive) : is_NULL p = false <-> is_Some p.
Proof.
  destruct p; simpl; split; intros H; try discriminate; eauto.
  now destruct H.
Qed.

(** ** Sequencing runs *)

Section Runs.

Context {dev : Type} (uart : uart_library dev).

Lemma bind_returned {A B} (m : M dev A) (f : A -> M dev B) (w w1 : world dev) (a : A) :
  m w = (Returned a, w1) -> (m ≫= f) w = f a w1.
Proof. intros H. unfold mbind, M_bind. now rewrite H. Qed.

Lemma bind_aborted {A B} (m : M dev A) (f : A -> M dev B) (w w1 : world dev) (r : abort) :
  m w = (Aborted r, w1) -> (m ≫= f) w = (Aborted r, w1).
Proof. intros H. unfold mbind, M_bind. now rewrite H. Qed.

Lemma asks_nothing (w : world dev) : asks w w [].
Proof. exists []. now rewrite app_nil_r. Qed.

Lemma asks_then (w w1 w2 : world dev) (l1 l2 : list request) :
  asks w w1 l1 -> asks w1 w2 l2 -> asks w w2 (l1 ++ l2).
Proof.
  intros (n1 & H1 & <-) (n2 & H2 & <-). exists (n1 ++ n2). split.
  - now rewrite H2, H1, app_assoc.
  - apply map_app.
Qed.

(** A wrapper that [sends_formatted] returns, having asked for one [Set]. *)
Lemma sends_formatted_asks (hdl : Z) (fmt : string) (arg : printf_arg)
    (text : list ascii) (m : M dev Z) (w : world dev) :
  sends_formatted uart hdl fmt arg m w ->
  format (c_lit fmt) [arg] = Some text ->
  exists r w', m w = (Returned r, w') /\
    calls w' = calls w ++ [call_set hdl (command text) WRITE_BUFFER_SIZE r] /\
    r = fst (fnUART_LIBRARY_Set uart hdl (command text) WRITE_BUFFER_SIZE (device w)) /\
    device w' = snd (fnUART_LIBRARY_Set uart hdl (command text) WRITE_BUFFER_SIZE (device w)) /\
    asks w w' [req_set hdl text WRITE_BUFFER_SIZE].
Proof.
  intros (text' & Hf & _ & Hc & _ & Hm) Hf'.
  rewrite Hf in Hf'. injection Hf' as ->.
  unfold sent in Hm.
  destruct (fnUART_LIBRARY_Set uart hdl _ WRITE_BUFFER_SIZE (device w)) as [r d].
  exists r, (World d (calls w ++ [call_set hdl (command text) WRITE_BUFFER_SIZE r])).
  repeat split; [exact Hm|].
  eexists. split; [reflexivity|]. simpl. now rewrite Hc.
Qed.

End Runs.

(** ** Console input *)

Lemma keep_going_false (s : string) : keep_going s = false <-> is_quit s.
Proof.
  unfold keep_going, is_quit.
  destruct (String.eqb_spec s "quit"), (String.eqb_spec s "Quit"),
    (String.eqb_spec s "QUIT"); simpl; intuition congruence.
Qed.

Lemma keep_going_true (s : string) : keep_going s = true <-> ~ is_quit s.
Proof.
  rewrite <- keep_going_false. destruct (keep_going s); intuition congruence.
Qed.

Lemma is_quit_word (q : string) : is_quit q -> is_word q.
Proof. intros [H | [H | H]]; subst q; split; (discriminate || reflexivity). Qed.

Lemma skip_space_word (s : string) (more : list ascii) :
  is_word s ->
  skip_space (list_ascii_of_string s ++ more) = list_ascii_of_string s ++ more.
Proof.
  intros [Hne Hns]. destruct s as [|c s]; [contradiction|].
  simpl in *. apply andb_true_iff in Hns. destruct Hns as [Hc _].
  now destruct (isspace c).
Qed.

(** Extracting the word at the head of a line. *)
Lemma extract_word_line (input : list ascii) (s : string) (more : list ascii) :
  is_word s ->
  skip_space input = list_ascii_of_string s ++ LF :: more ->
  extract_word input = Some (s, LF :: more).
Proof.
  intros [Hne Hns] Hin. unfold extract_word. rewrite Hin.
  destruct (list_ascii_of_string s ++ LF :: more) as [|c l] eqn:E.
  - destruct s; [contradiction | discriminate].
  - rewrite <- E, span_run by (assumption || reflexivity).
    now rewrite string_of_list_ascii_of_string.
Qed.

Lemma skip_space_typed (s : string) (words : list string) (tail : list ascii) :
  is_word s ->
  skip_space (LF :: typed (s :: words) ++ tail) = typed (s :: words) ++ tail.
Proof.
  intros Hs. change (skip_space (LF :: ?x)) with (skip_space x).
  cbn [typed flat_map]. rewrite <- !app_assoc. now apply skip_space_word.
Qed.

(** ** The helpers and the loop of the demo *)

Section DemoRuns.

Context {dev : Type} (uart : uart_library dev).
Variable stof : string -> option spec_float.

Lemma sends_formatted_sent (hdl : Z) (fmt : string) (arg : printf_arg)
    (text : list ascii) (m : M dev Z) (w : world dev) :
  sends_formatted uart hdl fmt arg m w ->
  format (c_lit fmt) [arg] = Some text ->
  m w = sent uart hdl text w.
Proof.
  intros (text' & Hf & _ & _ & _ & Hm) Hf'. rewrite Hf in Hf'. now injection Hf' as <-.
Qed.

Lemma SetCurrent_twice (hdl : Z) (x : spec_float) (w : world dev) :
  (length (fmt_f x) <= 22)%nat ->
  SetCurrent uart hdl x w =
  let cmd := command (current_command x) in
  let '(r1, d1) := fnUART_LIBRARY_Set uart hdl cmd WRITE_BUFFER_SIZE (device w) in
  let '(r2, d2) := fnUART_LIBRARY_Set uart hdl cmd WRITE_BUFFER_SIZE d1 in
  (Returned r2,
   World d2 (calls w ++ [call_set hdl cmd WRITE_BUFFER_SIZE r1;
                         call_set hdl cmd WRITE_BUFFER_SIZE r2])).
Proof.
  intros Hx. unfold SetCurrent.
  pose proof (fun w => sends_formatted_sent hdl _ _ _ _ w
                (SetCurrent_sends uart hdl x w Hx) (format_current x)) as Hs.
  cbv zeta.
  destruct (fnUART_LIBRARY_Set uart hdl _ WRITE_BUFFER_SIZE (device w)) as [r1 d1] eqn:E1.
  destruct (fnUART_LIBRARY_Set uart hdl _ WRITE_BUFFER_SIZE d1) as [r2 d2] eqn:E2.
  erewrite bind_returned.
  2:{ rewrite Hs. unfold sent. fold (current_command x). rewrite E1. reflexivity. }
  rewrite Hs. unfold sent. fold (current_command x). cbn [device calls].
  rewrite E2, <- app_assoc. reflexivity.
Qed.

Lemma SetChannel_then_enable (hdl channel : Z) (w : world dev) :
  1 <= channel <= 4 ->
  SetChannel uart hdl channel w =
  let c1 := command (channel_command channel) in
  let c2 := command (enable_command 1) in
  let '(r1, d1) := fnUART_LIBRARY_Set uart hdl c1 WRITE_BUFFER_SIZE (device w) in
  let '(r2, d2) := fnUART_LIBRARY_Set uart hdl c2 WRITE_BUFFER_SIZE d1 in
  (Returned r2,
   World d2 (calls w ++ [call_set hdl c1 WRITE_BUFFER_SIZE r1;
                         call_set hdl c2 WRITE_BUFFER_SIZE r2])).
Proof.
  intros Hc. unfold SetChannel.
  pose proof (sends_formatted_sent hdl _ _ _ _ w
                (SetActiveChannel_sends uart hdl channel w Hc) (format_channel channel)) as Hs1.
  pose proof (fun w => sends_formatted_sent hdl _ _ _ _ w
                (SetEnable_sends uart hdl 1 w ltac:(lia)) (format_enable 1)) as Hs2.
  cbv zeta.
  destruct (fnUART_LIBRARY_Set uart hdl _ WRITE_BUFFER_SIZE (device w)) as [r1 d1] eqn:E1.
  destruct (fnUART_LIBRARY_Set uart hdl (command (enable_command 1)) WRITE_BUFFER_SIZE d1)
    as [r2 d2] eqn:E2.
  erewrite bind_returned.
  2:{ rewrite Hs1. unfold sent. fold (channel_command channel). rewrite E1. reflexivity. }
  rewrite Hs2. unfold sent. fold (enable_command 1). cbn [device calls].
  rewrite E2, <- app_assoc. reflexivity.
Qed.

Lemma cstring_current_command (x : spec_float) :
  (length (fmt_f x) <= 22)%nat ->
  cstring (command (current_command x)) = current_command x.
Proof.
  intros Hx. apply cstring_command.
  - unfold current_command. rewrite length_template. simpl. lia.
  - apply template_no_NUL; [now apply literal_no_NUL | apply fmt_f_no_NUL].
Qed.

Lemma cstring_digit_command (pre : string) (n : Z) :
  (length (c_lit pre) <= 20)%nat ->
  forallb (fun c => negb (Ascii.eqb c NUL)) (c_lit pre) = true ->
  0 <= n <= 9 ->
  cstring (command (c_lit pre ++ fmt_d n ++ [CR])) = c_lit pre ++ fmt_d n ++ [CR].
Proof.
  intros Hlen Hnul Hn. apply cstring_command.
  - rewrite length_template, fmt_d_digit by lia. simpl. lia.
  - apply template_no_NUL; [now apply literal_no_NUL | apply fmt_d_no_NUL].
Qed.

Lemma SetCurrent_asks (hdl : Z) (x : spec_float) (w : world dev) :
  (length (fmt_f x) <= 22)%nat ->
  exists r w', SetCurrent uart hdl x w = (Returned r, w') /\
               asks w w' (current_twice hdl x).
Proof.
  intros Hx. rewrite (SetCurrent_twice hdl x w Hx). cbv zeta.
  destruct (fnUART_LIBRARY_Set uart hdl _ WRITE_BUFFER_SIZE (device w)) as [r1 d1].
  destruct (fnUART_LIBRARY_Set uart hdl _ WRITE_BUFFER_SIZE d1) as [r2 d2].
  eexists _, _. split; [reflexivity|].
  eexists. split; [reflexivity|].
  unfold current_twice. cbn [map request_of calls].
  now rewrite cstring_current_command.
Qed.

Lemma SetChannel_asks (hdl channel : Z) (w : world dev) :
  1 <= channel <= 4 ->
  exists r w', SetChannel uart hdl channel w = (Returned r, w') /\
               asks w w' [req_set hdl (channel_command channel) WRITE_BUFFER_SIZE;
                          req_set hdl (enable_command 1) WRITE_BUFFER_SIZE].
Proof.
  intros Hc. rewrite (SetChannel_then_enable hdl channel w Hc). cbv zeta.
  destruct (fnUART_LIBRARY_Set uart hdl _ WRITE_BUFFER_SIZE (device w)) as [r1 d1].
  destruct (fnUART_LIBRARY_Set uart hdl _ WRITE_BUFFER_SIZE d1) as [r2 d2].
  eexists _, _. split; [reflexivity|].
  eexists. split; [reflexivity|].
  cbn [map request_of calls].
  unfold channel_command, enable_command.
  rewrite !cstring_digit_command by (try reflexivity; simpl; lia).
  reflexivity.
Qed.

(** The loop on the lines typed before the first exit word: two [Set]
    calls for the current it starts with, two for each line, and then it
    is left.  [x0] is the current of the first round: the one the loop is
    entered with if no word has been read yet, the number in [str]
    otherwise. *)
Lemma main_loop_until_quit (hdl : Z) (words : list string) :
  forall (values : list spec_float) (str : string) (current x0 : spec_float)
         (q : string) (input tail : list ascii) (fuel : nat) (w : world dev),
  Forall2 (fun s x => is_word s /\ ~ is_quit s /\ stof s = Some x) words values ->
  Forall (fun x => (length (fmt_f x) <= 22)%nat) (x0 :: values) ->
  ~ is_quit str ->
  (str = "" /\ x0 = current) \/ (str <> "" /\ stof str = Some x0) ->
  is_quit q ->
  skip_space input = typed (words ++ [q]) ++ tail ->
  (length words + 2 <= fuel)%nat ->
  exists w', main_loop uart stof fuel hdl str current input w = (Returned tt, w') /\
             asks w w' (flat_map (current_twice hdl) (x0 :: values)).
Proof.
  induction words as [|s words IH];
    intros values str current x0 q input tail fuel w Hwv Hfit Hstr Hx0 Hq Hin Hfuel.
  - apply Forall2_nil_inv_l in Hwv. subst values.
    destruct fuel as [|[|fuel]]; [simpl in Hfuel; lia..|].
    apply Forall_cons in Hfit. destruct Hfit as [Hfit0 _].
    destruct (SetCurrent_asks hdl x0 w Hfit0) as (r & w1 & Hrun & Hasks).
    exists w1. split.
    + cbn [main_loop].
      apply keep_going_true in Hstr. rewrite Hstr.
      erewrite bind_returned with (a := x0) (w1 := w).
      2:{ destruct Hx0 as [[-> ->]|[Hne Hs]]; [reflexivity|].
          apply String.eqb_neq in Hne. now rewrite Hne, Hs. }
      erewrite bind_returned by exact Hrun.
      rewrite (extract_word_line input q tail (is_quit_word q Hq)).
      2:{ rewrite Hin. cbn [typed flat_map app]. now rewrite app_nil_r, <- app_assoc. }
      apply keep_going_false in Hq. now rewrite Hq.
    + cbn [flat_map]. now rewrite app_nil_r.
  - apply Forall2_cons_inv_l in Hwv.
    destruct Hwv as (x & values' & (Hword & Hnq & Hs) & Hwv & ->).
    destruct fuel as [|fuel]; [simpl in Hfuel; lia|].
    apply Forall_cons in Hfit. destruct Hfit as [Hfit0 Hfit].
    destruct (SetCurrent_asks hdl x0 w Hfit0) as (r & w1 & Hrun & Hasks).
    assert (Hnext : is_word (hd q words)).
    { destruct words as [|s' words]; [now apply is_quit_word|].
      apply Forall2_cons_inv_l in Hwv. now destruct Hwv as (? & ? & (? & _) & _). }
    destruct (IH values' s x0 x q (LF :: typed (words ++ [q]) ++ tail) tail fuel w1
                 Hwv Hfit Hnq (or_intror (conj (proj1 Hword) Hs)) Hq)
      as (w' & Hloop & Hasks').
    { destruct words as [|s' words]; now apply skip_space_typed. }
    { simpl in Hfuel. lia. }
    exists w'. split.
    + cbn [main_loop].
      apply keep_going_true in Hstr. rewrite Hstr.
      erewrite bind_returned with (a := x0) (w1 := w).
      2:{ destruct Hx0 as [[-> ->]|[Hne0 Hs0]]; [reflexivity|].
          apply String.eqb_neq in Hne0. now rewrite Hne0, Hs0. }
      erewrite bind_returned by exact Hrun.
      rewrite (extract_word_line input s (typed (words ++ [q]) ++ tail) Hword).
      2:{ rewrite Hin. cbn [typed flat_map app]. now rewrite <- !app_assoc. }
      exact Hloop.
    + change (flat_map (current_twice hdl) (x0 :: x :: values'))
        with (current_twice hdl x0 ++ flat_map (current_twice hdl) (x :: values')).
      now apply asks_then with w1.
Qed.


End DemoRuns.

(** ** The demo from start to end *)

Section DemoMain.

Context {dev : Type} (uart : uart_library dev).
Variable atoi : string -> Z.
Variable atof : string -> spec_float.
Variable stof : string -> option spec_float.

Lemma List_asks (port : list ascii) (var : Z) (w w0 : world dev) (r0 : Z) (c0 : list ascii) :
  fnMCLS1_DLL_List uart port var w = (Returned (r0, c0), w0) ->
  asks w w0 [req_list MAXLEN].
Proof.
  rewrite List_listed. unfold listed.
  destruct (fnUART_LIBRARY_list uart MAXLEN (device w)) as [[r bytes] d].
  intros [= <- _ <-]. eexists. split; reflexivity.
Qed.

Lemma Open_asks (port : list ascii) (w w1 : world dev) (hdl : Z) :
  fnMCLS1_DLL_Open uart port w = (Returned hdl, w1) ->
  asks w w1 [req_open (cstring port) CBR_115200 3].
Proof.
  unfold fnMCLS1_DLL_Open, open, mbind, M_bind, mret, M_ret.
  destruct (fnUART_LIBRARY_open uart port CBR_115200 3 (device w)) as [r d].
  intros [= <- <-]. eexists. split; reflexivity.
Qed.

Lemma Close_asks (hdl : Z) (w : world dev) :
  exists r w', fnMCLS1_DLL_Close uart hdl w = (Returned r, w') /\
               asks w w' [req_close hdl].
Proof.
  unfold fnMCLS1_DLL_Close, close, mbind, M_bind, mret, M_ret.
  destruct (fnUART_LIBRARY_close uart hdl (device w)) as [r d].
  eexists _, _. split; [reflexivity|]. eexists. split; reflexivity.
Qed.

Lemma SetEnable_asks (hdl n : Z) (w : world dev) :
  0 <= n <= 1 ->
  exists r w', fnMCLS1_DLL_SetEnable uart hdl n w = (Returned r, w') /\
               asks w w' [req_set hdl (enable_command n) WRITE_BUFFER_SIZE].
Proof.
  intros Hn.
  destruct (sends_formatted_asks uart hdl _ _ _ _ w
              (SetEnable_sends uart hdl n w Hn) (format_enable n))
    as (r & w' & Hrun & _ & _ & _ & Hasks).
  now exists r, w'.
Qed.

(** The demo's own unfolding, once the library is loaded: the channel
    and current are the [chosen] ones. *)
Lemma tmain_loaded (argc : Z) (argv : list string) (fs : file_system)
    (input : list ascii) (fuel : nat) :
  fst (init_MCLS1 fs no_globals) = 0 ->
  _tmain uart atoi atof stof argc argv fs input fuel =
  ('(_, c) ← fnMCLS1_DLL_List uart (zero_array MAXLEN) MAXLEN;
   hdl ← fnMCLS1_DLL_Open uart (string_literal "COM3");
   if hdl <? 0 then mret 0
   else
     ret ← SetChannel uart hdl (fst (chosen atoi atof argc argv));
     _ ← main_loop uart stof fuel hdl "" (snd (chosen atoi atof argc argv)) input;
     _ ← fnMCLS1_DLL_SetEnable uart hdl 0;
     _ ← fnMCLS1_DLL_Close uart hdl;
     mret 0).
Proof.
  intros Hinit. unfold _tmain, chosen. rewrite Hinit.
  destruct (negb (argc =? 3)); reflexivity.
Qed.

Lemma tmain_not_loaded (argc : Z) (argv : list string) (fs : file_system)
    (input : list ascii) (fuel : nat) (w : world dev) :
  fst (init_MCLS1 fs no_globals) <> 0 ->
  _tmain uart atoi atof stof argc argv fs input fuel w = (Returned 0, w).
Proof.
  intros Hinit. unfold _tmain.
  destruct (Z.eqb_spec (fst (init_MCLS1 fs no_globals)) 0) as [|_]; [contradiction|].
  destruct (negb (argc =? 3)); reflexivity.
Qed.

End DemoMain.

(** ** Every wrapper call, by cases *)

Lemma query_command (g : getter) :
  cstring (char_array WRITE_BUFFER_SIZE (query g)) = query g /\
  (length (query g) < 32)%nat.
Proof. destruct g; split; try reflexivity; simpl; lia. Qed.

Section Cases.

Context {dev : Type} (uart : uart_library dev).

(** A call that is [sent] makes one good [Set] call. *)
Lemma sent_one_call (hdl : Z) (text : list ascii) (w : world dev) :
  (length text < 32)%nat -> cstring (command text) = text ->
  exists e d,
    sent uart hdl text w = (Returned (call_status e), World d (calls w ++ [e])) /\
    vendor_fn_of_call e = v_Set /\
    call_status e = vendor_status uart e (device w) /\
    buffer_ok e.
Proof.
  intros Hlen Hc. unfold sent.
  destruct (fnUART_LIBRARY_Set uart hdl _ WRITE_BUFFER_SIZE (device w)) as [r d] eqn:E.
  exists (call_set hdl (command text) WRITE_BUFFER_SIZE r), d.
  repeat split.
  - simpl. now rewrite E.
  - apply length_command.
  - now rewrite Hc.
Qed.

Lemma sends_formatted_one_call (hdl : Z) (fmt : string) (arg : printf_arg)
    (m : M dev Z) (w : world dev) :
  sends_formatted uart hdl fmt arg m w ->
  exists e d,
    m w = (Returned (call_status e), World d (calls w ++ [e])) /\
    vendor_fn_of_call e = v_Set /\
    call_status e = vendor_status uart e (device w) /\
    buffer_ok e.
Proof.
  intros (text & _ & Hlen & Hc & _ & ->). now apply sent_one_call.
Qed.

Lemma int_setter_rejected (lo hi n : Z) (k : unit -> M dev Z) (w : world dev) :
  (lo <=? n) && (n <=? hi) = false ->
  (assert ((lo <=? n) && (n <=? hi)) ≫= k) w = (Aborted assertion_failed, w).
Proof. intros ->. reflexivity. Qed.

(** Either the wrapper's own checks pass, and it makes exactly one call of
    its vendor function and returns the status of that call; or they do
    not, and it stops before any call. *)
Lemma status_of_cases (o : operation) (w : world dev) :
  (accepted o = true /\
   exists e d,
     status_of uart o w = (Returned (call_status e), World d (calls w ++ [e])) /\
     vendor_fn_of_call e = vendor_fn_of o /\
     call_status e = vendor_status uart e (device w) /\
     buffer_ok e) \/
  (accepted o = false /\ exists r, status_of uart o w = (Aborted r, w)).
Proof.
  destruct o as [port var|port|hdl|hdl n|hdl x|hdl x|hdl n|hdl n|g hdl c limit];
    cbn [accepted status_of vendor_fn_of].
  - left. split; [reflexivity|].
    unfold mbind, M_bind. rewrite List_listed. unfold listed.
    destruct (fnUART_LIBRARY_list uart MAXLEN (device w)) as [[r bytes] d] eqn:E.
    exists (call_list MAXLEN r), d. repeat split. simpl. now rewrite E.
  - left. split; [reflexivity|].
    unfold fnMCLS1_DLL_Open, open, mbind, M_bind, mret, M_ret.
    destruct (fnUART_LIBRARY_open uart port CBR_115200 3 (device w)) as [r d] eqn:E.
    exists (call_open port CBR_115200 3 r), d. repeat split. simpl. now rewrite E.
  - left. split; [reflexivity|].
    unfold fnMCLS1_DLL_Close, close, mbind, M_bind, mret, M_ret.
    destruct (fnUART_LIBRARY_close uart hdl (device w)) as [r d] eqn:E.
    exists (call_close hdl r), d. repeat split. simpl. now rewrite E.
  - destruct ((1 <=? n) && (n <=? 4)) eqn:Hc.
    + left. split; [reflexivity|].
      eapply sends_formatted_one_call, SetActiveChannel_sends.
      apply andb_true_iff in Hc. lia.
    + right. split; [reflexivity|]. exists assertion_failed.
      rewrite SetActiveChannel_unfold. now apply int_setter_rejected.
  - destruct (float_le TEMP_LO x && float_le x TEMP_HI) eqn:Hc.
    + left. split; [reflexivity|].
      eapply sends_formatted_one_call, SetTargeTemperature_sends. exact Hc.
    + right. split; [reflexivity|]. exists assertion_failed.
      rewrite SetTargeTemperature_unfold, Hc. reflexivity.
  - destruct (Nat.leb_spec (length (fmt_f x)) 22) as [Hc|Hc].
    + left. split; [reflexivity|].
      eapply sends_formatted_one_call, SetCurrent_sends. exact Hc.
    + right. split; [reflexivity|]. exists invalid_parameter.
      now apply SetCurrent_refused.
  - destruct ((0 <=? n) && (n <=? 1)) eqn:Hc.
    + left. split; [reflexivity|].
      eapply sends_formatted_one_call, SetEnable_sends.
      apply andb_true_iff in Hc. lia.
    + right. split; [reflexivity|]. exists assertion_failed.
      rewrite SetEnable_unfold. now apply int_setter_rejected.
  - destruct ((0 <=? n) && (n <=? 1)) eqn:Hc.
    + left. split; [reflexivity|].
      eapply sends_formatted_one_call, SetSystemEnable_sends.
      apply andb_true_iff in Hc. lia.
    + right. split; [reflexivity|]. exists assertion_failed.
      rewrite SetSystemEnable_unfold. now apply int_setter_rejected.
  - left. split; [reflexivity|].
    unfold mbind, M_bind. rewrite getter_asked. unfold asked.
    destruct (fnUART_LIBRARY_Get uart hdl _ (device w)) as [[r bytes] d] eqn:E.
    exists (call_get hdl (char_array WRITE_BUFFER_SIZE (query g)) r), d.
    destruct (query_command g) as [Hq Hl].
    repeat split.
    + simpl. now rewrite E.
    + apply length_char_array.
    + now rewrite Hq.
Qed.

End Cases.

(** ** Replies as the device sends them *)

Lemma length_extract (g : getter) (reply v : list ascii) :
  extract g reply = Some v -> (length v + 3 <= length reply)%nat.
Proof.
  unfold extract.
  destruct (strip _ reply) as [after|] eqn:Hstrip; [|discriminate].
  apply length_strip in Hstrip. pose proof (name_not_empty g) as Hname.
  pose proof (length_span (value_char g) (skip_space after)) as Hspan.
  pose proof (length_skip_space after) as Hskip.
  destruct (fst (span (value_char g) (skip_space after))) as [|v0 v']; [discriminate|].
  intros [= <-]. lia.
Qed.

(** A reply that echoes the query and goes on with a value: the value is
    what is extracted.  The value must not start with white space (the
    carriage return of the format skips all of it), and what follows the
    value must not be a value character. *)
Lemma extract_echo (g : getter) (value rest : list ascii) :
  match value with [] => False | v0 :: _ => isspace v0 = false end ->
  forallb (value_char g) value = true ->
  match rest with [] => True | c :: _ => value_char g c = false end ->
  extract g (query g ++ value ++ rest) = Some value.
Proof.
  intros Hhead Hval Hrest. unfold extract, query.
  replace ((list_ascii_of_string (getter_name g) ++ ["?"%char; CR]) ++ value ++ rest)
    with ((list_ascii_of_string (getter_name g) ++ ["?"%char]) ++ CR :: value ++ rest)
    by (rewrite <- !app_assoc; reflexivity).
  rewrite strip_app.
  destruct value as [|v0 value]; [contradiction|].
  cbn [skip_space app]. change (isspace CR) with true. cbn iota.
  cbn [skip_space]. rewrite Hhead.
  change (v0 :: value ++ rest) with ((v0 :: value) ++ rest).
  now rewrite span_run.
Qed.

Example canned_replies :
  extract GetActiveChannel (c_lit "channel?\r3\r> ") = Some (c_lit "3") /\
  extract GetTargetTemperature (c_lit "target?\r25.00\r> ") = Some (c_lit "25.00") /\
  extract GetActualCurrent (c_lit "current?\r49.87\r> ") = Some (c_lit "49.87") /\
  extract GetID (c_lit "id?\rTHORLABS MCLS1 1.0\r> ") = Some (c_lit "THORLABS MCLS1 1.0") /\
  extract GetStatus (c_lit "statword?\r") = None /\
  extract GetEnable (c_lit "CMD_NOT_DEFINED\r> ") = None /\
  extract GetEnable (c_lit "") = None.
Proof. repeat split; reflexivity. Qed.

(** ** Values read from a reply *)

Lemma forallb_Forall (p : ascii -> bool) (l : list ascii) :
  forallb p l = true -> Forall (fun c => p c = true) l.
Proof.
  intros H. apply Forall_forall. intros c Hc.
  rewrite forallb_forall in H. apply H. now apply list_elem_of_In.
Qed.

Lemma strip_Some (pre inp after : list ascii) :
  strip pre inp = Some after -> inp = pre ++ after.
Proof.
  revert inp. induction pre as [|p pre IH]; intros inp H; simpl in *.
  - now injection H as ->.
  - destruct inp as [|x inp]; [discriminate|].
    destruct (Ascii.eqb_spec x p) as [->|_]; [|discriminate].
    now rewrite (IH _ H).
Qed.

Lemma value_char_not_NUL (g : getter) (c : ascii) : value_char g c = true -> c <> NUL.
Proof. intros H ->. destruct g; discriminate. Qed.

Lemma value_no_NUL (g : getter) (v : list ascii) :
  forallb (value_char g) v = true -> Forall (fun c => c <> NUL) v.
Proof.
  intros H. apply forallb_Forall in H. eapply Forall_impl; [exact H|].
  intros c. apply value_char_not_NUL.
Qed.

(** What is extracted is a run of value characters, not empty, and the
    reply started with the echo. *)
Lemma extract_Some (g : getter) (reply v : list ascii) :
  extract g reply = Some v ->
  v <> [] /\ forallb (value_char g) v = true /\ starts_with (echo g) reply.
Proof.
  unfold extract. fold (echo g).
  destruct (strip (echo g) reply) as [after|] eqn:Hstrip; [|discriminate].
  apply strip_Some in Hstrip.
  destruct (span_spec (value_char g) (skip_space after)) as (_ & Hall & _).
  destruct (fst (span (value_char g) (skip_space after))) as [|v0 v']; [discriminate|].
  intros [= <-]. repeat split; [discriminate | exact Hall | now exists after].
Qed.

(** ** Buffers *)







Section Buffers.

Context {dev : Type} (uart : uart_library dev).






End Buffers.

(** ** Runs of the demo that stop *)

Section DemoStops.

Context {dev : Type} (uart : uart_library dev).
Variable stof : string -> option spec_float.

(** A channel outside 1..4 stops the helper at the assertion. *)
Lemma SetChannel_rejected (hdl channel : Z) (w : world dev) :
  ~ 1 <= channel <= 4 ->
  SetChannel uart hdl channel w = (Aborted assertion_failed, w).
Proof.
  intros Hc. unfold SetChannel. apply bind_aborted.
  rewrite SetActiveChannel_unfold. apply int_setter_rejected.
  destruct (Z.leb_spec 1 channel), (Z.leb_spec channel 4); simpl; try reflexivity. lia.
Qed.

(** A first current whose command does not fit stops the loop in its
    first round, before anything is sent or read. *)
Lemma main_loop_first_refused (hdl : Z) (current : spec_float) (input : list ascii)
    (fuel : nat) (w : world dev) :
  (22 < length (fmt_f current))%nat -> (0 < fuel)%nat ->
  main_loop uart stof fuel hdl "" current input w = (Aborted invalid_parameter, w).
Proof.
  intros Hx Hfuel. destruct fuel as [|fuel]; [lia|]. cbn [main_loop].
  change (keep_going "") with true. cbv iota.
  change (negb ("" =? "")%string) with false. cbv iota.
  erewrite bind_returned by reflexivity.
  apply bind_aborted. unfold SetCurrent. apply bind_aborted.
  now apply SetCurrent_refused.
Qed.

End DemoStops.

(** * The statements of the specification *)

(** C1 (as amended).  For every handle and every channel number from 1 to
    4, [fnMCLS1_DLL_SetActiveChannel] formats ["channel=%d\r"] with the
    number, passes the resulting string (for 3: ["channel=3\r"]) to the
    vendor's [Set] in one call and returns the status of that call.  So do
    [fnMCLS1_DLL_SetTargeTemperature] with ["target=%f\r"] for a
    temperature that passes its assertion, [fnMCLS1_DLL_SetEnable] and
    [fnMCLS1_DLL_SetSystemEnable] with ["enable=%d\r"] and ["system=%d\r"]
    for 0 and 1, and [fnMCLS1_DLL_SetCurrent] with ["current=%f\r"] for
    every current whose [%f] expansion has at most 22 characters, so that
    the command and its NUL fit the 32-byte buffer; a longer one is
    refused by [sprintf_s] and the vendor is not called. *)
Theorem setters_send_formatted_command {dev : Type} (uart : uart_library dev)
    (hdl : Z) (w : world dev) :
  (forall n, 1 <= n <= 4 ->
     sends_formatted uart hdl "channel=%d\r" (arg_int n)
       (fnMCLS1_DLL_SetActiveChannel uart hdl n) w) /\
  fnMCLS1_DLL_SetActiveChannel uart hdl 3 w = sent uart hdl (c_lit "channel=3\r") w /\
  (forall x, float_le TEMP_LO x && float_le x TEMP_HI = true ->
     sends_formatted uart hdl "target=%f\r" (arg_double x)
       (fnMCLS1_DLL_SetTargeTemperature uart hdl x) w) /\
  (forall x, (length (fmt_f x) <= 22)%nat ->
     sends_formatted uart hdl "current=%f\r" (arg_double x)
       (fnMCLS1_DLL_SetCurrent uart hdl x) w) /\
  (forall n, 0 <= n <= 1 ->
     sends_formatted uart hdl "enable=%d\r" (arg_int n)
       (fnMCLS1_DLL_SetEnable uart hdl n) w) /\
  (forall n, 0 <= n <= 1 ->
     sends_formatted uart hdl "system=%d\r" (arg_int n)
       (fnMCLS1_DLL_SetSystemEnable uart hdl n) w) /\
  (forall x, (22 < length (fmt_f x))%nat ->
     fnMCLS1_DLL_SetCurrent uart hdl x w = (Aborted invalid_parameter, w)).
Proof.
  repeat split.
  - intros n Hn. now apply SetActiveChannel_sends.
  - apply (sends_formatted_sent uart hdl "channel=%d\r" (arg_int 3)).
    + apply SetActiveChannel_sends. lia.
    + reflexivity.
  - intros x Hx. now apply SetTargeTemperature_sends.
  - intros x Hx. now apply SetCurrent_sends.
  - intros n Hn. now apply SetEnable_sends.
  - intros n Hn. now apply SetSystemEnable_sends.
  - intros x Hx. now apply SetCurrent_refused.
Qed.

Lemma setters_send_formatted_command_witness :
  1 <= 3 <= 4 /\
  sends_formatted bench 7 "channel=%d\r" (arg_int 3)
    (fnMCLS1_DLL_SetActiveChannel bench 7 3) power_on /\
  float_le TEMP_LO TEMP_HI && float_le TEMP_HI TEMP_HI = true /\
  sends_formatted bench 7 "target=%f\r" (arg_double TEMP_HI)
    (fnMCLS1_DLL_SetTargeTemperature bench 7 TEMP_HI) power_on /\
  (length (fmt_f f_75) <= 22)%nat /\
  sends_formatted bench 7 "current=%f\r" (arg_double f_75)
    (fnMCLS1_DLL_SetCurrent bench 7 f_75) power_on /\
  0 <= 1 <= 1 /\
  sends_formatted bench 7 "enable=%d\r" (arg_int 1)
    (fnMCLS1_DLL_SetEnable bench 7 1) power_on /\
  sends_formatted bench 7 "system=%d\r" (arg_int 1)
    (fnMCLS1_DLL_SetSystemEnable bench 7 1) power_on.
Proof.
  destruct (setters_send_formatted_command bench 7 power_on)
    as (Hch & _ & Htemp & Hcur & Hen & Hsys & _).
  assert (H3 : 1 <= 3 <= 4) by lia.
  assert (Ht : float_le TEMP_LO TEMP_HI && float_le TEMP_HI TEMP_HI = true) by reflexivity.
  assert (Hc : (length (fmt_f f_75) <= 22)%nat) by (vm_compute; lia).
  assert (H1 : 0 <= 1 <= 1) by lia.
  exact (conj H3 (conj (Hch 3 H3) (conj Ht (conj (Htemp TEMP_HI Ht)
           (conj Hc (conj (Hcur f_75 Hc) (conj H1 (conj (Hen 1 H1) (Hsys 1 H1))))))))).
Defined.

(** C1 as stated fails for [fnMCLS1_DLL_SetCurrent(hdl, 1e30f)]: the
    expansion of ["current=%f\r"] has 47 characters, [sprintf_s] refuses it
    for the 32-byte buffer, and the vendor's [Set] is not called at all. *)
Lemma SetCurrent_1e30_sends_nothing :
  binary32 f_1e30 /\
  format (c_lit "current=%f\r") [arg_double f_1e30] =
    Some (c_lit "current=1000000015047466219876688855040.000000\r") /\
  fnMCLS1_DLL_SetCurrent bench 7 f_1e30 power_on = (Aborted invalid_parameter, power_on) /\
  ~ sends_formatted bench 7 "current=%f\r" (arg_double f_1e30)
      (fnMCLS1_DLL_SetCurrent bench 7 f_1e30) power_on.
Proof.
  assert (Hrun : fnMCLS1_DLL_SetCurrent bench 7 f_1e30 power_on
                 = (Aborted invalid_parameter, power_on)) by (vm_compute; reflexivity).
  split; [vm_compute; reflexivity|].
  split; [vm_compute; reflexivity|].
  split; [exact Hrun|].
  intros (text & _ & _ & _ & _ & Hm). rewrite Hrun in Hm.
  unfold sent in Hm. simpl in Hm. discriminate.
Qed.

(** C2.  Every getter passes its query ["<name>?\r"], in a 32-byte
    buffer, to the vendor's [Get] in one call, scans the 255-byte reply
    with its format ["<name>?\r%[<set>]"], which strips the echoed query
    and any white space and stores the run of value characters that
    follows behind [c], and returns the status of the call whether or not
    a value was found ([c] is left alone when none is). *)
Theorem getters_query_and_scan {dev : Type} (uart : uart_library dev)
    (g : getter) (hdl : Z) (c : list ascii) (limit : Z) (w : world dev) :
  getter_fn uart g hdl c limit w = asked uart g hdl c w /\
  cstring (char_array WRITE_BUFFER_SIZE (query g)) = query g /\
  (forall temp, length temp = 255%nat ->
     sscanf_s temp (reply_format g) c MAXLEN =
     match extract g (cstring temp) with Some v => poke c v | None => c end) /\
  (forall value rest,
     match value with [] => False | v0 :: _ => isspace v0 = false end ->
     forallb (value_char g) value = true ->
     match rest with [] => True | x :: _ => value_char g x = false end ->
     extract g (query g ++ value ++ rest) = Some value /\
     cstring (poke c value) = value).
Proof.
  split; [apply getter_asked|].
  split; [apply query_command|].
  split; [intros temp Ht; now apply sscanf_s_extract|].
  intros value rest Hhead Hval Hrest.
  pose proof (extract_echo g value rest Hhead Hval Hrest) as He.
  split; [exact He|].
  apply cstring_poke.
  apply Forall_forall. intros x Hx ->.
  rewrite forallb_forall in Hval. apply list_elem_of_In in Hx.
  specialize (Hval _ Hx). destruct g; discriminate.
Qed.

Lemma getters_query_and_scan_witness :
  isspace "4" = false /\
  forallb (value_char GetActiveChannel) (c_lit "42") = true /\
  value_char GetActiveChannel CR = false /\
  extract GetActiveChannel (query GetActiveChannel ++ c_lit "42" ++ c_lit "\r> ")
    = Some (c_lit "42") /\
  cstring (poke (zero_array 8) (c_lit "42")) = c_lit "42".
Proof.
  assert (H1 : isspace "4" = false) by reflexivity.
  assert (H2 : forallb (value_char GetActiveChannel) (c_lit "42") = true) by reflexivity.
  assert (H3 : value_char GetActiveChannel CR = false) by reflexivity.
  exact (conj H1 (conj H2 (conj H3
    (proj2 (proj2 (proj2 (getters_query_and_scan bench GetActiveChannel 7
                            (zero_array 8) 8 power_on)))
       (c_lit "42") (c_lit "\r> ") H1 H2 H3)))).
Defined.

(** C3 (as amended).  A wrapper call whose arguments pass the wrapper's
    own checks (the assertion of the setter, and the size of the formatted
    command) makes exactly one call, of the vendor function it wraps, and
    returns the status of that call as it is; [fnMCLS1_DLL_List], [Open],
    [Close] and the nine getters have no such check.  A call that does not
    pass them stops before the vendor is called. *)
Theorem wrappers_propagate_status {dev : Type} (uart : uart_library dev)
    (o : operation) (w : world dev) :
  (accepted o = true ->
     exists e d,
       status_of uart o w = (Returned (call_status e), World d (calls w ++ [e])) /\
       vendor_fn_of_call e = vendor_fn_of o /\
       call_status e = vendor_status uart e (device w)) /\
  (accepted o = false -> exists r, status_of uart o w = (Aborted r, w)) /\
  match o with
  | op_List _ _ | op_Open _ | op_Close _ | op_Get _ _ _ _ => accepted o = true
  | _ => True
  end.
Proof.
  repeat split.
  - intros Ha. destruct (status_of_cases uart o w) as [(_ & e & d & H1 & H2 & H3 & _)|[Hf _]].
    + now exists e, d.
    + congruence.
  - intros Ha. destruct (status_of_cases uart o w) as [[Ht _]|[_ H]].
    + congruence.
    + exact H.
  - destruct o; reflexivity.
Qed.

Lemma wrappers_propagate_status_witness :
  accepted (op_SetEnable 7 1) = true /\
  (exists e d,
     status_of bench (op_SetEnable 7 1) power_on
       = (Returned (call_status e), World d (calls power_on ++ [e])) /\
     vendor_fn_of_call e = vendor_fn_of (op_SetEnable 7 1) /\
     call_status e = vendor_status bench e (device power_on)) /\
  accepted (op_SetEnable 7 2) = false /\
  (exists r, status_of bench (op_SetEnable 7 2) power_on = (Aborted r, power_on)).
Proof.
  assert (H1 : accepted (op_SetEnable 7 1) = true) by reflexivity.
  assert (H2 : accepted (op_SetEnable 7 2) = false) by reflexivity.
  repeat split.
  - exact (proj1 (wrappers_propagate_status bench (op_SetEnable 7 1) power_on) H1).
  - exact (proj1 (proj2 (wrappers_propagate_status bench (op_SetEnable 7 2) power_on)) H2).
Defined.

(** C3 as stated fails for [fnMCLS1_DLL_SetEnable(hdl, 2)], whose
    assertion stops the run, and for [fnMCLS1_DLL_SetCurrent(hdl,
    -FLT_MAX)], whose command does not fit: the vendor's [Set] is called
    zero times, not once. *)
Lemma rejected_calls_reach_no_vendor :
  status_of bench (op_SetEnable 7 2) power_on = (Aborted assertion_failed, power_on) /\
  binary32 neg_FLT_MAX /\
  status_of bench (op_SetCurrent 7 neg_FLT_MAX) power_on
    = (Aborted invalid_parameter, power_on) /\
  calls power_on = [].
Proof. repeat split; vm_compute; reflexivity. Qed.

(** C4.  The ranges are assertions: [fnMCLS1_DLL_SetActiveChannel] stops
    on its assertion exactly when the channel is not within 1..4,
    [fnMCLS1_DLL_SetTargeTemperature] exactly when the temperature is not
    a number within 20.0..30.0, [fnMCLS1_DLL_SetEnable] and
    [fnMCLS1_DLL_SetSystemEnable] exactly when the flag is neither 0 nor 1;
    [fnMCLS1_DLL_SetCurrent] never stops on an assertion. *)
Theorem ranges_are_assertions {dev : Type} (uart : uart_library dev)
    (hdl : Z) (w : world dev) :
  (forall n, fst (fnMCLS1_DLL_SetActiveChannel uart hdl n w) = Aborted assertion_failed
             <-> ~ 1 <= n <= 4) /\
  (forall x, fst (fnMCLS1_DLL_SetTargeTemperature uart hdl x w) = Aborted assertion_failed
             <-> ~ temperature_in_range x) /\
  (forall n, fst (fnMCLS1_DLL_SetEnable uart hdl n w) = Aborted assertion_failed
             <-> ~ (n = 0 \/ n = 1)) /\
  (forall n, fst (fnMCLS1_DLL_SetSystemEnable uart hdl n w) = Aborted assertion_failed
             <-> ~ (n = 0 \/ n = 1)) /\
  (forall x, fst (fnMCLS1_DLL_SetCurrent uart hdl x w) <> Aborted assertion_failed).
Proof.
  repeat apply conj.
  - intros n. rewrite SetActiveChannel_unfold. apply int_assertion.
    intros _ w'. apply setter_body_no_assertion with (1 := format_channel n).
  - intros x. rewrite SetTargeTemperature_unfold, <- temperature_assertion.
    destruct (float_le TEMP_LO x && float_le x TEMP_HI).
    + rewrite assert_true_bind. split; [|congruence].
      intros H. now apply setter_body_no_assertion with (1 := format_target x) in H.
    + rewrite assert_false_bind. split; [congruence|reflexivity].
  - intros n. rewrite SetEnable_unfold.
    rewrite int_assertion; [lia|].
    intros _ w'. apply setter_body_no_assertion with (1 := format_enable n).
  - intros n. rewrite SetSystemEnable_unfold.
    rewrite int_assertion; [lia|].
    intros _ w'. apply setter_body_no_assertion with (1 := format_system n).
  - intros x. rewrite SetCurrent_unfold.
    apply setter_body_no_assertion with (1 := format_current x).
Qed.

Lemma ranges_are_assertions_witness :
  1 <= 4 <= 4 /\
  fst (fnMCLS1_DLL_SetActiveChannel bench 7 4 power_on) <> Aborted assertion_failed /\
  ~ 1 <= 0 <= 4 /\
  fst (fnMCLS1_DLL_SetActiveChannel bench 7 0 power_on) = Aborted assertion_failed /\
  temperature_in_range TEMP_LO /\
  fst (fnMCLS1_DLL_SetTargeTemperature bench 7 TEMP_LO power_on) <> Aborted assertion_failed /\
  ~ temperature_in_range S754_nan /\
  fst (fnMCLS1_DLL_SetTargeTemperature bench 7 S754_nan power_on) = Aborted assertion_failed /\
  ~ (2 = 0 \/ 2 = 1) /\
  fst (fnMCLS1_DLL_SetEnable bench 7 2 power_on) = Aborted assertion_failed.
Proof.
  destruct (ranges_are_assertions bench 7 power_on) as (Hch & Htemp & Hen & _ & _).
  assert (H1 : 1 <= 4 <= 4) by lia.
  assert (H2 : ~ 1 <= 0 <= 4) by lia.
  assert (H3 : temperature_in_range TEMP_LO).
  { exists (F2Q TEMP_LO). split; [reflexivity|]. split; unfold Qle; simpl; lia. }
  assert (H4 : ~ temperature_in_range S754_nan).
  { intros (q & Hq & _). discriminate. }
  assert (H5 : ~ (2 = 0 \/ 2 = 1)) by lia.
  exact (conj H1 (conj (fun H => proj1 (Hch 4) H H1) (conj H2 (conj (proj2 (Hch 0) H2)
           (conj H3 (conj (fun H => proj1 (Htemp TEMP_LO) H H3) (conj H4
              (conj (proj2 (Htemp S754_nan) H4) (conj H5 (proj2 (Hen 2) H5)))))))))).
Defined.




(** C6 (as amended).  Once [init_MCLS1] has succeeded, the demo lists the
    ports and opens ["COM3"], whatever the list was.  If the handle is negative it
    returns there, with no [Set] and no [close].  Otherwise, with a channel
    within 1..4 and a starting current whose command fits the buffer, it
    selects the channel and enables it once; then it sets the current it
    starts with and, in turn, the current typed on each line of the
    console input (each time by the two [Set] calls of its helper), until
    the line is ["quit"], ["Quit"] or ["QUIT"]; on that line, and on no line
    before it, it leaves the loop, disables the channel, closes the handle
    and returns: the loop condition fails for these three strings only.
    The lines before the exit word hold one number each, whose command
    fits the buffer.  With a channel outside 1..4 the run stops at the
    assertion, before any [Set]; with a starting current whose command does
    not fit it stops in the first round of the loop, after the channel is
    enabled: in both cases nothing is disabled or closed. *)
Theorem demo_session {dev : Type} (uart : uart_library dev)
    (atoi : string -> Z) (atof : string -> spec_float)
    (stof : string -> option spec_float)
    (argc : Z) (argv : list string) (fs : file_system)
    (w w0 w1 : world dev) (r0 : Z) (c0 : list ascii) (hdl : Z) :
  fst (init_MCLS1 fs no_globals) = 0 ->
  fnMCLS1_DLL_List uart (zero_array MAXLEN) MAXLEN w = (Returned (r0, c0), w0) ->
  fnMCLS1_DLL_Open uart (string_literal "COM3") w0 = (Returned hdl, w1) ->
  asks w w1 [req_list MAXLEN; req_open (c_lit "COM3") CBR_115200 3] /\
  (forall s, keep_going s = false <-> is_quit s) /\
  (hdl < 0 -> forall input fuel,
     _tmain uart atoi atof stof argc argv fs input fuel w = (Returned 0, w1)) /\
  (0 <= hdl -> forall words values q tail fuel,
     1 <= fst (chosen atoi atof argc argv) <= 4 ->
     Forall2 (fun s x => is_word s /\ ~ is_quit s /\ stof s = Some x) words values ->
     Forall (fun x => (length (fmt_f x) <= 22)%nat)
       (snd (chosen atoi atof argc argv) :: values) ->
     is_quit q ->
     (length words + 2 <= fuel)%nat ->
     exists w',
       _tmain uart atoi atof stof argc argv fs (typed (words ++ [q]) ++ tail) fuel w
         = (Returned 0, w') /\
       asks w1 w'
         ([req_set hdl (channel_command (fst (chosen atoi atof argc argv))) WRITE_BUFFER_SIZE;
           req_set hdl (enable_command 1) WRITE_BUFFER_SIZE]
          ++ flat_map (current_twice hdl) (snd (chosen atoi atof argc argv) :: values)
          ++ [req_set hdl (enable_command 0) WRITE_BUFFER_SIZE; req_close hdl])) /\
  (0 <= hdl -> ~ 1 <= fst (chosen atoi atof argc argv) <= 4 ->
   forall input fuel,
     _tmain uart atoi atof stof argc argv fs input fuel w = (Aborted assertion_failed, w1)) /\
  (0 <= hdl -> 1 <= fst (chosen atoi atof argc argv) <= 4 ->
   (22 < length (fmt_f (snd (chosen atoi atof argc argv))))%nat ->
   forall input fuel, (0 < fuel)%nat ->
     exists w',
       _tmain uart atoi atof stof argc argv fs input fuel w = (Aborted invalid_parameter, w') /\
       asks w1 w'
         [req_set hdl (channel_command (fst (chosen atoi atof argc argv))) WRITE_BUFFER_SIZE;
          req_set hdl (enable_command 1) WRITE_BUFFER_SIZE]).
Proof.
  intros Hinit Hlist Hopen.
  split; [|split; [|split; [|split; [|split]]]].
  - change [req_list MAXLEN; req_open (c_lit "COM3") CBR_115200 3]
      with ([req_list MAXLEN] ++ [req_open (cstring (string_literal "COM3")) CBR_115200 3]).
    apply asks_then with w0; [eapply List_asks | eapply Open_asks]; eassumption.
  - exact keep_going_false.
  - intros Hneg input fuel. rewrite tmain_loaded by assumption.
    erewrite bind_returned by exact Hlist. cbv beta iota.
    erewrite bind_returned by exact Hopen.
    destruct (Z.ltb_spec hdl 0); [reflexivity|lia].
  - intros Hpos words values q tail fuel Hch Hwv Hfit Hq Hfuel.
    destruct (SetChannel_asks uart hdl _ w1 Hch) as (r1 & w2 & Hrun1 & Hasks1).
    destruct (main_loop_until_quit uart stof hdl words values ""
                (snd (chosen atoi atof argc argv)) (snd (chosen atoi atof argc argv))
                q (typed (words ++ [q]) ++ tail) tail fuel w2 Hwv Hfit)
      as (w3 & Hrun2 & Hasks2); try assumption.
    { intros [H|[H|H]]; discriminate. }
    { now left. }
    { assert (Hhead : is_word (hd q words)).
      { destruct words as [|s' words]; [now apply is_quit_word|].
        apply Forall2_cons_inv_l in Hwv. now destruct Hwv as (? & ? & (? & _) & _). }
      destruct words as [|s' words]; cbn [typed flat_map app hd] in *;
        rewrite <- !app_assoc; now apply skip_space_word. }
    destruct (SetEnable_asks uart hdl 0 w3 ltac:(lia)) as (r3 & w4 & Hrun3 & Hasks3).
    destruct (Close_asks uart hdl w4) as (r4 & w5 & Hrun4 & Hasks4).
    exists w5. split.
    + rewrite tmain_loaded by assumption.
      erewrite bind_returned by exact Hlist. cbv beta iota.
      erewrite bind_returned by exact Hopen.
      destruct (Z.ltb_spec hdl 0); [lia|].
      erewrite bind_returned by exact Hrun1.
      erewrite bind_returned by exact Hrun2.
      erewrite bind_returned by exact Hrun3.
      erewrite bind_returned by exact Hrun4.
      reflexivity.
    + apply asks_then with w2; [exact Hasks1|].
      apply asks_then with w3; [exact Hasks2|].
      change [req_set hdl (enable_command 0) WRITE_BUFFER_SIZE; req_close hdl]
        with ([req_set hdl (enable_command 0) WRITE_BUFFER_SIZE] ++ [req_close hdl]).
      now apply asks_then with w4.
  - intros Hpos Hch input fuel. rewrite tmain_loaded by assumption.
    erewrite bind_returned by exact Hlist. cbv beta iota.
    erewrite bind_returned by exact Hopen.
    destruct (Z.ltb_spec hdl 0); [lia|].
    apply bind_aborted. now apply SetChannel_rejected.
  - intros Hpos Hch Hbig input fuel Hfuel.
    destruct (SetChannel_asks uart hdl _ w1 Hch) as (r1 & w2 & Hrun1 & Hasks1).
    exists w2. split; [|exact Hasks1].
    rewrite tmain_loaded by assumption.
    erewrite bind_returned by exact Hlist. cbv beta iota.
    erewrite bind_returned by exact Hopen.
    destruct (Z.ltb_spec hdl 0); [lia|].
    erewrite bind_returned by exact Hrun1.
    apply bind_aborted. now apply main_loop_first_refused.
Qed.

Lemma demo_session_witness :
  fst (init_MCLS1 installed no_globals) = 0 /\
  fnMCLS1_DLL_List bench (zero_array MAXLEN) MAXLEN power_on
    = (Returned (2, c_lit "COM1" ++ zero_array 251), World 1%nat [call_list MAXLEN 2]) /\
  fnMCLS1_DLL_Open bench (string_literal "COM3") (World 1%nat [call_list MAXLEN 2])
    = (Returned 7,
       World 2%nat [call_list MAXLEN 2;
                    call_open (string_literal "COM3") CBR_115200 3 7]) /\
  1 <= fst (chosen atoi_bench atof_bench 3 ["demo"; "2"; "75"]%string) <= 4 /\
  Forall2 (fun s x => is_word s /\ ~ is_quit s /\ stof_bench s = Some x)
    ["75"%string] [f_75] /\
  Forall (fun x => (length (fmt_f x) <= 22)%nat)
    [snd (chosen atoi_bench atof_bench 3 ["demo"; "2"; "75"]%string); f_75] /\
  is_quit "Quit" /\
  (exists w',
     _tmain bench atoi_bench atof_bench stof_bench 3 ["demo"; "2"; "75"]%string installed
       (typed (["75"%string] ++ ["Quit"%string]) ++ c_lit "1e30\n") 3 power_on
       = (Returned 0, w') /\
     asks (World 2%nat [call_list MAXLEN 2;
                        call_open (string_literal "COM3") CBR_115200 3 7]) w'
       ([req_set 7 (channel_command
                      (fst (chosen atoi_bench atof_bench 3 ["demo"; "2"; "75"]%string)))
           WRITE_BUFFER_SIZE;
         req_set 7 (enable_command 1) WRITE_BUFFER_SIZE]
        ++ flat_map (current_twice 7)
             [snd (chosen atoi_bench atof_bench 3 ["demo"; "2"; "75"]%string); f_75]
        ++ [req_set 7 (enable_command 0) WRITE_BUFFER_SIZE; req_close 7])) /\
  ~ 1 <= fst (chosen atoi_bench atof_bench 3 ["demo"; "7"; "75"]%string) <= 4 /\
  _tmain bench atoi_bench atof_bench stof_bench 3 ["demo"; "7"; "75"]%string installed
    (c_lit "quit\n") 3 power_on
    = (Aborted assertion_failed,
       World 2%nat [call_list MAXLEN 2;
                    call_open (string_literal "COM3") CBR_115200 3 7]) /\
  (22 < length (fmt_f (snd (chosen atoi_bench (fun _ => f_1e30) 3
                              ["demo"; "2"; "1e30"]%string))))%nat /\
  (exists w',
     _tmain bench atoi_bench (fun _ => f_1e30) stof_bench 3 ["demo"; "2"; "1e30"]%string
       installed (c_lit "quit\n") 3 power_on = (Aborted invalid_parameter, w') /\
     asks (World 2%nat [call_list MAXLEN 2;
                        call_open (string_literal "COM3") CBR_115200 3 7]) w'
       [req_set 7 (channel_command
                     (fst (chosen atoi_bench (fun _ => f_1e30) 3
                             ["demo"; "2"; "1e30"]%string)))
          WRITE_BUFFER_SIZE;
        req_set 7 (enable_command 1) WRITE_BUFFER_SIZE]).
Proof.
  assert (H1 : fst (init_MCLS1 installed no_globals) = 0) by (vm_compute; reflexivity).
  assert (H2 : fnMCLS1_DLL_List bench (zero_array MAXLEN) MAXLEN power_on
               = (Returned (2, c_lit "COM1" ++ zero_array 251),
                  World 1%nat [call_list MAXLEN 2])) by (vm_compute; reflexivity).
  assert (H3 : fnMCLS1_DLL_Open bench (string_literal "COM3")
                 (World 1%nat [call_list MAXLEN 2])
               = (Returned 7,
                  World 2%nat [call_list MAXLEN 2;
                               call_open (string_literal "COM3") CBR_115200 3 7]))
    by reflexivity.
  assert (H4 : 1 <= fst (chosen atoi_bench atof_bench 3 ["demo"; "2"; "75"]%string) <= 4)
    by (change (1 <= 2 <= 4); lia).
  assert (H5 : Forall2 (fun s x => is_word s /\ ~ is_quit s /\ stof_bench s = Some x)
                 ["75"%string] [f_75]).
  { repeat constructor; [discriminate|]. intros [H|[H|H]]; discriminate. }
  assert (H6 : Forall (fun x => (length (fmt_f x) <= 22)%nat)
                 [snd (chosen atoi_bench atof_bench 3 ["demo"; "2"; "75"]%string); f_75]).
  { change (Forall (fun x => (length (fmt_f x) <= 22)%nat) [f_75; f_75]).
    repeat constructor; change (9 <= 22)%nat; lia. }
  assert (H7 : is_quit "Quit") by (right; left; reflexivity).
  assert (H8 : 0 <= 7) by lia.
  assert (H9 : (length ["75"%string] + 2 <= 3)%nat) by (simpl; lia).
  assert (H10 : ~ 1 <= fst (chosen atoi_bench atof_bench 3 ["demo"; "7"; "75"]%string) <= 4)
    by (change (~ 1 <= 7 <= 4); lia).
  assert (H11 : (22 < length (fmt_f (snd (chosen atoi_bench (fun _ => f_1e30) 3
                                            ["demo"; "2"; "1e30"]%string))))%nat)
    by (change (22 < 38)%nat; lia).
  assert (H12 : 1 <= fst (chosen atoi_bench (fun _ => f_1e30) 3
                            ["demo"; "2"; "1e30"]%string) <= 4)
    by (change (1 <= 2 <= 4); lia).
  assert (H13 : (0 < 3)%nat) by lia.
  exact (conj H1 (conj H2 (conj H3 (conj H4 (conj H5 (conj H6 (conj H7
    (conj
       (proj1 (proj2 (proj2 (proj2 (demo_session bench atoi_bench atof_bench stof_bench 3
                     ["demo"; "2"; "75"]%string installed power_on _ _ 2 _ 7 H1 H2 H3))))
          H8 ["75"%string] [f_75] "Quit"%string (c_lit "1e30\n") 3%nat H4 H5 H6 H7 H9)
    (conj H10
    (conj
       (proj1 (proj2 (proj2 (proj2 (proj2
          (demo_session bench atoi_bench atof_bench stof_bench 3
             ["demo"; "7"; "75"]%string installed power_on _ _ 2 _ 7 H1 H2 H3)))))
          H8 H10 (c_lit "quit\n") 3%nat)
    (conj H11
       (proj2 (proj2 (proj2 (proj2 (proj2
          (demo_session bench atoi_bench (fun _ => f_1e30) stof_bench 3
             ["demo"; "2"; "1e30"]%string installed power_on _ _ 2 _ 7 H1 H2 H3)))))
          H8 H12 H11 (c_lit "quit\n") 3%nat H13)))))))))))).
Defined.

(** C6 as stated fails on a console line that is not a number: on
    ["abc"] [std::stof] throws, and the run ends, in the loop, without the
    current being set from that line and without the channel being
    disabled or the handle closed; so it does on ["1e30"], whose command
    does not fit the buffer.  With the channel 7 given on the command line
    the run stops at the assertion before any channel is selected, and
    where the DLL is not found the demo returns without opening a port. *)
Lemma demo_stops_without_closing :
  stof_bench "abc" = None /\
  (let '(out, w) :=
     _tmain bench atoi_bench atof_bench stof_bench 1 ["demo"%string] installed
       (c_lit "abc\nquit\n") 10 power_on in
   out = Aborted uncaught_exception /\
   map request_of (calls w) =
     [req_list 255; req_open (c_lit "COM3") 115200 3;
      req_set 7 (c_lit "channel=3\r") 32; req_set 7 (c_lit "enable=1\r") 32;
      req_set 7 (c_lit "current=50.000000\r") 32;
      req_set 7 (c_lit "current=50.000000\r") 32]) /\
  (let '(out, w) :=
     _tmain bench atoi_bench atof_bench stof_bench 1 ["demo"%string] installed
       (c_lit "1e30\nquit\n") 10 power_on in
   out = Aborted invalid_parameter /\
   map request_of (calls w) =
     [req_list 255; req_open (c_lit "COM3") 115200 3;
      req_set 7 (c_lit "channel=3\r") 32; req_set 7 (c_lit "enable=1\r") 32;
      req_set 7 (c_lit "current=50.000000\r") 32;
      req_set 7 (c_lit "current=50.000000\r") 32]) /\
  (let '(out, w) :=
     _tmain bench atoi_bench atof_bench stof_bench 3 ["demo"; "7"; "75"]%string installed
       (c_lit "quit\n") 10 power_on in
   out = Aborted assertion_failed /\
   map request_of (calls w) = [req_list 255; req_open (c_lit "COM3") 115200 3]) /\
  _tmain bench atoi_bench atof_bench stof_bench 1 ["demo"%string] ∅
    (c_lit "quit\n") 10 power_on = (Returned 0, power_on).
Proof. repeat split; vm_compute; reflexivity. Qed.

(** C7.  [init_MCLS1] loads the vendor DLL and looks up five exports, by
    the names [fnUART_LIBRARY_open], [fnUART_LIBRARY_list],
    [fnUART_LIBRARY_close], [fnUART_LIBRARY_Set] and [fnUART_LIBRARY_Get];
    no other export matters.  It returns -1, with the pointers untouched,
    exactly when the DLL does not load; 0 exactly when it loads and has all
    five; -2 exactly when it loads and lacks one of them. *)
Theorem init_MCLS1_resolves_five (fs : file_system) (g : globals) :
  (fst (init_MCLS1 fs g) = -1 <-> fs !! dll_path = None) /\
  (fs !! dll_path = None -> init_MCLS1 fs g = (-1, g)) /\
  (forall h, fs !! dll_path = Some h ->
     let all_five :=
       is_Some (h !! "fnUART_LIBRARY_open") /\ is_Some (h !! "fnUART_LIBRARY_list") /\
       is_Some (h !! "fnUART_LIBRARY_close") /\ is_Some (h !! "fnUART_LIBRARY_Set") /\
       is_Some (h !! "fnUART_LIBRARY_Get") in
     snd (init_MCLS1 fs g) =
       {| g_open := h !! "fnUART_LIBRARY_open";
          g_list := h !! "fnUART_LIBRARY_list";
          g_close := h !! "fnUART_LIBRARY_close";
          g_set := h !! "fnUART_LIBRARY_Set";
          g_get := h !! "fnUART_LIBRARY_Get" |} /\
     (fst (init_MCLS1 fs g) = 0 <-> all_five) /\
     (fst (init_MCLS1 fs g) = -2 <-> ~ all_five) /\
     (forall (name : string) (a : positive),
        name <> "fnUART_LIBRARY_open" -> name <> "fnUART_LIBRARY_list" ->
        name <> "fnUART_LIBRARY_close" -> name <> "fnUART_LIBRARY_Set" ->
        name <> "fnUART_LIBRARY_Get" ->
        init_MCLS1 (<[dll_path := <[name := a]> h]> fs) g = init_MCLS1 fs g)).
Proof.
  split; [|split].
  - destruct (fs !! dll_path) as [h|] eqn:Hfs.
    + destruct (init_MCLS1_loaded fs g h Hfs) as [_ ->].
      split; [|discriminate]. destruct (_ || _)%bool; discriminate.
    + rewrite init_MCLS1_not_loaded by assumption. now split.
  - apply init_MCLS1_not_loaded.
  - intros h Hfs all_five. subst all_five.
    destruct (init_MCLS1_loaded fs g h Hfs) as [Hg Hr].
    split; [exact Hg|]. rewrite Hr. rewrite <- !is_NULL_false.
    split; [|split].
    + destruct (is_NULL (h !! "fnUART_LIBRARY_open")),
        (is_NULL (h !! "fnUART_LIBRARY_list")), (is_NULL (h !! "fnUART_LIBRARY_close")),
        (is_NULL (h !! "fnUART_LIBRARY_Set")), (is_NULL (h !! "fnUART_LIBRARY_Get"));
        simpl; intuition (discriminate || lia).
    + destruct (is_NULL (h !! "fnUART_LIBRARY_open")),
        (is_NULL (h !! "fnUART_LIBRARY_list")), (is_NULL (h !! "fnUART_LIBRARY_close")),
        (is_NULL (h !! "fnUART_LIBRARY_Set")), (is_NULL (h !! "fnUART_LIBRARY_Get"));
        simpl; intuition (discriminate || lia).
    + intros name a H1 H2 H3 H4 H5.
      unfold init_MCLS1, LoadLibrary, GetProcAddress.
      rewrite lookup_insert_eq, Hfs.
      now rewrite !lookup_insert_ne by assumption.
Qed.

Lemma init_MCLS1_resolves_five_witness :
  installed !! dll_path = Some vendor_dll /\
  init_MCLS1 installed no_globals =
    (0, {| g_open := Some 1%positive; g_list := Some 2%positive;
           g_close := Some 3%positive; g_set := Some 4%positive;
           g_get := Some 5%positive |}) /\
  (fst (init_MCLS1 installed no_globals) = 0 <->
   is_Some (vendor_dll !! "fnUART_LIBRARY_open") /\
   is_Some (vendor_dll !! "fnUART_LIBRARY_list") /\
   is_Some (vendor_dll !! "fnUART_LIBRARY_close") /\
   is_Some (vendor_dll !! "fnUART_LIBRARY_Set") /\
   is_Some (vendor_dll !! "fnUART_LIBRARY_Get")) /\
  (∅ : file_system) !! dll_path = None /\
  init_MCLS1 ∅ no_globals = (-1, no_globals).
Proof.
  assert (H1 : installed !! dll_path = Some vendor_dll) by (vm_compute; reflexivity).
  assert (H2 : (∅ : file_system) !! dll_path = None) by reflexivity.
  split; [exact H1|].
  split; [vm_compute; reflexivity|].
  split.
  - exact (proj1 (proj2 (proj2 (proj2 (init_MCLS1_resolves_five installed no_globals))
                           vendor_dll H1))).
  - exact (conj H2 (proj1 (proj2 (init_MCLS1_resolves_five ∅ no_globals)) H2)).
Defined.

(** C8.  The [limit] argument of a getter has no effect: two calls that
    differ only in it return the same status, leave the same bytes behind
    [c] and the same calls behind them.  The size given to [sscanf_s] for
    [c] is always 255, so a value found in the reply is stored whole, with
    its NUL, whatever [limit] says. *)
Theorem getters_ignore_limit {dev : Type} (uart : uart_library dev)
    (g : getter) (hdl : Z) (c : list ascii) (limit1 limit2 : Z) (w : world dev) :
  getter_fn uart g hdl c limit1 w = getter_fn uart g hdl c limit2 w /\
  match fnUART_LIBRARY_Get uart hdl (char_array WRITE_BUFFER_SIZE (query g)) (device w) with
  | (r, bytes, d) =>
      match extract g (cstring (store (zero_array MAXLEN) bytes)) with
      | Some v =>
          fst (getter_fn uart g hdl c limit1 w) = Returned (r, v ++ NUL :: drop (S (length v)) c)
      | None => fst (getter_fn uart g hdl c limit1 w) = Returned (r, c)
      end
  end.
Proof.
  split; [now rewrite !getter_asked|].
  rewrite getter_asked. unfold asked.
  destruct (fnUART_LIBRARY_Get uart hdl _ (device w)) as [[r bytes] d].
  destruct (extract g _); reflexivity.
Qed.

(** On the simulated device, a getter given a limit of 1 still stores the
    two digits of the answer and their NUL. *)
Example limit_of_one :
  fst (fnMCLS1_DLL_GetEnable bench 7 (zero_array 8) 1 power_on) =
  Returned (0, c_lit "42" ++ zero_array 6).
Proof. reflexivity. Qed.

(** C9.  [fnMCLS1_DLL_List] calls the vendor's [list] once, with a
    255-byte scratch buffer and 255 as its size whatever [var] is, and
    returns the count it gives.  Of the reply it stores behind [port] only
    the characters before the first comma: for a reply with a first entry
    and a comma after it, [port] holds that entry and not the list. *)
Theorem List_stores_first_entry {dev : Type} (uart : uart_library dev)
    (port : list ascii) (var : Z) (w : world dev) :
  fnMCLS1_DLL_List uart port var w = listed uart port w /\
  (forall r bytes d entry rest,
     fnUART_LIBRARY_list uart MAXLEN (device w) = (r, bytes, d) ->
     cstring (store (zero_array MAXLEN) bytes) = entry ++ ","%char :: rest ->
     entry <> [] ->
     Forall (fun x => x <> ","%char) entry ->
     exists port',
       fnMCLS1_DLL_List uart port var w
         = (Returned (r, port'), World d (calls w ++ [call_list MAXLEN r])) /\
       cstring port' = entry /\
       cstring port' <> entry ++ ","%char :: rest).
Proof.
  split; [apply List_listed|].
  intros r bytes d entry rest Hv Hreply Hne Hentry.
  rewrite List_listed. unfold listed. rewrite Hv, Hreply.
  rewrite before_comma_entry by assumption.
  assert (Hlen : (length entry < 255)%nat).
  { pose proof (length_cstring (store (zero_array MAXLEN) bytes)) as H.
    rewrite Hreply, length_app, length_scratch in H. simpl in H. lia. }
  assert (Hnul : Forall (fun x => x <> NUL) entry).
  { pose proof (cstring_no_NUL (store (zero_array MAXLEN) bytes)) as H.
    rewrite Hreply in H. now apply Forall_app in H. }
  destruct entry as [|e0 entry]; [contradiction|].
  destruct (Z.ltb_spec (Z.of_nat (length (e0 :: entry))) MAXLEN) as [_|Hge];
    [|unfold MAXLEN in Hge; lia].
  eexists. split; [reflexivity|].
  rewrite cstring_poke by assumption. split; [reflexivity|].
  intros H. apply (f_equal (@length ascii)) in H.
  rewrite length_app in H. simpl in H. lia.
Qed.

Lemma List_stores_first_entry_witness :
  fnUART_LIBRARY_list bench MAXLEN (device power_on)
    = (2, c_lit "COM1,Serial0,COM3,MCLS1" ++ [NUL], 1%nat) /\
  cstring (store (zero_array MAXLEN) (c_lit "COM1,Serial0,COM3,MCLS1" ++ [NUL]))
    = c_lit "COM1" ++ ","%char :: c_lit "Serial0,COM3,MCLS1" /\
  exists port',
    fnMCLS1_DLL_List bench (zero_array 255) 4 power_on
      = (Returned (2, port'), World 1%nat (calls power_on ++ [call_list MAXLEN 2])) /\
    cstring port' = c_lit "COM1" /\
    cstring port' <> c_lit "COM1" ++ ","%char :: c_lit "Serial0,COM3,MCLS1".
Proof.
  assert (H1 : fnUART_LIBRARY_list bench MAXLEN (device power_on)
               = (2, c_lit "COM1,Serial0,COM3,MCLS1" ++ [NUL], 1%nat)) by reflexivity.
  assert (H2 : cstring (store (zero_array MAXLEN) (c_lit "COM1,Serial0,COM3,MCLS1" ++ [NUL]))
               = c_lit "COM1" ++ ","%char :: c_lit "Serial0,COM3,MCLS1") by reflexivity.
  assert (H3 : c_lit "COM1" <> []) by discriminate.
  assert (H4 : Forall (fun x => x <> ","%char) (c_lit "COM1"))
    by (repeat constructor; discriminate).
  exact (conj H1 (conj H2
    (proj2 (List_stores_first_entry bench (zero_array 255) 4 power_on)
       2 _ 1%nat (c_lit "COM1") (c_lit "Serial0,COM3,MCLS1") H1 H2 H3 H4))).
Defined.

(** C10 (as amended).  For a current whose command fits the buffer, the
    demo's [SetCurrent] calls [fnMCLS1_DLL_SetCurrent] twice with it: the
    same ["current=...\r"] command goes to the vendor's [Set] twice, and
    the status of the second call is the one returned.  For a channel
    within 1..4, [SetChannel] sends the channel command, drops its status,
    sends ["enable=1\r"] and returns the status of that call.  For any
    other current or channel the first of the two calls stops the run. *)
Theorem helpers_return_last_status {dev : Type} (uart : uart_library dev)
    (hdl : Z) (w : world dev) :
  (forall current, (length (fmt_f current) <= 22)%nat ->
     let cmd := command (current_command current) in
     cstring cmd = current_command current /\
     SetCurrent uart hdl current w =
       let '(r1, d1) := fnUART_LIBRARY_Set uart hdl cmd WRITE_BUFFER_SIZE (device w) in
       let '(r2, d2) := fnUART_LIBRARY_Set uart hdl cmd WRITE_BUFFER_SIZE d1 in
       (Returned r2,
        World d2 (calls w ++ [call_set hdl cmd WRITE_BUFFER_SIZE r1;
                              call_set hdl cmd WRITE_BUFFER_SIZE r2]))) /\
  (forall channel, 1 <= channel <= 4 ->
     let c1 := command (channel_command channel) in
     let c2 := command (enable_command 1) in
     cstring c1 = channel_command channel /\
     cstring c2 = c_lit "enable=1\r" /\
     SetChannel uart hdl channel w =
       let '(r1, d1) := fnUART_LIBRARY_Set uart hdl c1 WRITE_BUFFER_SIZE (device w) in
       let '(r2, d2) := fnUART_LIBRARY_Set uart hdl c2 WRITE_BUFFER_SIZE d1 in
       (Returned r2,
        World d2 (calls w ++ [call_set hdl c1 WRITE_BUFFER_SIZE r1;
                              call_set hdl c2 WRITE_BUFFER_SIZE r2]))) /\
  (forall current, (22 < length (fmt_f current))%nat ->
     SetCurrent uart hdl current w = (Aborted invalid_parameter, w)) /\
  (forall channel, ~ 1 <= channel <= 4 ->
     SetChannel uart hdl channel w = (Aborted assertion_failed, w)).
Proof.
  split; [|split; [|split]].
  - intros current Hfit cmd. split.
    + now apply cstring_current_command.
    + now apply SetCurrent_twice.
  - intros channel Hc c1 c2. split; [|split].
    + apply (cstring_digit_command "channel="); [simpl; lia | reflexivity | lia].
    + reflexivity.
    + now apply SetChannel_then_enable.
  - intros current Hx. unfold SetCurrent.
    apply bind_aborted. now apply SetCurrent_refused.
  - intros channel Hc. unfold SetChannel.
    apply bind_aborted. rewrite SetActiveChannel_unfold.
    apply int_setter_rejected. apply andb_false_iff. lia.
Qed.

Lemma helpers_return_last_status_witness :
  (length (fmt_f f_75) <= 22)%nat /\
  SetCurrent bench 7 f_75 power_on =
    (Returned 1,
     World 2%nat [call_set 7 (command (c_lit "current=75.000000\r")) WRITE_BUFFER_SIZE 0;
                  call_set 7 (command (c_lit "current=75.000000\r")) WRITE_BUFFER_SIZE 1]) /\
  1 <= 3 <= 4 /\
  SetChannel bench 7 3 power_on =
    (Returned 1,
     World 2%nat [call_set 7 (command (c_lit "channel=3\r")) WRITE_BUFFER_SIZE 0;
                  call_set 7 (command (c_lit "enable=1\r")) WRITE_BUFFER_SIZE 1]).
Proof.
  destruct (helpers_return_last_status bench 7 power_on) as (Hcur & Hch & _ & _).
  assert (H1 : (length (fmt_f f_75) <= 22)%nat) by (vm_compute; lia).
  assert (H2 : 1 <= 3 <= 4) by lia.
  exact (conj H1 (conj (proj2 (Hcur f_75 H1)) (conj H2 (proj2 (proj2 (Hch 3 H2)))))).
Defined.

(** C10 as stated fails for the current [1e30f], which the demo reads as
    readily as any other: the first call of [fnMCLS1_DLL_SetCurrent] is
    refused by [sprintf_s], there is no second call and no status, and no
    command reaches the device.  [SetChannel] with channel 5 likewise
    stops at the assertion of [fnMCLS1_DLL_SetActiveChannel]. *)
Lemma helpers_stop_at_first_refusal :
  binary32 f_1e30 /\
  stof_bench "1e30" = Some f_1e30 /\
  SetCurrent bench 7 f_1e30 power_on = (Aborted invalid_parameter, power_on) /\
  SetChannel bench 7 5 power_on = (Aborted assertion_failed, power_on) /\
  calls power_on = [].
Proof. repeat split; vm_compute; reflexivity. Qed.

(** * Further properties of the code *)

(** ** More on decimal output *)

Lemma length_dec_fuel_ge (k : nat) :
  forall (fuel : nat) (n : Z),
  10 ^ Z.of_nat k <= n -> (k < fuel)%nat -> (k + 1 <= length (dec_fuel fuel n))%nat.
Proof.
  induction k as [|k IH]; intros fuel n Hn Hf.
  - destruct fuel as [|fuel]; [lia|]. cbn [dec_fuel]. rewrite length_app. simpl. lia.
  - destruct fuel as [|fuel]; [lia|]. cbn [dec_fuel].
    replace (Z.of_nat (S k)) with (Z.succ (Z.of_nat k)) in Hn by lia.
    rewrite Z.pow_succ_r in Hn by lia.
    assert (H10 : 0 < 10 ^ Z.of_nat k) by (apply Z.pow_pos_nonneg; lia).
    destruct (Z.ltb_spec n 10) as [Hlt|_]; [lia|].
    rewrite length_app. simpl.
    assert (Hdiv : 10 ^ Z.of_nat k <= n / 10) by (apply Z.div_le_lower_bound; lia).
    specialize (IH fuel (n / 10) Hdiv ltac:(lia)). lia.
Qed.

(** A number from [10^k] on has more than [k] digits. *)
Lemma length_dec_ge (k : nat) (n : Z) :
  10 ^ Z.of_nat k <= n -> (k + 1 <= length (dec n))%nat.
Proof.
  intros Hn. apply length_dec_fuel_ge; [exact Hn|].
  assert (H10 : 0 < 10 ^ Z.of_nat k) by (apply Z.pow_pos_nonneg; lia).
  assert (H2 : 2 ^ Z.of_nat k <= n).
  { apply Z.le_trans with (10 ^ Z.of_nat k); [|exact Hn].
    apply Z.pow_le_mono_l. lia. }
  apply Z.log2_le_pow2 in H2; lia.
Qed.

Lemma length_dec_exact (k : nat) (n : Z) :
  10 ^ Z.of_nat k <= n < 10 ^ Z.of_nat (S k) -> length (dec n) = S k.
Proof.
  intros [Hlo Hhi].
  pose proof (length_dec_ge k n Hlo).
  assert (H10 : 0 < 10 ^ Z.of_nat k) by (apply Z.pow_pos_nonneg; lia).
  pose proof (length_dec (S k) n ltac:(lia) ltac:(lia)). lia.
Qed.

Lemma dec_fixed_value (k : nat) :
  forall n, 0 <= n < 10 ^ Z.of_nat k -> digits_value (dec_fixed k n) = n.
Proof.
  induction k as [|k IH]; intros n Hn.
  - simpl in Hn. assert (n = 0) as -> by lia. reflexivity.
  - cbn [dec_fixed]. rewrite digits_value_snoc, digit_value
      by (pose proof (Z.mod_pos_bound n 10); lia).
    replace (Z.of_nat (S k)) with (Z.succ (Z.of_nat k)) in Hn by lia.
    rewrite Z.pow_succ_r in Hn by lia.
    rewrite IH.
    + pose proof (Z.div_mod n 10 ltac:(lia)). lia.
    + split; [apply Z.div_pos; lia | apply Z.div_lt_upper_bound; lia].
Qed.

Lemma round_half_even_ge (num : Z) (den : positive) (B : Z) :
  B * Z.pos den <= num -> B <= round_half_even num den.
Proof.
  intros HB. unfold round_half_even.
  assert (Hq : B <= num / Z.pos den) by (apply Z.div_le_lower_bound; lia).
  destruct (2 * (num mod Z.pos den) ?= Z.pos den); [destruct (Z.even _)| |]; lia.
Qed.

Lemma millionths_ge (m : positive) (e : Z) (B : Z) :
  (inject_Z B <= mag m e)%Q -> B * 1000000 <= millionths m e.
Proof.
  intros H. apply round_half_even_ge.
  unfold Qle in H. cbn [Qnum Qden inject_Z] in H. lia.
Qed.

(** A finite number of magnitude at least [10^k] prints with more than
    [k] digits before the point. *)
Lemma length_fmt_f_finite_ge (neg : bool) (m : positive) (e : Z) (k : nat) :
  (inject_Z (10 ^ Z.of_nat k) <= mag m e)%Q ->
  (length (sign_prefix neg) + k + 8 <= length (fmt_f (S754_finite neg m e)))%nat.
Proof.
  intros Hm. unfold fmt_f.
  rewrite !length_app. cbn [length]. rewrite length_dec_fixed.
  pose proof (millionths_ge m e _ Hm) as H1.
  assert (Hip : 10 ^ Z.of_nat k <= millionths m e / 1000000)
    by (apply Z.div_le_lower_bound; lia).
  pose proof (length_dec_ge k _ Hip). lia.
Qed.

(** The characters of a number are plain: no white space, no NUL. *)
Lemma digit_plain (d : Z) : 0 <= d <= 9 -> plain (digit d) = true.
Proof.
  revert d. apply ten_digits. intros k Hk.
  do 10 (destruct k as [|k]; [reflexivity|]). lia.
Qed.

Lemma dec_fuel_plain (fuel : nat) (n : Z) :
  Forall (fun c => plain c = true) (dec_fuel fuel n).
Proof.
  revert n. induction fuel as [|fuel IH]; intros n; simpl.
  - constructor.
  - apply Forall_app. split.
    + destruct (n <? 10); [constructor | apply IH].
    + repeat constructor. apply digit_plain. pose proof (Z.mod_pos_bound n 10). lia.
Qed.

Lemma dec_fixed_plain (k : nat) (n : Z) :
  Forall (fun c => plain c = true) (dec_fixed k n).
Proof.
  revert n. induction k as [|k IH]; intros n; simpl.
  - constructor.
  - apply Forall_app. split; [apply IH|].
    repeat constructor. apply digit_plain. pose proof (Z.mod_pos_bound n 10). lia.
Qed.

Lemma fmt_d_plain (n : Z) : Forall (fun c => plain c = true) (fmt_d n).
Proof.
  unfold fmt_d. destruct (n <? 0).
  - constructor; [reflexivity | apply dec_fuel_plain].
  - apply dec_fuel_plain.
Qed.

Lemma fmt_f_plain (x : spec_float) : Forall (fun c => plain c = true) (fmt_f x).
Proof.
  assert (Hs : forall neg, Forall (fun c => plain c = true) (sign_prefix neg)).
  { intros [|]; repeat constructor. }
  destruct x as [neg|neg| |neg m e]; simpl.
  - apply Forall_app. split; [apply Hs|]. repeat constructor.
  - apply Forall_app. split; [apply Hs|]. repeat constructor.
  - repeat constructor.
  - apply Forall_app. split; [apply Hs|].
    apply Forall_app. split; [apply dec_fuel_plain|].
    constructor; [reflexivity | apply (dec_fixed_plain 6)].
Qed.

Lemma Forall_forallb (p : ascii -> bool) (l : list ascii) :
  Forall (fun c => p c = true) l -> forallb p l = true.
Proof. induction 1 as [|c l Hc _ IH]; simpl; [reflexivity | now rewrite Hc]. Qed.

Lemma digit_is_digit (d : Z) : 0 <= d <= 9 -> is_digit (digit d) = true.
Proof.
  revert d. apply ten_digits. intros k Hk.
  do 10 (destruct k as [|k]; [reflexivity|]). lia.
Qed.

(** The digits of a non-negative number are digits. *)
Lemma dec_fuel_digits (fuel : nat) (n : Z) :
  Forall (fun c => is_digit c = true) (dec_fuel fuel n).
Proof.
  revert n. induction fuel as [|fuel IH]; intros n; simpl.
  - constructor.
  - apply Forall_app. split.
    + destruct (n <? 10); [constructor | apply IH].
    + repeat constructor. apply digit_is_digit.
      pose proof (Z.mod_pos_bound n 10). lia.
Qed.

Lemma dec_not_empty (n : Z) : dec n <> [].
Proof.
  unfold dec. cbn [dec_fuel]. intros H. apply app_eq_nil in H. now destruct H.
Qed.

(** ** More on replies *)

Lemma strip_not_prefix (pre inp : list ascii) :
  ~ starts_with pre inp -> strip pre inp = None.
Proof.
  intros H. destruct (strip pre inp) as [after|] eqn:E; [|reflexivity].
  exfalso. apply H. exists after. now apply strip_Some.
Qed.

Lemma skip_space_app (ws l : list ascii) :
  forallb isspace ws = true -> skip_space (ws ++ l) = skip_space l.
Proof.
  induction ws as [|x ws IH]; intros H; simpl in *; [reflexivity|].
  apply andb_true_iff in H. destruct H as [Hx Hws]. rewrite Hx. now apply IH.
Qed.

Lemma skip_space_head (l : list ascii) :
  match l with [] => True | x :: _ => isspace x = false end -> skip_space l = l.
Proof. destruct l as [|x l]; simpl; [reflexivity|]. now intros ->. Qed.

(** After the echo, white space and then no value character: nothing is
    extracted. *)
Lemma extract_no_value (g : getter) (ws rest : list ascii) :
  forallb isspace ws = true ->
  match rest with
  | [] => True
  | x :: _ => isspace x = false /\ value_char g x = false
  end ->
  extract g (echo g ++ ws ++ rest) = None.
Proof.
  intros Hws Hrest. unfold extract. fold (echo g).
  rewrite strip_app, skip_space_app by assumption.
  destruct rest as [|x rest]; [reflexivity|]. destruct Hrest as [Hsp Hv].
  cbn [skip_space]. rewrite Hsp. cbn [span]. now rewrite Hv.
Qed.

(** After the echo, any white space, then a value: the value is extracted. *)
Lemma extract_after_space (g : getter) (ws value rest : list ascii) :
  forallb isspace ws = true ->
  match value with [] => False | v0 :: _ => isspace v0 = false end ->
  forallb (value_char g) value = true ->
  match rest with [] => True | x :: _ => value_char g x = false end ->
  extract g (echo g ++ ws ++ value ++ rest) = Some value.
Proof.
  intros Hws Hhead Hval Hrest. unfold extract. fold (echo g).
  rewrite strip_app, skip_space_app by assumption.
  destruct value as [|v0 value]; [contradiction|].
  cbn [skip_space app]. rewrite Hhead.
  change (v0 :: value ++ rest) with ((v0 :: value) ++ rest).
  now rewrite span_run.
Qed.

Lemma before_comma_no_comma (s : list ascii) :
  Forall (fun c => c <> ","%char) (before_comma s).
Proof.
  induction s as [|c s IH]; simpl; [constructor|].
  destruct (Ascii.eqb_spec c ","%char) as [|Hc]; constructor; assumption.
Qed.

Section MoreOnWrappers.

Context {dev : Type} (uart : uart_library dev).

Lemma getter_result (g : getter) (hdl : Z) (c : list ascii) (limit : Z) (w : world dev)
    (r : Z) (bytes : list ascii) (d : dev) :
  fnUART_LIBRARY_Get uart hdl (char_array WRITE_BUFFER_SIZE (query g)) (device w)
    = (r, bytes, d) ->
  getter_fn uart g hdl c limit w =
  (Returned (r, match extract g (cstring (store (zero_array MAXLEN) bytes)) with
                | Some v => poke c v
                | None => c
                end),
   World d (calls w ++ [call_get hdl (char_array WRITE_BUFFER_SIZE (query g)) r])).
Proof. intros H. rewrite getter_asked. unfold asked. now rewrite H. Qed.

Lemma List_result (port : list ascii) (var : Z) (w : world dev)
    (r : Z) (bytes : list ascii) (d : dev) :
  fnUART_LIBRARY_list uart MAXLEN (device w) = (r, bytes, d) ->
  fnMCLS1_DLL_List uart port var w =
  (Returned (r, match before_comma (cstring (store (zero_array MAXLEN) bytes)) with
                | [] => port
                | entry =>
                    if Z.of_nat (length entry) <? MAXLEN then poke port entry
                    else poke port []
                end),
   World d (calls w ++ [call_list MAXLEN r])).
Proof. intros H. rewrite List_listed. unfold listed. now rewrite H. Qed.

End MoreOnWrappers.

(** X1.  Whatever the device answers, a getter either leaves [c] as it
    was or leaves in it a string that is not empty, has at most 252
    characters and is made of the characters of the getter's scanset only:
    for [fnMCLS1_DLL_GetActiveChannel], [GetSystemEnable], [GetEnable] and
    [GetStatus], of decimal digits only.  A getter always returns. *)
Theorem getters_store_clean_values {dev : Type} (uart : uart_library dev)
    (g : getter) (hdl : Z) (c : list ascii) (limit : Z) (w : world dev) :
  match getter_fn uart g hdl c limit w with
  | (Returned (r, c'), w') =>
      c' = c \/
      (cstring c' <> [] /\
       (length (cstring c') <= 252)%nat /\
       forallb (value_char g) (cstring c') = true /\
       (reads_digits g = true -> forallb is_digit (cstring c') = true))
  | _ => False
  end.
Proof.
  rewrite getter_asked. unfold asked.
  destruct (fnUART_LIBRARY_Get uart hdl _ (device w)) as [[r bytes] d].
  destruct (extract g _) as [v|] eqn:He; [right | now left].
  pose proof (length_extract g _ v He) as Hlen.
  pose proof (length_cstring (store (zero_array MAXLEN) bytes)) as Hcs.
  rewrite length_scratch in Hcs.
  apply extract_Some in He. destruct He as (Hne & Hall & _).
  rewrite cstring_poke by (now apply value_no_NUL with g).
  repeat split; [exact Hne | lia | exact Hall |].
  intros Hg. destruct g; try discriminate; exact Hall.
Qed.

(** X2.  When the reply does not begin with the echo ["<name>?"] of the
    query (an empty reply after a time-out, an error message), or when the
    echo is followed by white space only or by a character that is not a
    value character, the getter returns the status of the vendor and
    leaves [c] exactly as it was: the caller finds its old bytes there.
    A reading with a minus sign is such a reply, for every getter. *)
Theorem getters_keep_c_without_value {dev : Type} (uart : uart_library dev)
    (g : getter) (hdl : Z) (c : list ascii) (limit : Z) (w : world dev)
    (r : Z) (bytes : list ascii) (d : dev) :
  fnUART_LIBRARY_Get uart hdl (char_array WRITE_BUFFER_SIZE (query g)) (device w)
    = (r, bytes, d) ->
  (~ starts_with (echo g) (cstring (store (zero_array MAXLEN) bytes)) \/
   exists ws rest,
     cstring (store (zero_array MAXLEN) bytes) = echo g ++ ws ++ rest /\
     forallb isspace ws = true /\
     match rest with
     | [] => True
     | x :: _ => isspace x = false /\ value_char g x = false
     end) ->
  getter_fn uart g hdl c limit w =
  (Returned (r, c),
   World d (calls w ++ [call_get hdl (char_array WRITE_BUFFER_SIZE (query g)) r])).
Proof.
  intros Hv Hreply. rewrite (getter_result uart g hdl c limit w r bytes d Hv).
  replace (extract g (cstring (store (zero_array MAXLEN) bytes))) with (@None (list ascii));
    [reflexivity|].
  symmetry. destruct Hreply as [Hno|(ws & rest & -> & Hws & Hrest)].
  - unfold extract. fold (echo g). now rewrite strip_not_prefix.
  - now apply extract_no_value.
Qed.

Lemma getters_keep_c_without_value_witness :
  ~ starts_with (echo GetEnable)
      (cstring (store (zero_array MAXLEN) (c_lit "CMD_NOT_DEFINED\r> " ++ [NUL]))) /\
  fnMCLS1_DLL_GetEnable (canned 234 "CMD_NOT_DEFINED\r> " 0 "") 7 (c_lit "1") 2 power_on =
    (Returned (234, c_lit "1"),
     World 1%nat (calls power_on ++
                  [call_get 7 (char_array WRITE_BUFFER_SIZE (query GetEnable)) 234])) /\
  fnMCLS1_DLL_GetActualTemperature (canned 0 "temp?\r-5.00\r> " 0 "") 7 (c_lit "25.00") 6
      power_on =
    (Returned (0, c_lit "25.00"),
     World 1%nat (calls power_on ++
                  [call_get 7 (char_array WRITE_BUFFER_SIZE (query GetActualTemperature)) 0])).
Proof.
  assert (H : ~ starts_with (echo GetEnable)
                (cstring (store (zero_array MAXLEN) (c_lit "CMD_NOT_DEFINED\r> " ++ [NUL])))).
  { intros [rest Hrest]. vm_compute in Hrest. discriminate. }
  split; [exact H|]. split.
  - exact (getters_keep_c_without_value (canned 234 "CMD_NOT_DEFINED\r> " 0 "") GetEnable 7
             (c_lit "1") 2 power_on 234 _ 1%nat eq_refl (or_introl H)).
  - exact (getters_keep_c_without_value (canned 0 "temp?\r-5.00\r> " 0 "")
             GetActualTemperature 7 (c_lit "25.00") 6 power_on 0 _ 1%nat eq_refl
             (or_intror (ex_intro _ [CR] (ex_intro _ (c_lit "-5.00\r> ")
                (conj eq_refl (conj eq_refl (conj eq_refl eq_refl))))))).
Defined.

(** X3.  Between the echo and the value a getter skips any white space,
    of any length: the value is read alike after the carriage return of
    the format, after none, and after a carriage return, a line feed and
    blanks (so the leading blanks of an ID are lost).  The value must
    start with a character that is not white space and end before a
    character that is not a value character, or at the end of the reply. *)
Theorem getters_skip_any_white_space {dev : Type} (uart : uart_library dev)
    (g : getter) (hdl : Z) (c : list ascii) (limit : Z) (w : world dev)
    (r : Z) (bytes : list ascii) (d : dev) (ws value rest : list ascii) :
  fnUART_LIBRARY_Get uart hdl (char_array WRITE_BUFFER_SIZE (query g)) (device w)
    = (r, bytes, d) ->
  cstring (store (zero_array MAXLEN) bytes) = echo g ++ ws ++ value ++ rest ->
  forallb isspace ws = true ->
  match value with [] => False | v0 :: _ => isspace v0 = false end ->
  forallb (value_char g) value = true ->
  match rest with [] => True | x :: _ => value_char g x = false end ->
  getter_fn uart g hdl c limit w =
    (Returned (r, poke c value),
     World d (calls w ++ [call_get hdl (char_array WRITE_BUFFER_SIZE (query g)) r])) /\
  cstring (poke c value) = value.
Proof.
  intros Hv Hreply Hws Hhead Hval Hrest.
  rewrite (getter_result uart g hdl c limit w r bytes d Hv), Hreply.
  rewrite extract_after_space by assumption.
  split; [reflexivity|]. apply cstring_poke. now apply value_no_NUL with g.
Qed.

Lemma getters_skip_any_white_space_witness :
  fnMCLS1_DLL_GetID (canned 0 "id?\r\n  MCLS1 v1.0\r\n> " 0 "") 7 (zero_array 16) 16 power_on =
    (Returned (0, poke (zero_array 16) (c_lit "MCLS1 v1.0")),
     World 1%nat (calls power_on ++
                  [call_get 7 (char_array WRITE_BUFFER_SIZE (query GetID)) 0])) /\
  fnMCLS1_DLL_GetActiveChannel (canned 0 "channel?3" 0 "") 7 (zero_array 16) 16 power_on =
    (Returned (0, poke (zero_array 16) (c_lit "3")),
     World 1%nat (calls power_on ++
                  [call_get 7 (char_array WRITE_BUFFER_SIZE (query GetActiveChannel)) 0])).
Proof.
  split.
  - exact (proj1 (getters_skip_any_white_space (canned 0 "id?\r\n  MCLS1 v1.0\r\n> " 0 "")
             GetID 7 (zero_array 16) 16 power_on 0 _ 1%nat
             (c_lit "\r\n  ") (c_lit "MCLS1 v1.0") (c_lit "\r\n> ")
             eq_refl eq_refl eq_refl eq_refl eq_refl eq_refl)).
  - exact (proj1 (getters_skip_any_white_space (canned 0 "channel?3" 0 "")
             GetActiveChannel 7 (zero_array 16) 16 power_on 0 _ 1%nat
             [] (c_lit "3") []
             eq_refl eq_refl eq_refl eq_refl eq_refl I)).
Defined.

Lemma before_comma_split (s : list ascii) :
  exists rest, s = before_comma s ++ rest /\ (rest = [] \/ starts_with [","%char] rest).
Proof.
  induction s as [|c s (rest & IH & Hrest)]; simpl; [exists []; now split; [|left]|].
  destruct (Ascii.eqb_spec c ","%char) as [->|_].
  - exists (","%char :: s). split; [reflexivity|]. right. now exists s.
  - exists rest. split; [simpl; now f_equal | exact Hrest].
Qed.

(** X4.  [fnMCLS1_DLL_List] always returns the count of the vendor.  When
    the list is empty or begins with a comma it does not write to [port]
    at all, not even a terminator.  Otherwise it splits the list at its
    first comma (or at its end when there is none) and writes what stands
    before it, which is not empty and holds no comma, with a NUL to
    [port]; only an entry that fills all 255 bytes of the scratch buffer is
    replaced by the empty string. *)
Theorem List_writes_an_entry_or_nothing {dev : Type} (uart : uart_library dev)
    (port : list ascii) (var : Z) (w : world dev)
    (r : Z) (bytes : list ascii) (d : dev) :
  fnUART_LIBRARY_list uart MAXLEN (device w) = (r, bytes, d) ->
  exists port',
    fnMCLS1_DLL_List uart port var w
      = (Returned (r, port'), World d (calls w ++ [call_list MAXLEN r])) /\
    (cstring (store (zero_array MAXLEN) bytes) = [] \/
     starts_with [","%char] (cstring (store (zero_array MAXLEN) bytes)) ->
     port' = port) /\
    (forall c0 rest0,
       cstring (store (zero_array MAXLEN) bytes) = c0 :: rest0 -> c0 <> ","%char ->
       exists entry rest,
         cstring (store (zero_array MAXLEN) bytes) = entry ++ rest /\
         entry <> [] /\
         Forall (fun x => x <> ","%char) entry /\
         (rest = [] \/ starts_with [","%char] rest) /\
         ((length entry < 255)%nat -> port' = poke port entry /\ cstring port' = entry) /\
         (length entry = 255%nat -> port' = poke port [])).
Proof.
  intros Hv. rewrite (List_result uart port var w r bytes d Hv).
  set (reply := cstring (store (zero_array MAXLEN) bytes)).
  pose proof (before_comma_no_comma reply) as Hnc.
  destruct (before_comma_split reply) as (rest & Hpre & Hrest).
  assert (Hnul : Forall (fun x => x <> NUL) (before_comma reply)).
  { pose proof (cstring_no_NUL (store (zero_array MAXLEN) bytes)) as H.
    fold reply in H. rewrite Hpre in H. now apply Forall_app in H. }
  destruct (before_comma reply) as [|e0 entry] eqn:Hb.
  - eexists. split; [reflexivity|]. split; [reflexivity|].
    intros c0 rest0 Hreply Hc0. exfalso.
    rewrite Hreply in Hb. simpl in Hb.
    destruct (Ascii.eqb_spec c0 ","%char); [contradiction | discriminate].
  - eexists. split; [reflexivity|]. split.
    + intros [H|[rest' H]]; rewrite H in Hb; simpl in Hb; discriminate.
    + intros c0 rest0 _ _. exists (e0 :: entry), rest.
      split; [exact Hpre|]. split; [discriminate|]. split; [exact Hnc|].
      split; [exact Hrest|]. cbv zeta. split.
      * intros Hlen.
        destruct (Z.ltb_spec (Z.of_nat (length (e0 :: entry))) MAXLEN) as [_|Hge];
          [|unfold MAXLEN in Hge; lia].
        split; [reflexivity | now apply cstring_poke].
      * intros Hlen.
        destruct (Z.ltb_spec (Z.of_nat (length (e0 :: entry))) MAXLEN) as [Hlt|_];
          [unfold MAXLEN in Hlt; lia | reflexivity].
Qed.

Lemma List_writes_an_entry_or_nothing_witness :
  (exists port',
     fnMCLS1_DLL_List (canned 0 "" 0 "") (c_lit "COM9") 255 power_on
       = (Returned (0, port'), World 1%nat (calls power_on ++ [call_list MAXLEN 0])) /\
     port' = c_lit "COM9") /\
  (exists port',
     fnMCLS1_DLL_List (canned 0 "" 0 ",COM3") (c_lit "COM9") 255 power_on
       = (Returned (0, port'), World 1%nat (calls power_on ++ [call_list MAXLEN 0])) /\
     port' = c_lit "COM9") /\
  (exists port' entry rest,
     fnMCLS1_DLL_List bench (c_lit "COM9") 255 power_on
       = (Returned (2, port'), World 1%nat (calls power_on ++ [call_list MAXLEN 2])) /\
     c_lit "COM1,Serial0,COM3,MCLS1" = entry ++ rest /\
     entry <> [] /\
     Forall (fun x => x <> ","%char) entry /\
     (rest = [] \/ starts_with [","%char] rest) /\
     port' = poke (c_lit "COM9") entry /\ cstring port' = entry).
Proof.
  split; [|split].
  - destruct (List_writes_an_entry_or_nothing (canned 0 "" 0 "") (c_lit "COM9") 255
                power_on 0 [NUL] 1%nat eq_refl) as (port' & Hrun & Hsame & _).
    exact (ex_intro _ port' (conj Hrun (Hsame (or_introl eq_refl)))).
  - destruct (List_writes_an_entry_or_nothing (canned 0 "" 0 ",COM3") (c_lit "COM9") 255
                power_on 0 (c_lit ",COM3" ++ [NUL]) 1%nat eq_refl)
      as (port' & Hrun & Hsame & _).
    exact (ex_intro _ port' (conj Hrun
             (Hsame (or_intror (ex_intro _ (c_lit "COM3") eq_refl))))).
  - destruct (List_writes_an_entry_or_nothing bench (c_lit "COM9") 255
                power_on 2 (c_lit "COM1,Serial0,COM3,MCLS1" ++ [NUL]) 1%nat eq_refl)
      as (port' & Hrun & _ & Hentry).
    destruct (Hentry "C"%char (c_lit "OM1,Serial0,COM3,MCLS1") eq_refl ltac:(discriminate))
      as (entry & rest & Hsplit & Hne & Hnc & Hrest & Hfit & _).
    assert (Hlen : (length entry < 255)%nat).
    { apply (f_equal (@length ascii)) in Hsplit. rewrite length_app in Hsplit.
      change (length (cstring (store (zero_array MAXLEN)
                (c_lit "COM1,Serial0,COM3,MCLS1" ++ [NUL])))) with 23%nat in Hsplit.
      lia. }
    destruct (Hfit Hlen) as [Hport Hc].
    exact (ex_intro _ port' (ex_intro _ entry (ex_intro _ rest
             (conj Hrun (conj Hsplit (conj Hne (conj Hnc (conj Hrest (conj Hport Hc))))))))).
Defined.

(** ** More on commands *)

Section MoreOnCommands.

Context {dev : Type} (uart : uart_library dev).

Lemma sends_one_line (hdl : Z) (fmt : string) (arg : printf_arg)
    (pre num : list ascii) (m : M dev Z) (w : world dev) :
  sends_formatted uart hdl fmt arg m w ->
  format (c_lit fmt) [arg] = Some (pre ++ num ++ [CR]) ->
  forallb plain pre = true ->
  Forall (fun x => plain x = true) num ->
  exists e d,
    m w = (Returned (call_status e), World d (calls w ++ [e])) /\
    match e with
    | call_set _ c _ _ | call_get _ c _ => one_line (cstring c)
    | _ => True
    end.
Proof.
  intros Hs Hf Hpre Hnum.
  pose proof (sends_formatted_sent uart hdl fmt arg _ m w Hs Hf) as Hm.
  destruct Hs as (text & Hf' & _ & Hc & _). rewrite Hf in Hf'. injection Hf' as <-.
  rewrite Hm. unfold sent.
  destruct (fnUART_LIBRARY_Set uart hdl _ WRITE_BUFFER_SIZE (device w)) as [r d].
  exists (call_set hdl (command (pre ++ num ++ [CR])) WRITE_BUFFER_SIZE r), d.
  split; [reflexivity|]. rewrite Hc. exists (pre ++ num). split.
  - now rewrite <- app_assoc.
  - apply Forall_app. split; [now apply forallb_Forall | exact Hnum].
Qed.

Lemma SetCurrent_sent (hdl : Z) (x : spec_float) (w : world dev) :
  (length (fmt_f x) <= 22)%nat ->
  fnMCLS1_DLL_SetCurrent uart hdl x w = sent uart hdl (current_command x) w.
Proof.
  intros H. eapply sends_formatted_sent; [now apply SetCurrent_sends|].
  apply format_current.
Qed.

End MoreOnCommands.

Lemma length_fmt_f_not_finite (x : spec_float) :
  match x with S754_finite _ _ _ => False | _ => True end ->
  (length (fmt_f x) <= 9)%nat.
Proof. destruct x as [[|]|[|]| |neg m e]; simpl; intros H; lia || contradiction. Qed.

(** X5.  Whatever the wrapper and whatever the accepted argument, the
    command that reaches the vendor is one line: the command buffer holds,
    up to its first NUL, characters that are neither white space nor NUL,
    followed by exactly one carriage return.  The vendor is called once
    and its status is the result. *)
Theorem commands_are_one_line {dev : Type} (uart : uart_library dev)
    (o : operation) (w : world dev) :
  accepted o = true ->
  exists e d,
    status_of uart o w = (Returned (call_status e), World d (calls w ++ [e])) /\
    match e with
    | call_set _ c _ _ | call_get _ c _ => one_line (cstring c)
    | _ => True
    end.
Proof.
  destruct o as [port var|port|hdl|hdl n|hdl x|hdl x|hdl n|hdl n|g hdl c limit];
    cbn [accepted status_of]; intros Ha.
  - destruct (status_of_cases uart (op_List port var) w)
      as [(_ & e & d & Hrun & Hk & _)|(Hacc & _)]; [|discriminate].
    exists e, d. split; [exact Hrun|]. destruct e; try discriminate Hk; exact I.
  - destruct (status_of_cases uart (op_Open port) w)
      as [(_ & e & d & Hrun & Hk & _)|(Hacc & _)]; [|discriminate].
    exists e, d. split; [exact Hrun|]. destruct e; try discriminate Hk; exact I.
  - destruct (status_of_cases uart (op_Close hdl) w)
      as [(_ & e & d & Hrun & Hk & _)|(Hacc & _)]; [|discriminate].
    exists e, d. split; [exact Hrun|]. destruct e; try discriminate Hk; exact I.
  - apply andb_true_iff in Ha.
    apply (sends_one_line uart hdl "channel=%d\r" (arg_int n) (c_lit "channel=") (fmt_d n));
      [apply SetActiveChannel_sends; lia | reflexivity | reflexivity | apply fmt_d_plain].
  - apply (sends_one_line uart hdl "target=%f\r" (arg_double x) (c_lit "target=") (fmt_f x));
      [now apply SetTargeTemperature_sends | reflexivity | reflexivity | apply fmt_f_plain].
  - apply Nat.leb_le in Ha.
    apply (sends_one_line uart hdl "current=%f\r" (arg_double x) (c_lit "current=") (fmt_f x));
      [now apply SetCurrent_sends | reflexivity | reflexivity | apply fmt_f_plain].
  - apply andb_true_iff in Ha.
    apply (sends_one_line uart hdl "enable=%d\r" (arg_int n) (c_lit "enable=") (fmt_d n));
      [apply SetEnable_sends; lia | reflexivity | reflexivity | apply fmt_d_plain].
  - apply andb_true_iff in Ha.
    apply (sends_one_line uart hdl "system=%d\r" (arg_int n) (c_lit "system=") (fmt_d n));
      [apply SetSystemEnable_sends; lia | reflexivity | reflexivity | apply fmt_d_plain].
  - unfold mbind, M_bind. rewrite getter_asked. unfold asked.
    destruct (fnUART_LIBRARY_Get uart hdl _ (device w)) as [[r bytes] d].
    exists (call_get hdl (char_array WRITE_BUFFER_SIZE (query g)) r), d.
    split; [reflexivity|]. destruct (query_command g) as [Hq _]. rewrite Hq.
    exists (echo g). split.
    + unfold query, echo. now rewrite <- app_assoc.
    + apply forallb_Forall. destruct g; reflexivity.
Qed.

Lemma commands_are_one_line_witness :
  exists e d,
    status_of bench (op_SetCurrent 7 f_75) power_on
      = (Returned (call_status e), World d (calls power_on ++ [e])) /\
    match e with
    | call_set _ c _ _ | call_get _ c _ => one_line (cstring c)
    | _ => True
    end.
Proof. exact (commands_are_one_line bench (op_SetCurrent 7 f_75) power_on eq_refl). Defined.

(** X6.  The limits of [fnMCLS1_DLL_SetCurrent], which has no assertion:
    zeros, infinities and NaN are formatted and sent (as [0.000000], [inf],
    [nan] with their sign), and so is every current up to 999999999999999
    and every negative current down to -99999999999999; from 10^15 upwards
    and from -10^14 downwards [sprintf_s] refuses the command and nothing
    is sent. *)
Theorem SetCurrent_limits {dev : Type} (uart : uart_library dev) (hdl : Z) (w : world dev) :
  (forall x, match x with S754_finite _ _ _ => False | _ => True end ->
     fnMCLS1_DLL_SetCurrent uart hdl x w = sent uart hdl (current_command x) w) /\
  (forall m e, (mag m e <= inject_Z 999999999999999)%Q ->
     fnMCLS1_DLL_SetCurrent uart hdl (S754_finite false m e) w
       = sent uart hdl (current_command (S754_finite false m e)) w) /\
  (forall m e, (mag m e <= inject_Z 99999999999999)%Q ->
     fnMCLS1_DLL_SetCurrent uart hdl (S754_finite true m e) w
       = sent uart hdl (current_command (S754_finite true m e)) w) /\
  (forall m e, (inject_Z 1000000000000000 <= mag m e)%Q ->
     fnMCLS1_DLL_SetCurrent uart hdl (S754_finite false m e) w
       = (Aborted invalid_parameter, w)) /\
  (forall m e, (inject_Z 100000000000000 <= mag m e)%Q ->
     fnMCLS1_DLL_SetCurrent uart hdl (S754_finite true m e) w
       = (Aborted invalid_parameter, w)).
Proof.
  split; [|split; [|split; [|split]]].
  - intros x Hx. apply SetCurrent_sent.
    pose proof (length_fmt_f_not_finite x Hx). lia.
  - intros m e H. apply SetCurrent_sent.
    pose proof (length_fmt_f_finite false m e 999999999999999 15
                  ltac:(lia) ltac:(reflexivity) H) as Hl.
    cbn [sign_prefix length] in Hl. lia.
  - intros m e H. apply SetCurrent_sent.
    pose proof (length_fmt_f_finite true m e 99999999999999 14
                  ltac:(lia) ltac:(reflexivity) H) as Hl.
    cbn [sign_prefix length] in Hl. lia.
  - intros m e H. apply SetCurrent_refused.
    pose proof (length_fmt_f_finite_ge false m e 15 H) as Hl.
    cbn [sign_prefix length] in Hl. lia.
  - intros m e H. apply SetCurrent_refused.
    pose proof (length_fmt_f_finite_ge true m e 14 H) as Hl.
    cbn [sign_prefix length] in Hl. lia.
Qed.

Lemma SetCurrent_limits_witness :
  fnMCLS1_DLL_SetCurrent bench 7 S754_nan power_on
    = sent bench 7 (c_lit "current=nan\r") power_on /\
  fnMCLS1_DLL_SetCurrent bench 7 (S754_finite false 14901161 26) power_on
    = sent bench 7 (c_lit "current=999999986991104.000000\r") power_on /\
  fnMCLS1_DLL_SetCurrent bench 7 (S754_finite false 14901162 26) power_on
    = (Aborted invalid_parameter, power_on) /\
  fnMCLS1_DLL_SetCurrent bench 7 (S754_finite true 11920929 23) power_on
    = (Aborted invalid_parameter, power_on).
Proof.
  destruct (SetCurrent_limits bench 7 power_on) as (Hnf & Hpos & _ & Hbig & Hneg).
  assert (H1 : (mag 14901161 26 <= inject_Z 999999999999999)%Q)
    by (unfold Qle; cbn; lia).
  assert (H2 : (inject_Z 1000000000000000 <= mag 14901162 26)%Q)
    by (unfold Qle; cbn; lia).
  assert (H3 : (inject_Z 100000000000000 <= mag 11920929 23)%Q)
    by (unfold Qle; cbn; lia).
  exact (conj (Hnf S754_nan I) (conj (Hpos _ _ H1) (conj (Hbig _ _ H2) (Hneg _ _ H3)))).
Defined.

(** X7.  What [fnMCLS1_DLL_SetTargeTemperature] puts on the wire for a
    temperature that passes its assertion: always 17 characters, [target=],
    two digits, a point, six digits and the carriage return.  The number
    sent, read back in millionths, is between 20000000 and 30000000 and
    differs from the argument by at most half a millionth. *)
Theorem temperature_on_the_wire {dev : Type} (uart : uart_library dev)
    (hdl : Z) (x : spec_float) (w : world dev) :
  float_le TEMP_LO x && float_le x TEMP_HI = true ->
  exists n,
    20000000 <= n <= 30000000 /\
    target_command x =
      c_lit "target=" ++ dec (n / 1000000) ++ "."%char :: dec_fixed 6 (n mod 1000000) ++ [CR] /\
    length (dec (n / 1000000)) = 2%nat /\
    length (target_command x) = 17%nat /\
    digits_value (dec (n / 1000000)) * 1000000
      + digits_value (dec_fixed 6 (n mod 1000000)) = n /\
    (inject_Z n - (1 # 2) <= F2Q x * inject_Z 1000000)%Q /\
    (F2Q x * inject_Z 1000000 <= inject_Z n + (1 # 2))%Q /\
    fnMCLS1_DLL_SetTargeTemperature uart hdl x w = sent uart hdl (target_command x) w.
Proof.
  intros Hx.
  assert (Hsent : fnMCLS1_DLL_SetTargeTemperature uart hdl x w
                  = sent uart hdl (target_command x) w).
  { eapply sends_formatted_sent; [now apply SetTargeTemperature_sends|].
    apply format_target. }
  apply temperature_assertion in Hx. destruct Hx as (q & Hq & Hlo & Hhi).
  destruct x as [neg|neg| |neg m e]; simpl in Hq; try discriminate; injection Hq as <-.
  { exfalso. unfold Qle in Hlo. cbn in Hlo. lia. }
  destruct neg.
  { exfalso. pose proof (mag_pos m e) as Hp. cbn [F2Q] in Hlo.
    unfold Qle, Qlt in *. cbn [Qnum Qden Qopp] in *. lia. }
  cbn [F2Q] in *.
  exists (millionths m e).
  pose proof (millionths_ge m e 20 Hlo) as Hge.
  pose proof (millionths_le m e 30 Hhi) as Hle.
  set (n := millionths m e) in *.
  assert (Hi : 10 ^ Z.of_nat 1 <= n / 1000000 < 10 ^ Z.of_nat 2).
  { change (10 ^ Z.of_nat 1) with 10. change (10 ^ Z.of_nat 2) with 100.
    split; [apply Z.div_le_lower_bound; lia | apply Z.div_lt_upper_bound; lia]. }
  pose proof (length_dec_exact 1 _ Hi) as Hlen.
  assert (Hcmd : target_command (S754_finite false m e) =
                 c_lit "target=" ++ dec (n / 1000000) ++
                 "."%char :: dec_fixed 6 (n mod 1000000) ++ [CR]).
  { unfold target_command, fmt_f. fold n. cbn [sign_prefix app].
    now rewrite <- app_assoc. }
  split; [lia|]. split; [exact Hcmd|]. split; [exact Hlen|]. split.
  { rewrite Hcmd. rewrite !length_app. cbn [length]. rewrite length_app, Hlen, length_dec_fixed.
    reflexivity. }
  split.
  { rewrite dec_value by (apply Z.div_pos; lia).
    rewrite dec_fixed_value
      by (change (10 ^ Z.of_nat 6) with 1000000; apply Z.mod_pos_bound; lia).
    pose proof (Z.div_mod n 1000000 ltac:(lia)). lia. }
  pose proof (round_half_even_nearest (Qnum (mag m e) * 1000000) (Qden (mag m e))) as Hr.
  fold (millionths m e) in Hr. fold n in Hr.
  destruct (mag m e) as [a b]. cbn [Qnum Qden] in Hr.
  split; [|split; [|exact Hsent]]; unfold Qle; cbn; lia.
Qed.

Lemma temperature_on_the_wire_witness :
  float_le TEMP_LO TEMP_HI && float_le TEMP_HI TEMP_HI = true /\
  exists n,
    20000000 <= n <= 30000000 /\
    target_command TEMP_HI =
      c_lit "target=" ++ dec (n / 1000000) ++ "."%char :: dec_fixed 6 (n mod 1000000) ++ [CR] /\
    length (dec (n / 1000000)) = 2%nat /\
    length (target_command TEMP_HI) = 17%nat /\
    digits_value (dec (n / 1000000)) * 1000000
      + digits_value (dec_fixed 6 (n mod 1000000)) = n /\
    (inject_Z n - (1 # 2) <= F2Q TEMP_HI * inject_Z 1000000)%Q /\
    (F2Q TEMP_HI * inject_Z 1000000 <= inject_Z n + (1 # 2))%Q /\
    fnMCLS1_DLL_SetTargeTemperature bench 7 TEMP_HI power_on
      = sent bench 7 (target_command TEMP_HI) power_on.
Proof. exact (conj eq_refl (temperature_on_the_wire bench 7 TEMP_HI power_on eq_refl)). Defined.

(** ** A setting written and read back *)

Lemma extract_digits_back (g : getter) (n : Z) (tail : list ascii) :
  reads_digits g = true -> 0 <= n ->
  extract g (query g ++ fmt_d n ++ CR :: tail) = Some (fmt_d n).
Proof.
  intros Hg Hn. unfold fmt_d. destruct (Z.ltb_spec n 0) as [|_]; [lia|].
  pose proof (dec_not_empty n) as Hne.
  assert (Hd : Forall (fun c => is_digit c = true) (dec n)) by apply dec_fuel_digits.
  apply extract_echo.
  - destruct (dec n) as [|v0 v]; [contradiction|].
    apply Forall_cons in Hd. destruct Hd as [Hv0 _].
    destruct (isspace v0) eqn:Hsp; [|reflexivity].
    exfalso. revert Hv0 Hsp. unfold is_digit, isspace. cbv zeta.
    rewrite andb_true_iff, orb_true_iff, andb_true_iff, Nat.eqb_eq, !Nat.leb_le. lia.
  - apply Forall_forallb. destruct g; try discriminate; exact Hd.
  - destruct g; try discriminate; reflexivity.
Qed.

Section WrittenAndRead.

Context {dev : Type} (uart : uart_library dev).

Lemma sends_formatted_returned (hdl : Z) (fmt : string) (arg : printf_arg)
    (text : list ascii) (m : M dev Z) (w w1 : world dev) (r1 : Z) :
  sends_formatted uart hdl fmt arg m w ->
  format (c_lit fmt) [arg] = Some text ->
  m w = (Returned r1, w1) ->
  calls w1 = calls w ++ [call_set hdl (command text) WRITE_BUFFER_SIZE r1].
Proof.
  intros Hs Hf Hrun.
  destruct (sends_formatted_asks uart hdl fmt arg text m w Hs Hf)
    as (r & w' & Hrun' & Hcalls & _).
  rewrite Hrun in Hrun'. now injection Hrun' as -> ->.
Qed.

(** An [int] setter that returns was given a value of its range, which
    has one digit, and has made the one [Set] call of its command. *)
Lemma int_setter_returned (g : getter) (set : Z -> Z -> M dev Z)
    (hdl n : Z) (w w1 : world dev) (r1 : Z) :
  int_setter uart g = Some set ->
  set hdl n w = (Returned r1, w1) ->
  0 <= n <= 4 /\
  calls w1 = calls w ++
    [call_set hdl
       (command (list_ascii_of_string (getter_name g) ++ "="%char :: fmt_d n ++ [CR]))
       WRITE_BUFFER_SIZE r1].
Proof.
  intros Hg Hrun.
  destruct g; try discriminate; injection Hg as <-.
  - destruct (status_of_cases uart (op_SetActiveChannel hdl n) w)
      as [(Hacc & _)|(_ & a & Hab)];
      [|cbn [status_of] in Hab; rewrite Hab in Hrun; discriminate].
    cbn [accepted] in Hacc. apply andb_true_iff in Hacc.
    split; [lia|].
    apply (sends_formatted_returned hdl "channel=%d\r" (arg_int n) _ _ w w1 r1
             (SetActiveChannel_sends uart hdl n w ltac:(lia)) (format_channel n) Hrun).
  - destruct (status_of_cases uart (op_SetSystemEnable hdl n) w)
      as [(Hacc & _)|(_ & a & Hab)];
      [|cbn [status_of] in Hab; rewrite Hab in Hrun; discriminate].
    cbn [accepted] in Hacc. apply andb_true_iff in Hacc.
    split; [lia|].
    apply (sends_formatted_returned hdl "system=%d\r" (arg_int n) _ _ w w1 r1
             (SetSystemEnable_sends uart hdl n w ltac:(lia)) (format_system n) Hrun).
  - destruct (status_of_cases uart (op_SetEnable hdl n) w)
      as [(Hacc & _)|(_ & a & Hab)];
      [|cbn [status_of] in Hab; rewrite Hab in Hrun; discriminate].
    cbn [accepted] in Hacc. apply andb_true_iff in Hacc.
    split; [lia|].
    apply (sends_formatted_returned hdl "enable=%d\r" (arg_int n) _ _ w w1 r1
             (SetEnable_sends uart hdl n w ltac:(lia)) (format_enable n) Hrun).
Qed.

End WrittenAndRead.

(** X8.  A setting written and read back.  When one of the [int] setters
    ([fnMCLS1_DLL_SetActiveChannel], [SetEnable], [SetSystemEnable]) has
    returned, it has sent ["<name>=<digits>\r"] with the name its getter
    asks for; and when the device then answers the getter's query with the
    echo, the same digits and a carriage return, the getter stores exactly
    those digits, whose decimal value is the [int] that was set. *)
Theorem set_value_reads_back {dev : Type} (uart : uart_library dev)
    (g : getter) (set : Z -> Z -> M dev Z) (hdl n : Z) (w w1 : world dev) (r1 : Z) :
  int_setter uart g = Some set ->
  set hdl n w = (Returned r1, w1) ->
  calls w1 = calls w ++
    [call_set hdl
       (command (list_ascii_of_string (getter_name g) ++ "="%char :: fmt_d n ++ [CR]))
       WRITE_BUFFER_SIZE r1] /\
  forall (c : list ascii) (limit r2 : Z) (bytes : list ascii) (d2 : dev) (tail : list ascii),
    fnUART_LIBRARY_Get uart hdl (char_array WRITE_BUFFER_SIZE (query g)) (device w1)
      = (r2, bytes, d2) ->
    cstring (store (zero_array MAXLEN) bytes) = query g ++ fmt_d n ++ CR :: tail ->
    getter_fn uart g hdl c limit w1 =
      (Returned (r2, poke c (fmt_d n)),
       World d2 (calls w1 ++ [call_get hdl (char_array WRITE_BUFFER_SIZE (query g)) r2])) /\
    digits_value (cstring (poke c (fmt_d n))) = n.
Proof.
  intros Hg Hrun.
  destruct (int_setter_returned uart g set hdl n w w1 r1 Hg Hrun) as [Hn Hcalls].
  split; [exact Hcalls|].
  intros c limit r2 bytes d2 tail Hget Hreply.
  assert (Hd : reads_digits g = true) by (destruct g; try discriminate; reflexivity).
  rewrite (getter_result uart g hdl c limit w1 r2 bytes d2 Hget), Hreply.
  rewrite extract_digits_back by (assumption || lia).
  split; [reflexivity|].
  rewrite cstring_poke by apply fmt_d_no_NUL.
  unfold fmt_d. destruct (Z.ltb_spec n 0) as [|_]; [lia|]. apply dec_value. lia.
Qed.

Lemma set_value_reads_back_witness :
  calls (snd (fnMCLS1_DLL_SetActiveChannel (canned 0 "channel?\r3\r> " 0 "") 7 3 power_on)) =
    [call_set 7 (command (c_lit "channel=3\r")) WRITE_BUFFER_SIZE 0] /\
  fnMCLS1_DLL_GetActiveChannel (canned 0 "channel?\r3\r> " 0 "") 7 (zero_array 4) 4
      (snd (fnMCLS1_DLL_SetActiveChannel (canned 0 "channel?\r3\r> " 0 "") 7 3 power_on)) =
    (Returned (0, poke (zero_array 4) (c_lit "3")),
     World 2%nat [call_set 7 (command (c_lit "channel=3\r")) WRITE_BUFFER_SIZE 0;
                  call_get 7 (char_array WRITE_BUFFER_SIZE (query GetActiveChannel)) 0]) /\
  digits_value (cstring (poke (zero_array 4) (c_lit "3"))) = 3.
Proof.
  destruct (set_value_reads_back (canned 0 "channel?\r3\r> " 0 "") GetActiveChannel
              (fnMCLS1_DLL_SetActiveChannel (canned 0 "channel?\r3\r> " 0 ""))
              7 3 power_on
              (snd (fnMCLS1_DLL_SetActiveChannel (canned 0 "channel?\r3\r> " 0 "") 7 3 power_on))
              0 eq_refl eq_refl) as [Hcalls Hback].
  destruct (Hback (zero_array 4) 4 0 (c_lit "channel?\r3\r> " ++ [NUL]) 2%nat (c_lit "> ")
              eq_refl eq_refl) as [Hget Hval].
  exact (conj Hcalls (conj Hget Hval)).
Defined.

(** X9.  What a getter writes through [c]: nothing, or the value and one
    NUL from the start of [c], in which case the bytes of [c] after that
    NUL keep their old contents.  The size of [c] and [limit] play no part:
    when the value fits, [c] keeps its size, and when [c] has no room for
    the value and its NUL the write goes on past the end of [c]. *)
Theorem getters_write_value_and_NUL {dev : Type} (uart : uart_library dev)
    (g : getter) (hdl : Z) (c : list ascii) (limit : Z) (w : world dev) :
  match getter_fn uart g hdl c limit w with
  | (Returned (r, c'), w') =>
      c' = c \/
      exists v,
        v <> [] /\
        take (S (length v)) c' = v ++ [NUL] /\
        drop (S (length v)) c' = drop (S (length v)) c /\
        ((length v < length c)%nat -> length c' = length c) /\
        ((length c <= length v)%nat -> length c' = S (length v) /\ (length c < length c')%nat)
  | _ => False
  end.
Proof.
  rewrite getter_asked. unfold asked.
  destruct (fnUART_LIBRARY_Get uart hdl _ (device w)) as [[r bytes] d].
  destruct (extract g _) as [v|] eqn:He; [right | now left].
  apply extract_Some in He. destruct He as (Hne & _ & _).
  exists v. unfold poke.
  replace (v ++ NUL :: drop (S (length v)) c) with ((v ++ [NUL]) ++ drop (S (length v)) c)
    by (now rewrite <- app_assoc).
  assert (Hl : length (v ++ [NUL]) = S (length v)) by (rewrite length_app; simpl; lia).
  split; [exact Hne|]. split; [|split; [|split]].
  - rewrite take_app_length'; [reflexivity | now symmetry].
  - rewrite drop_app_length'; [reflexivity | now symmetry].
  - intros H. rewrite length_app, Hl, length_drop. lia.
  - intros H. rewrite length_app, Hl, length_drop. lia.
Qed.

Example GetID_overruns_a_short_buffer :
  fnMCLS1_DLL_GetID (canned 0 "id?\rTHORLABS MCLS1 1.0\r> " 0 "") 7 (zero_array 4) 4 power_on =
  (Returned (0, c_lit "THORLABS MCLS1 1.0" ++ [NUL]),
   World 1%nat [call_get 7 (char_array WRITE_BUFFER_SIZE (query GetID)) 0]).
Proof. reflexivity. Qed.

(** ** More on the demo *)

Section MoreOnRuns.

Context {dev : Type}.

Lemma only_calls_ret {A : Type} (P : call -> Prop) (a : A) :
  only_calls P (mret a : M dev A).
Proof. intros w. exists []. split; [now rewrite app_nil_r | constructor]. Qed.

Lemma only_calls_stop {A : Type} (P : call -> Prop) (r : abort) :
  only_calls P (stop r : M dev A).
Proof. intros w. exists []. split; [now rewrite app_nil_r | constructor]. Qed.

Lemma only_calls_out_of_fuel {A : Type} (P : call -> Prop) :
  only_calls P (out_of_fuel : M dev A).
Proof. intros w. exists []. split; [now rewrite app_nil_r | constructor]. Qed.

Lemma only_calls_bind {A B : Type} (P : call -> Prop) (m : M dev A) (k : A -> M dev B) :
  only_calls P m -> (forall a, only_calls P (k a)) -> only_calls P (m ≫= k).
Proof.
  intros Hm Hk w. destruct (Hm w) as (new1 & H1 & HP1).
  unfold mbind, M_bind. destruct (m w) as [[a|r|] w1]; cbn [snd] in *.
  - destruct (Hk a w1) as (new2 & H2 & HP2). exists (new1 ++ new2). split.
    + now rewrite H2, H1, app_assoc.
    + now apply Forall_app.
  - now exists new1.
  - now exists new1.
Qed.

End MoreOnRuns.

Section MoreOnDemo.

Context {dev : Type} (uart : uart_library dev).
Variable atoi : string -> Z.
Variable atof : string -> spec_float.
Variable stof : string -> option spec_float.

Lemma sent_only_sets (hdl : Z) (text : list ascii) (w : world dev) :
  exists r d,
    sent uart hdl text w =
    (Returned r, World d (calls w ++ [call_set hdl (command text) WRITE_BUFFER_SIZE r])).
Proof.
  unfold sent.
  destruct (fnUART_LIBRARY_Set uart hdl _ WRITE_BUFFER_SIZE (device w)) as [r d].
  now exists r, d.
Qed.

Lemma sends_or_stops_only_sets (hdl : Z) (fmt : string) (arg : printf_arg)
    (m : M dev Z) (w : world dev) :
  sends_formatted uart hdl fmt arg m w \/ (exists a, m w = (Aborted a, w)) ->
  exists new, calls (snd (m w)) = calls w ++ new /\ Forall (is_Set_on hdl) new.
Proof.
  intros [(text & _ & _ & _ & _ & Hm)|(a & Hm)]; rewrite Hm.
  - destruct (sent_only_sets hdl text w) as (r & d & ->).
    eexists. split; [reflexivity|]. repeat constructor. now exists (command text), r.
  - exists []. split; [now rewrite app_nil_r | constructor].
Qed.

Lemma SetActiveChannel_only_sets (hdl n : Z) :
  only_calls (is_Set_on hdl) (fnMCLS1_DLL_SetActiveChannel uart hdl n).
Proof.
  intros w. apply sends_or_stops_only_sets with "channel=%d\r"%string (arg_int n).
  destruct (status_of_cases uart (op_SetActiveChannel hdl n) w)
    as [(Hacc & _)|(_ & a & Hab)].
  - left. cbn [accepted] in Hacc. apply andb_true_iff in Hacc.
    apply SetActiveChannel_sends. lia.
  - right. now exists a.
Qed.

Lemma SetEnable_only_sets (hdl n : Z) :
  only_calls (is_Set_on hdl) (fnMCLS1_DLL_SetEnable uart hdl n).
Proof.
  intros w. apply sends_or_stops_only_sets with "enable=%d\r"%string (arg_int n).
  destruct (status_of_cases uart (op_SetEnable hdl n) w)
    as [(Hacc & _)|(_ & a & Hab)].
  - left. cbn [accepted] in Hacc. apply andb_true_iff in Hacc.
    apply SetEnable_sends. lia.
  - right. now exists a.
Qed.

Lemma SetCurrent_only_sets (hdl : Z) (x : spec_float) :
  only_calls (is_Set_on hdl) (fnMCLS1_DLL_SetCurrent uart hdl x).
Proof.
  intros w. apply sends_or_stops_only_sets with "current=%f\r"%string (arg_double x).
  destruct (status_of_cases uart (op_SetCurrent hdl x) w)
    as [(Hacc & _)|(_ & a & Hab)].
  - left. cbn [accepted] in Hacc. apply Nat.leb_le in Hacc.
    now apply SetCurrent_sends.
  - right. now exists a.
Qed.

Lemma helper_SetChannel_only_sets (hdl channel : Z) :
  only_calls (is_Set_on hdl) (SetChannel uart hdl channel).
Proof.
  apply only_calls_bind; [apply SetActiveChannel_only_sets|].
  intros _. apply SetEnable_only_sets.
Qed.

Lemma helper_SetCurrent_only_sets (hdl : Z) (x : spec_float) :
  only_calls (is_Set_on hdl) (SetCurrent uart hdl x).
Proof.
  apply only_calls_bind; [apply SetCurrent_only_sets|].
  intros _. apply SetCurrent_only_sets.
Qed.

Lemma main_loop_only_sets (hdl : Z) (fuel : nat) :
  forall (str : string) (current : spec_float) (input : list ascii),
  only_calls (is_Set_on hdl) (main_loop uart stof fuel hdl str current input).
Proof.
  induction fuel as [|fuel IH]; intros str current input; cbn [main_loop].
  - apply only_calls_out_of_fuel.
  - destruct (keep_going str); [|apply only_calls_ret].
    apply only_calls_bind.
    + destruct (negb (str =? "")%string); [|apply only_calls_ret].
      destruct (stof str); [apply only_calls_ret | apply only_calls_stop].
    + intros x. apply only_calls_bind; [apply helper_SetCurrent_only_sets|].
      intros _. destruct (extract_word input) as [[word input']|]; apply IH.
Qed.


End MoreOnDemo.

(** X10.  Without the library the demo does nothing: when the DLL is not
    where [init_MCLS1] looks for it, or lacks any one of the five exports,
    [_tmain] makes no call at all, whatever its arguments and the console
    input, and its exit status is 0, the same as after a good run. *)
Theorem demo_without_library {dev : Type} (uart : uart_library dev)
    (atoi : string -> Z) (atof : string -> spec_float)
    (stof : string -> option spec_float)
    (argc : Z) (argv : list string) (fs : file_system)
    (input : list ascii) (fuel : nat) (w : world dev) :
  fs !! dll_path = None \/
  (exists h name, fs !! dll_path = Some h /\ In name the_five /\ h !! name = None) ->
  _tmain uart atoi atof stof argc argv fs input fuel w = (Returned 0, w).
Proof.
  intros H. apply tmain_not_loaded.
  destruct H as [Hnone|(h & name & Hh & Hin & Hname)].
  - now rewrite init_MCLS1_not_loaded.
  - destruct (init_MCLS1_loaded fs no_globals h Hh) as [_ ->].
    cbn [the_five In] in Hin.
    destruct Hin as [<-|[<-|[<-|[<-|[<-|[]]]]]]; rewrite Hname; cbn [is_NULL orb];
      rewrite ?orb_true_r; discriminate.
Qed.

Lemma demo_without_library_witness :
  ({[ dll_path := old_dll ]} : file_system) !! dll_path = Some old_dll /\
  In "fnUART_LIBRARY_Get"%string the_five /\
  old_dll !! "fnUART_LIBRARY_Get"%string = None /\
  _tmain bench atoi_bench atof_bench stof_bench 3 ["demo"; "2"; "75"]%string
    {[ dll_path := old_dll ]} (c_lit "75\nquit\n") 10 power_on = (Returned 0, power_on).
Proof.
  assert (H1 : ({[ dll_path := old_dll ]} : file_system) !! dll_path = Some old_dll)
    by (vm_compute; reflexivity).
  assert (H2 : In "fnUART_LIBRARY_Get"%string the_five) by (simpl; tauto).
  assert (H3 : old_dll !! "fnUART_LIBRARY_Get"%string = None) by (vm_compute; reflexivity).
  exact (conj H1 (conj H2 (conj H3
    (demo_without_library bench atoi_bench atof_bench stof_bench 3 _ _ _ 10 power_on
       (or_intror (ex_intro _ old_dll (ex_intro _ _ (conj H1 (conj H2 H3))))))))).
Defined.



Section DemoCalls.

Context {dev : Type} (uart : uart_library dev).

Lemma bind_outcome {A B : Type} (m : M dev A) (k : A -> M dev B) (w : world dev) :
  (m ≫= k) w =
  match m w with
  | (Returned a, w') => k a w'
  | (Aborted r, w') => (Aborted r, w')
  | (Unfinished, w') => (Unfinished, w')
  end.
Proof. reflexivity. Qed.

Lemma Open_result (port : list ascii) (w : world dev) :
  exists hdl d,
    fnMCLS1_DLL_Open uart port w =
    (Returned hdl, World d (calls w ++ [call_open port CBR_115200 3 hdl])).
Proof.
  unfold fnMCLS1_DLL_Open, open, mbind, M_bind, mret, M_ret.
  destruct (fnUART_LIBRARY_open uart port CBR_115200 3 (device w)) as [r d].
  now exists r, d.
Qed.

Lemma Close_result (hdl : Z) (w : world dev) :
  exists r d,
    fnMCLS1_DLL_Close uart hdl w = (Returned r, World d (calls w ++ [call_close hdl r])).
Proof.
  unfold fnMCLS1_DLL_Close, close, mbind, M_bind, mret, M_ret.
  destruct (fnUART_LIBRARY_close uart hdl (device w)) as [r d].
  now exists r, d.
Qed.

Lemma SetEnable_0_result (hdl : Z) (w : world dev) :
  exists r d,
    fnMCLS1_DLL_SetEnable uart hdl 0 w =
    (Returned r,
     World d (calls w ++ [call_set hdl (command (enable_command 0)) WRITE_BUFFER_SIZE r])).
Proof.
  rewrite (sends_formatted_sent uart hdl "enable=%d\r" (arg_int 0) _ _ w
             (SetEnable_sends uart hdl 0 w ltac:(lia)) (format_enable 0)).
  apply sent_only_sets.
Qed.

End DemoCalls.

(** X12.  What the demo calls, in every run: whatever the arguments, the
    console input and the answers of the vendor, once the library is
    loaded the demo calls [list] and [open] once each, then only [Set], always
    with the handle that [open] returned and the 32-byte buffer size, and it
    never calls [Get].  When the handle is negative it stops there with
    status 0.  Otherwise [close] is called exactly when the run returns: then
    it is the last call, on the same handle, and the call before it is the
    command [enable=0]; a run that is stopped or does not end never closes
    the port. *)
Theorem demo_only_sets_then_closes {dev : Type} (uart : uart_library dev)
    (atoi : string -> Z) (atof : string -> spec_float)
    (stof : string -> option spec_float)
    (argc : Z) (argv : list string) (fs : file_system)
    (input : list ascii) (fuel : nat) (w : world dev) :
  fst (init_MCLS1 fs no_globals) = 0 ->
  exists (r0 hdl : Z) (sets closing : list call),
    calls (snd (_tmain uart atoi atof stof argc argv fs input fuel w)) =
      calls w ++
      call_list MAXLEN r0 :: call_open (string_literal "COM3") CBR_115200 3 hdl ::
      sets ++ closing /\
    Forall (is_Set_on hdl) sets /\
    (hdl < 0 ->
     sets = [] /\ closing = [] /\
     fst (_tmain uart atoi atof stof argc argv fs input fuel w) = Returned 0) /\
    (0 <= hdl ->
     match fst (_tmain uart atoi atof stof argc argv fs input fuel w) with
     | Returned r =>
         r = 0 /\
         exists r1 rc,
           last sets = Some (call_set hdl (command (enable_command 0)) WRITE_BUFFER_SIZE r1) /\
           closing = [call_close hdl rc]
     | _ => closing = []
     end).
Proof.
  intros Hinit. rewrite tmain_loaded by exact Hinit.
  destruct (fnUART_LIBRARY_list uart MAXLEN (device w)) as [[r0 bytes] d0] eqn:El.
  rewrite (bind_returned _ _ _ _ _ (List_result uart _ _ w r0 bytes d0 El)).
  cbv beta iota.
  destruct (Open_result uart (string_literal "COM3") (World d0 (calls w ++ [call_list MAXLEN r0])))
    as (hdl & d1 & Ho).
  rewrite (bind_returned _ _ _ _ _ Ho). cbn [calls] in *.
  set (w1 := World d1 ((calls w ++ [call_list MAXLEN r0]) ++
                       [call_open (string_literal "COM3") CBR_115200 3 hdl])).
  exists r0, hdl.
  destruct (Z.ltb_spec hdl 0) as [Hneg|Hpos].
  { exists [], []. cbn [fst snd mret M_ret calls w1].
    split; [now rewrite <- app_assoc|]. split; [constructor|].
    split; [now intros _ | lia]. }
  set (ch := fst (chosen atoi atof argc argv)).
  set (cur := snd (chosen atoi atof argc argv)).
  destruct (helper_SetChannel_only_sets uart hdl ch w1) as (new1 & Hc1 & HP1).
  rewrite bind_outcome.
  destruct (SetChannel uart hdl ch w1) as [[a1|a1|] w2]; cbn [snd] in Hc1.
  2,3: exists new1, []; cbn [fst snd]; rewrite Hc1, app_nil_r;
       (split; [subst w1; cbn [calls]; now rewrite <- !app_assoc|]);
       (split; [exact HP1|]); (split; [lia | now intros _]).
  destruct (main_loop_only_sets uart stof hdl fuel "" cur input w2) as (new2 & Hc2 & HP2).
  rewrite bind_outcome.
  destruct (main_loop uart stof fuel hdl "" cur input w2) as [[a2|a2|] w3]; cbn [snd] in Hc2.
  2,3: exists (new1 ++ new2), []; cbn [fst snd]; rewrite Hc2, Hc1, app_nil_r;
       (split; [subst w1; cbn [calls]; now rewrite <- !app_assoc|]);
       (split; [now apply Forall_app|]); (split; [lia | now intros _]).
  destruct (SetEnable_0_result uart hdl w3) as (r1 & d4 & He).
  rewrite (bind_returned _ _ _ _ _ He).
  destruct (Close_result uart hdl
              (World d4 (calls w3 ++
                 [call_set hdl (command (enable_command 0)) WRITE_BUFFER_SIZE r1])))
    as (rc & d5 & Hcl).
  rewrite (bind_returned _ _ _ _ _ Hcl).
  exists ((new1 ++ new2) ++ [call_set hdl (command (enable_command 0)) WRITE_BUFFER_SIZE r1]),
         [call_close hdl rc].
  cbn [fst snd mret M_ret calls]. rewrite Hc2, Hc1.
  split; [subst w1; cbn [calls]; now rewrite <- !app_assoc|].
  split.
  { apply Forall_app. split; [now apply Forall_app|].
    repeat constructor. now exists (command (enable_command 0)), r1. }
  split; [lia|]. intros _. split; [reflexivity|].
  exists r1, rc. split; [apply last_snoc | reflexivity].
Qed.

Lemma demo_only_sets_then_closes_witness :
  exists (r0 hdl : Z) (sets closing : list call),
    calls (snd (_tmain bench atoi_bench atof_bench stof_bench 1 ["demo"%string] installed
                  (c_lit "abc\nquit\n") 10 power_on)) =
      calls power_on ++
      call_list MAXLEN r0 :: call_open (string_literal "COM3") CBR_115200 3 hdl ::
      sets ++ closing /\
    Forall (is_Set_on hdl) sets /\
    (hdl < 0 ->
     sets = [] /\ closing = [] /\
     fst (_tmain bench atoi_bench atof_bench stof_bench 1 ["demo"%string] installed
            (c_lit "abc\nquit\n") 10 power_on) = Returned 0) /\
    (0 <= hdl ->
     match fst (_tmain bench atoi_bench atof_bench stof_bench 1 ["demo"%string] installed
                  (c_lit "abc\nquit\n") 10 power_on) with
     | Returned r =>
         r = 0 /\
         exists r1 rc,
           last sets = Some (call_set hdl (command (enable_command 0)) WRITE_BUFFER_SIZE r1) /\
           closing = [call_close hdl rc]
     | _ => closing = []
     end).
Proof.
  apply (demo_only_sets_then_closes bench atoi_bench atof_bench stof_bench
           1 ["demo"%string] installed (c_lit "abc\nquit\n") 10 power_on).
  vm_compute. reflexivity.
Defined.
